(** * Prompt Depth Anything: the fusion neck, the head and the prompt-depth
      normalization protocol

    A shallow embedding of
    [src/transformers/models/prompt_depth_anything/modular_prompt_depth_anything.py].

    - Tensors are records of a shape and of the values seen through
      [reshape(B, -1)]: one row per batch element.
    - The kernels of the tensor runtime (convolutions, bilinear
      interpolation, broadcasting addition) are the operations of a class
      [TorchOps]; what the runtime documents about their output shapes is
      the class [TorchLaws]. The kernels are total: where the runtime
      raises (an input whose channel count is not the layer's
      [in_channels], an output size that is not positive), the model has a
      tensor of the documented shape, so the theorems on shapes fix the
      batch size, the channel counts and the sizes of their inputs in their
      hypotheses.
    - Python exceptions and the order of sub-module calls are kept by a small
      error-and-trace monad [M].
    - The arithmetic of the normalization protocol is written once over a
      class [Scalar] and read over the rationals (exact arithmetic), over
      the rationals with a rounding after every operation, and over
      IEEE 754 binary32, the element type of [torch.FloatTensor]. The
      forward pass as a whole is read over the rationals. *)

From Stdlib Require Import String ZArith QArith Qround Qminmax Bool List Lia Lqa.
From Stdlib Require Import Floats.SpecFloat.
Import ListNotations.

Set Implicit Arguments.
Local Open Scope Z_scope.

(** ** Scalars *)

Class Scalar : Type := {
  num : Type;
  s_add : num -> num -> num;
  s_sub : num -> num -> num;
  s_mul : num -> num -> num;
  s_div : num -> num -> num;
  s_min : num -> num -> num;
  s_max : num -> num -> num;
  (** [x <= 0], the comparison of [invalid_mask] *)
  s_le_zero : num -> bool;
  (** the literal [1e-6] *)
  s_eps : num
}.

(** Exact arithmetic. *)
#[export] Instance QScalar : Scalar := {
  num := Q;
  s_add := Qplus;
  s_sub := Qminus;
  s_mul := Qmult;
  s_div := Qdiv;
  s_min := Qmin;
  s_max := Qmax;
  s_le_zero := fun x => Qle_bool x 0;
  s_eps := (1 # 1000000)%Q
}.

(** IEEE 754 binary32: 24 bits of precision, exponents below 128. *)
Module Binary32.

Definition prec : Z := 24.
Definition emax : Z := 128.

Definition of_Z (z : Z) : spec_float := binary_normalize prec emax z 0 false.

Definition is_nan (x : spec_float) : bool :=
  match x with S754_nan => true | _ => false end.

(** [torch.min] and [torch.max] propagate NaN. *)
Definition fmin (x y : spec_float) : spec_float :=
  if is_nan x || is_nan y then S754_nan else if SFleb x y then x else y.

Definition fmax (x y : spec_float) : spec_float :=
  if is_nan x || is_nan y then S754_nan else if SFleb x y then y else x.

(** The binary32 number nearest to [m * 2^e]. *)
Definition scaled (m e : Z) : spec_float := binary_normalize prec emax m e false.

(** The binary32 number nearest to [1e-6]. *)
Definition eps : spec_float := SFdiv prec emax (of_Z 1) (of_Z 1000000).

#[export] Instance scalar : Scalar := {
  num := spec_float;
  s_add := SFadd prec emax;
  s_sub := SFsub prec emax;
  s_mul := SFmul prec emax;
  s_div := SFdiv prec emax;
  s_min := fmin;
  s_max := fmax;
  s_le_zero := fun x => SFleb x (S754_zero false);
  s_eps := eps
}.

End Binary32.

(** ** The normalization protocol of [forward], on the rows of
       [prompt_depth.reshape(B, -1)] *)

Section Normalization.

Context {S : Scalar}.

(** A reduction over a row; [None] on an empty row, where the runtime
    raises. *)
Definition reduce (f : num -> num -> num) (row : list num) : option num :=
  match row with
  | [] => None
  | x :: rest => Some (fold_left f rest x)
  end.

Fixpoint reduce_dim1 (f : num -> num -> num) (rows : list (list num))
  : option (list num) :=
  match rows with
  | [] => Some []
  | row :: rest =>
      match reduce f row, reduce_dim1 f rest with
      | Some v, Some vs => Some (v :: vs)
      | _, _ => None
      end
  end.

(** [invalid_mask = (depth_max - depth_min) <= 0] *)
Definition invalid_mask (depth_min depth_max : list num) : list bool :=
  map (fun p => s_le_zero (s_sub (snd p) (fst p))) (combine depth_min depth_max).

(** [depth_max[invalid_mask] = depth_min[invalid_mask] + 1e-6] *)
Fixpoint masked_assign (mask : list bool) (depth_min depth_max : list num)
  : list num :=
  match mask, depth_min, depth_max with
  | b :: mask', mn :: mins, mx :: maxs =>
      (if b then s_add mn s_eps else mx) :: masked_assign mask' mins maxs
  | _, _, _ => depth_max
  end.

(** What lines 345-347 do to [depth_max] at one batch element. *)
Definition corrected (mn mx : num) : num :=
  if s_le_zero (s_sub mx mn) then s_add mn s_eps else mx.

(** Lines 341-347: the per-batch-element range, corrected. *)
Definition depth_range (rows : list (list num)) : option (list num * list num) :=
  match reduce_dim1 s_min rows, reduce_dim1 s_max rows with
  | Some depth_min, Some depth_max =>
      let mask := invalid_mask depth_min depth_max in
      let depth_max :=
        if existsb (fun b => b) mask
        then masked_assign mask depth_min depth_max
        else depth_max in
      Some (depth_min, depth_max)
  | _, _ => None
  end.

(** Line 349, one value: [(x - depth_min) / (depth_max - depth_min)]. *)
Definition normalize_value (mn mx x : num) : num :=
  s_div (s_sub x mn) (s_sub mx mn).

(** Line 358, one value: [y * (depth_max - depth_min) + depth_min]. *)
Definition denormalize_value (mn mx y : num) : num :=
  s_add (s_mul y (s_sub mx mn)) mn.

(** Line 349 on a prompt of four dimensions: [depth_min] and [depth_max],
    viewed as [(B, 1, 1, 1)], meet row [b] of the prompt at index [b]. *)
Fixpoint normalize_rows (rows : list (list num)) (depth_min depth_max : list num)
  : list (list num) :=
  match rows, depth_min, depth_max with
  | row :: rows', mn :: mins, mx :: maxs =>
      map (normalize_value mn mx) row :: normalize_rows rows' mins maxs
  | _, _, _ => []
  end.

End Normalization.

(** The uniform prompts of value 5 and of value 100, on one batch element
    of four pixels. *)
Definition uniform_5 : list (list spec_float) :=
  [[Binary32.of_Z 5; Binary32.of_Z 5; Binary32.of_Z 5; Binary32.of_Z 5]].

Definition uniform_100 : list (list spec_float) :=
  [[Binary32.of_Z 100; Binary32.of_Z 100; Binary32.of_Z 100; Binary32.of_Z 100]].

(** ** Python: exceptions, and the trace of sub-module calls *)

Inductive exn : Type :=
| NotImplementedError (msg : string)
| TypeError (msg : string)
| ValueError (msg : string)
| IndexError
| ZeroDivisionError
| RuntimeError.

(** The sub-modules that a [forward] calls. *)
Inductive submodule : Type :=
| Backbone
| NeckModule
| ReassembleStageModule
| NeckConv (i : nat)
| FusionStageModule
| FusionLayerModule (idx : nat)
| HeadModule.

Definition trace : Type := list submodule.

(** A computation reads the calls made so far, and returns an exception or
    a value together with the calls made by then. *)
Definition M (A : Type) : Type := trace -> (exn + A) * trace.

Definition ret {A : Type} (a : A) : M A := fun tr => (inr a, tr).

Definition raise {A : Type} (e : exn) : M A := fun tr => (inl e, tr).

Definition bind {A B : Type} (m : M A) (k : A -> M B) : M B :=
  fun tr =>
    match m tr with
    | (inl e, tr') => (inl e, tr')
    | (inr a, tr') => k a tr'
    end.

Definition call (s : submodule) : M unit := fun tr => (inr tt, tr ++ [s]).

Definition lift {A : Type} (r : exn + A) : M A := fun tr => (r, tr).

Declare Scope py_scope.
Delimit Scope py_scope with py.
Notation "x <- m ;; k" := (bind m (fun x => k))
  (at level 61, m at next level, right associativity) : py_scope.
Notation "m ;;; k" := (bind m (fun _ => k))
  (at level 61, right associativity) : py_scope.

(** [for x in items: st = body(st, x)] *)
Fixpoint for_each {A St : Type} (body : St -> A -> M St) (items : list A) (st : St)
  : M St :=
  match items with
  | [] => ret st
  | x :: rest => bind (body st x) (for_each body rest)
  end.

(** [enumerate(items)] *)
Definition enumerate {A : Type} (items : list A) : list (nat * A) :=
  combine (seq 0 (length items)) items.

(** [items[i]], negative indices counting from the end. *)
Definition getitem {A : Type} (items : list A) (i : Z) : exn + A :=
  let n := Z.of_nat (length items) in
  let j := if i <? 0 then n + i else i in
  if (j <? 0) || (n <=? j) then inl IndexError
  else match nth_error items (Z.to_nat j) with
       | Some x => inr x
       | None => inl IndexError
       end.

(** Modelled from the spec: [torch_int], the helper of
    [transformers.utils.generic], is not among the sources. The spec reads
    the stride that it computes as [round(1/factor)]; the rounding below is
    Python's, to the nearest integer and to the even one at a tie. On an
    integer it is the identity, as any cast to [int] is. *)
Definition torch_int (x : Q) : Z :=
  let f := Qfloor x in
  match Qcompare (x - inject_Z f) (1 # 2) with
  | Lt => f
  | Gt => f + 1
  | Eq => if Z.even f then f else f + 1
  end.

(** ** Tensors *)

(** [shape] is [t.shape]; [data] is [t.reshape(B, -1)], one row per batch
    element. *)
Record tensor : Type := Tensor { shape : list Z; data : list (list Q) }.

(** The values that [feature_maps] may hold. *)
Inductive pyobj : Type :=
| PyList (items : list tensor)
| PyTuple (items : list tensor)
| PyTensor (t : tensor)
| PyNone.

(** [isinstance(x, (tuple, list))] *)
Definition is_tuple_or_list (x : pyobj) : bool :=
  match x with
  | PyList _ | PyTuple _ => true
  | _ => false
  end.

Definition Zlist_eqb (a b : list Z) : bool :=
  if list_eq_dec Z.eq_dec a b then true else false.

(** An elementwise operation. *)
Definition tmap (f : Q -> Q) (t : tensor) : tensor :=
  Tensor (shape t) (map (map f) (data t)).

(** [nn.ReLU] *)
Definition relu : tensor -> tensor := tmap (Qmax 0).

(** [t.squeeze(dim=1)]: the dimension goes when it is 1. *)
Definition squeeze1 (t : tensor) : tensor :=
  match shape t with
  | b :: 1 :: rest => Tensor (b :: rest) (data t)
  | _ => t
  end.

(** ** The tensor runtime *)

Record conv_params : Type := ConvParams {
  in_channels : Z;
  out_channels : Z;
  kernel_size : Z;
  stride : Z;
  padding : Z
}.

(** The keyword arguments of [nn.functional.interpolate]. *)
Inductive modifier : Type :=
| ScaleFactor (k : Z)
| Size (s : list Z).

Class TorchOps : Type := {
  weights : Type;
  conv2d : conv_params -> weights -> tensor -> tensor;
  conv_transpose2d : conv_params -> weights -> tensor -> tensor;
  (** [interpolate t modifier align_corners], in bilinear mode *)
  interpolate : tensor -> modifier -> bool -> tensor;
  tensor_add : tensor -> tensor -> tensor
}.

(** Output sizes along one spatial dimension, dilation 1 and no output
    padding. *)
Definition conv_out (n k s p : Z) : Z := (n + 2 * p - k) / s + 1.

Definition conv_transpose_out (n k s p : Z) : Z := (n - 1) * s - 2 * p + k.

Definition conv2d_shape (p : conv_params) (s : list Z) : list Z :=
  match s with
  | [b; _; h; w] =>
      [b; out_channels p;
       conv_out h (kernel_size p) (stride p) (padding p);
       conv_out w (kernel_size p) (stride p) (padding p)]
  | _ => s
  end.

Definition conv_transpose2d_shape (p : conv_params) (s : list Z) : list Z :=
  match s with
  | [b; _; h; w] =>
      [b; out_channels p;
       conv_transpose_out h (kernel_size p) (stride p) (padding p);
       conv_transpose_out w (kernel_size p) (stride p) (padding p)]
  | _ => s
  end.

Definition interpolate_shape (s : list Z) (m : modifier) : list Z :=
  match s, m with
  | [b; c; h; w], ScaleFactor k => [b; c; h * k; w * k]
  | [b; c; _; _], Size [h; w] => [b; c; h; w]
  | _, _ => s
  end.

(** A target is a height and a width; a scale factor is positive. *)
Definition modifier_ok (m : modifier) : Prop :=
  match m with
  | ScaleFactor k => 0 < k
  | Size s => length s = 2%nat
  end.

(** Broadcasting of two shapes, aligned at their last dimensions. *)
Fixpoint broadcast_aligned (a b : list Z) : option (list Z) :=
  match a, b with
  | [], _ => Some b
  | _, [] => Some a
  | x :: a', y :: b' =>
      match broadcast_aligned a' b' with
      | None => None
      | Some r =>
          if x =? y then Some (x :: r)
          else if x =? 1 then Some (y :: r)
          else if y =? 1 then Some (x :: r)
          else None
      end
  end.

Definition broadcast_shapes (a b : list Z) : option (list Z) :=
  option_map (@rev Z) (broadcast_aligned (rev a) (rev b)).

(** What the runtime documents about the shapes of its results, on
    4-dimensional inputs. *)
Class TorchLaws (ops : TorchOps) : Prop := {
  conv2d_has_shape : forall p w t b c h wd,
    shape t = [b; c; h; wd] ->
    shape (conv2d p w t) = conv2d_shape p (shape t);
  conv_transpose2d_has_shape : forall p w t b c h wd,
    shape t = [b; c; h; wd] ->
    shape (conv_transpose2d p w t) = conv_transpose2d_shape p (shape t);
  interpolate_has_shape : forall t m ac b c h wd,
    shape t = [b; c; h; wd] ->
    modifier_ok m ->
    shape (interpolate t m ac) = interpolate_shape (shape t) m;
  tensor_add_has_shape : forall x y s,
    broadcast_shapes (shape x) (shape y) = Some s ->
    shape (tensor_add x y) = s
}.

(** A layer of [torch.nn] built by a constructor of this file. *)
Inductive module {ops : TorchOps} : Type :=
| Conv2d (p : conv_params) (w : weights)
| ConvTranspose2d (p : conv_params) (w : weights)
| Identity.

Definition apply {ops : TorchOps} (m : module) (t : tensor) : tensor :=
  match m with
  | Conv2d p w => conv2d p w t
  | ConvTranspose2d p w => conv_transpose2d p w t
  | Identity => t
  end.

Local Open Scope py_scope.

(** ** [PromptDepthAnythingConfig]: the fields that this file reads *)

Module PromptDepthAnythingConfig.

Record t : Type := {
  patch_size : Z;
  fusion_hidden_size : Z;
  reassemble_hidden_size : Z;
  neck_hidden_sizes : list Z;
  use_return_dict : bool;
  output_hidden_states : bool;
  output_attentions : bool
}.

End PromptDepthAnythingConfig.

(** ** [PromptDepthAnythingLayer] *)

Module PromptDepthAnythingLayer.
Section Defs.
Context {ops : TorchOps}.

Record t : Type := {
  convolution1 : module;
  activation1 : tensor -> tensor;
  convolution2 : module;
  activation2 : tensor -> tensor;
  convolution3 : module
}.

Definition init (config : PromptDepthAnythingConfig.t) (w1 w2 w3 : weights) : t :=
  let hidden := PromptDepthAnythingConfig.fusion_hidden_size config in
  {| convolution1 := Conv2d (ConvParams 1 hidden 3 1 1) w1;
     activation1 := relu;
     convolution2 := Conv2d (ConvParams hidden hidden 3 1 1) w2;
     activation2 := relu;
     convolution3 := Conv2d (ConvParams hidden hidden 3 1 1) w3 |}.

Definition forward (self : t) (prompt_depth : tensor) : tensor :=
  let hidden_state := apply (convolution1 self) prompt_depth in
  let hidden_state := activation1 self hidden_state in
  let hidden_state := apply (convolution2 self) hidden_state in
  let hidden_state := activation2 self hidden_state in
  let hidden_state := apply (convolution3 self) hidden_state in
  hidden_state.

End Defs.
End PromptDepthAnythingLayer.

(** ** [PromptDepthAnythingFeatureFusionLayer] *)

Module PromptDepthAnythingFeatureFusionLayer.
Section Defs.
Context {ops : TorchOps}.

(** [residual_layer1], [residual_layer2] and [projection] are built by the
    constructor of the parent class. *)
Record t : Type := {
  residual_layer1 : tensor -> tensor;
  residual_layer2 : tensor -> tensor;
  projection : tensor -> tensor;
  prompt_depth_layer : PromptDepthAnythingLayer.t
}.

Definition forward (self : t) (hidden_state : tensor) (residual : option tensor)
  (size : option (list Z)) (prompt_depth : option tensor) : tensor :=
  let hidden_state :=
    match residual with
    | Some residual =>
        let residual :=
          if negb (Zlist_eqb (shape hidden_state) (shape residual))
          then interpolate residual (Size (skipn 2 (shape hidden_state))) false
          else residual in
        tensor_add hidden_state (residual_layer1 self residual)
    | None => hidden_state
    end in
  let hidden_state := residual_layer2 self hidden_state in
  let hidden_state :=
    match prompt_depth with
    | Some prompt_depth =>
        let prompt_depth :=
          interpolate prompt_depth (Size (skipn 2 (shape hidden_state))) false in
        let res := PromptDepthAnythingLayer.forward (prompt_depth_layer self) prompt_depth in
        tensor_add hidden_state res
    | None => hidden_state
    end in
  let modifier :=
    match size with
    | None => ScaleFactor 2
    | Some size => Size size
    end in
  let hidden_state := interpolate hidden_state modifier true in
  let hidden_state := projection self hidden_state in
  hidden_state.

End Defs.
End PromptDepthAnythingFeatureFusionLayer.

(** ** [PromptDepthAnythingFeatureFusionStage] *)

Module PromptDepthAnythingFeatureFusionStage.
Section Defs.
Context {ops : TorchOps}.

Record t : Type := { layers : list PromptDepthAnythingFeatureFusionLayer.t }.

(** The variables that the loop assigns; [size] is the parameter of
    [forward] itself. *)
Record locals : Type := {
  size : option (list Z);
  fused_hidden_state : option tensor;
  fused_hidden_states : list tensor
}.

(** One turn of the loop over [enumerate(zip(hidden_states, self.layers))];
    [hidden_states] is the reversed list. *)
Definition body (hidden_states : list tensor) (prompt_depth : option tensor)
  (st : locals) (item : nat * (tensor * PromptDepthAnythingFeatureFusionLayer.t))
  : M locals :=
  let '(idx, (hidden_state, layer)) := item in
  size <- (if negb (Z.of_nat idx =? Z.of_nat (length hidden_states) - 1)
           then match getitem hidden_states (Z.of_nat idx + 1) with
                | inr next => ret (Some (skipn 2 (shape next)))
                | inl e => raise e
                end
           else ret None) ;;
  call (FusionLayerModule idx) ;;;
  let fused :=
    match fused_hidden_state st with
    | None =>
        PromptDepthAnythingFeatureFusionLayer.forward layer hidden_state None size prompt_depth
    | Some fused_hidden_state =>
        PromptDepthAnythingFeatureFusionLayer.forward layer fused_hidden_state
          (Some hidden_state) size prompt_depth
    end in
  ret {| size := size;
         fused_hidden_state := Some fused;
         fused_hidden_states := fused_hidden_states st ++ [fused] |}.

Definition forward (self : t) (hidden_states : list tensor) (size : option (list Z))
  (prompt_depth : option tensor) : M (list tensor) :=
  let hidden_states := rev hidden_states in
  st <- for_each (body hidden_states prompt_depth)
          (enumerate (combine hidden_states (layers self)))
          {| size := size; fused_hidden_state := None; fused_hidden_states := [] |} ;;
  ret (fused_hidden_states st).

End Defs.
End PromptDepthAnythingFeatureFusionStage.

(** ** [PromptDepthAnythingDepthEstimationHead] *)

Module PromptDepthAnythingDepthEstimationHead.

(** The attributes are set by the constructor of the parent class;
    [activation2] acts on each value. *)
Record t : Type := {
  head_in_index : Z;
  patch_size : Z;
  max_depth : Q;
  conv1 : tensor -> tensor;
  conv2 : tensor -> tensor;
  activation1 : tensor -> tensor;
  conv3 : tensor -> tensor;
  activation2 : Q -> Q
}.

(** Lines 137-138: the resolution that the head interpolates to. *)
Definition target_size (self : t) (patch_height patch_width : Z) : Z * Z :=
  (torch_int (inject_Z (patch_height * patch_size self)),
   torch_int (inject_Z (patch_width * patch_size self))).

Section Defs.
Context {ops : TorchOps}.

Definition forward (self : t) (hidden_states : list tensor)
  (patch_height patch_width : Z) : M tensor :=
  hidden_states <- lift (getitem hidden_states (head_in_index self)) ;;
  let predicted_depth := conv1 self hidden_states in
  let '(target_height, target_width) := target_size self patch_height patch_width in
  let predicted_depth :=
    interpolate predicted_depth (Size [target_height; target_width]) true in
  let predicted_depth := conv2 self predicted_depth in
  let predicted_depth := activation1 self predicted_depth in
  let predicted_depth := conv3 self predicted_depth in
  let predicted_depth :=
    tmap (fun x => (x * max_depth self)%Q) (tmap (activation2 self) predicted_depth) in
  let predicted_depth := squeeze1 predicted_depth in
  ret predicted_depth.

End Defs.
End PromptDepthAnythingDepthEstimationHead.

(** ** [PromptDepthAnythingReassembleLayer] *)

Module PromptDepthAnythingReassembleLayer.
Section Defs.
Context {ops : TorchOps}.

Record t : Type := { projection : module; resize : module }.

(** A kernel size is a Python [int]: a rational with denominator 1. A
    factor is a rational here, so the [int] 2 and the [float] 2.0 are one
    value, and the model builds the layer for both. *)
Definition as_int (q : Q) : option Z :=
  let r := Qred q in
  if (Qden r =? 1)%positive then Some (Qnum r) else None.

Definition init (config : PromptDepthAnythingConfig.t) (channels : Z) (factor : Q)
  (w_projection w_resize : weights) : exn + t :=
  let projection :=
    Conv2d (ConvParams (PromptDepthAnythingConfig.reassemble_hidden_size config)
              channels 1 1 0) w_projection in
  (* up/down sampling depending on factor *)
  if Qlt_le_dec 1 factor then
    match as_int factor with
    | Some k =>
        inr {| projection := projection;
               resize := ConvTranspose2d (ConvParams channels channels k k 0) w_resize |}
    | None => inl (TypeError "kernel_size")
    end
  else if Qeq_bool factor 1 then
    inr {| projection := projection; resize := Identity |}
  else
    (* so should downsample *)
    if Qeq_bool factor 0 then inl ZeroDivisionError
    else
      let stride := torch_int (1 / factor) in
      inr {| projection := projection;
             resize := Conv2d (ConvParams channels channels 3 stride 1) w_resize |}.

(** Modelled from the spec: the [forward] of the parent class is not among
    the sources. "A 1x1 convolution projects the channel count to
    [channels] before the resize step is applied (projection always
    precedes resize)." *)
Definition forward (self : t) (hidden_state : tensor) : tensor :=
  let hidden_state := apply (projection self) hidden_state in
  let hidden_state := apply (resize self) hidden_state in
  hidden_state.

End Defs.
End PromptDepthAnythingReassembleLayer.

(** ** [PromptDepthAnythingReassembleStage] *)

Module PromptDepthAnythingReassembleStage.
Section Defs.
Context {ops : TorchOps}.

Record t : Type := { layers : list PromptDepthAnythingReassembleLayer.t }.

(** Modelled from the spec: level [i] goes through layer [i], "each the
    result of the corresponding level's ReassembleLayer, in input order". *)
Fixpoint zip_layers (layers : list PromptDepthAnythingReassembleLayer.t)
  (hidden_states : list tensor) : list tensor :=
  match layers, hidden_states with
  | layer :: layers', hidden_state :: rest =>
      PromptDepthAnythingReassembleLayer.forward layer hidden_state
        :: zip_layers layers' rest
  | _, _ => []
  end.

(** Modelled from the spec: the class body is [pass] and the [forward] of
    the parent class is not among the sources. "Input is an ordered list of
    backbone feature maps, one per neck level (list length MUST equal the
    configured number of neck hidden sizes; mismatch is a contract violation
    reported to the caller). Output: list of the same length, each the
    result of the corresponding level's ReassembleLayer, in input order." *)
Definition forward (self : t) (hidden_states : list tensor)
  (patch_height patch_width : option Z) : M (list tensor) :=
  if negb (length hidden_states =? length (layers self))%nat
  then raise (ValueError "The number of hidden states should be equal to the number of neck hidden sizes.")
  else ret (zip_layers (layers self) hidden_states).

End Defs.
End PromptDepthAnythingReassembleStage.

(** ** [PromptDepthAnythingNeck] *)

Module PromptDepthAnythingNeck.
Section Defs.
Context {ops : TorchOps}.

(** [convs] holds the readout convolutions built by the constructor of the
    parent class. *)
Record t : Type := {
  config : PromptDepthAnythingConfig.t;
  reassemble_stage : PromptDepthAnythingReassembleStage.t;
  convs : list (tensor -> tensor);
  fusion_stage : PromptDepthAnythingFeatureFusionStage.t
}.

(** [len(x)] and iteration over a tuple or a list. *)
Definition items_of (x : pyobj) : list tensor :=
  match x with
  | PyList l | PyTuple l => l
  | _ => []
  end.

(** One element of
    [[self.convs[i](feature) for i, feature in enumerate(hidden_states)]]. *)
Definition readout (self : t) (features : list tensor) (item : nat * tensor)
  : M (list tensor) :=
  let '(i, feature) := item in
  conv <- lift (getitem (convs self) (Z.of_nat i)) ;;
  call (NeckConv i) ;;;
  ret (features ++ [conv feature]).

Definition forward (self : t) (hidden_states : pyobj)
  (patch_height patch_width : option Z) (prompt_depth : option tensor)
  : M (list tensor) :=
  if negb (is_tuple_or_list hidden_states)
  then raise (TypeError "hidden_states should be a tuple or list of tensors")
  else
    let hidden_states := items_of hidden_states in
    if negb (length hidden_states
               =? length (PromptDepthAnythingConfig.neck_hidden_sizes (config self)))%nat
    then raise (ValueError "The number of hidden states should be equal to the number of neck hidden sizes.")
    else
      (* postprocess hidden states *)
      call ReassembleStageModule ;;;
      hidden_states <- PromptDepthAnythingReassembleStage.forward
                         (reassemble_stage self) hidden_states patch_height patch_width ;;
      features <- for_each (readout self) (enumerate hidden_states) [] ;;
      (* fusion blocks *)
      call FusionStageModule ;;;
      output <- PromptDepthAnythingFeatureFusionStage.forward
                  (fusion_stage self) features None prompt_depth ;;
      ret output.

End Defs.
End PromptDepthAnythingNeck.

(** ** The backbone's result and the result of the model *)

Module BackboneOutput.

(** [as_tuple] is the view that slicing reads: [outputs[1:]]. *)
Record t : Type := {
  feature_maps : pyobj;
  hidden_states : option pyobj;
  attentions : option pyobj;
  as_tuple : list pyobj
}.

End BackboneOutput.

Module DepthEstimatorOutput.

Record t : Type := {
  loss : option tensor;
  predicted_depth : tensor;
  hidden_states : option pyobj;
  attentions : option pyobj
}.

End DepthEstimatorOutput.

(** What [forward] returns: a plain tuple that starts with the predicted
    depth, or a [DepthEstimatorOutput]. *)
Inductive output : Type :=
| PlainTuple (predicted_depth : tensor) (rest : list pyobj)
| ModelOutput (out : DepthEstimatorOutput.t).

Definition predicted_depth_of (o : output) : tensor :=
  match o with
  | PlainTuple predicted_depth _ => predicted_depth
  | ModelOutput out => DepthEstimatorOutput.predicted_depth out
  end.

(** ** Broadcasting of values *)

(** The values of a tensor in row-major order are the concatenation of its
    rows; [chunks n size] cuts them into [n] pieces of [size] values. *)
Fixpoint chunks {A : Type} (n size : nat) (flat : list A) : list (list A) :=
  match n with
  | O => []
  | S n' => firstn size flat :: chunks n' size (skipn size flat)
  end.

Definition numel (s : list Z) : nat := Z.to_nat (fold_right Z.mul 1 s).

(** [t.expand(to)] on the values of a tensor of shape [from], for shapes of
    one length: a dimension of size 1 is repeated. *)
Fixpoint expand {A : Type} (from to : list Z) (flat : list A) : list A :=
  match from, to with
  | d :: from', D :: to' =>
      if d =? D
      then concat (map (expand from' to') (chunks (Z.to_nat d) (numel from') flat))
      else concat (repeat (expand from' to' flat) (Z.to_nat D))
  | _, _ => flat
  end.

(** Broadcasting to the shape [to]: the dimensions that [s] lacks in front
    count as 1. *)
Definition broadcast_to {A : Type} (s : list Z) (flat : list A) (to : list Z) : list A :=
  expand (repeat 1 (length to - length s)%nat ++ s) to flat.

(** The rows of a tensor of shape [s], from its values. *)
Definition rows_of {A : Type} (s : list Z) (flat : list A) : list (list A) :=
  match s with
  | [] => [flat]
  | b :: rest => chunks (Z.to_nat b) (numel rest) flat
  end.

(** ** [PromptDepthAnythingForDepthEstimation] *)

Module PromptDepthAnythingForDepthEstimation.

(** Rows against per-batch-element values under broadcasting of the batch
    dimension: equal sizes meet index by index, a size of one is repeated. *)
Definition broadcast_rows {A B C : Type} (f : A -> B -> C) (xs : list A) (ys : list B)
  : option (list C) :=
  if (length xs =? length ys)%nat
  then Some (map (fun p => f (fst p) (snd p)) (combine xs ys))
  else match xs, ys with
       | _, [y] => Some (map (fun x => f x y) xs)
       | [x], _ => Some (map (fun y => f x y) ys)
       | _, _ => None
       end.

(** Lines 340-349. The result is the normalized prompt with [depth_min] and
    [depth_max]. [reshape(B, -1)] raises on an empty batch, the reductions
    raise on rows without values, and line 349 broadcasts the prompt
    against [depth_min] and [depth_max] viewed as [(B, 1, 1, 1)]. *)
Definition normalize_prompt_depth (prompt_depth : tensor)
  : exn + (tensor * (list Q * list Q)) :=
  match shape prompt_depth with
  | [] => inl IndexError
  | B :: _ =>
      if B =? 0 then inl RuntimeError
      else
        match depth_range (S:=QScalar) (data prompt_depth) with
        | None => inl IndexError
        | Some (depth_min, depth_max) =>
            match broadcast_shapes (shape prompt_depth) [B; 1; 1; 1] with
            | None => inl RuntimeError
            | Some s =>
                let x := broadcast_to (shape prompt_depth) (concat (data prompt_depth)) s in
                let mn := broadcast_to [B; 1; 1; 1] depth_min s in
                let mx := broadcast_to [B; 1; 1; 1] depth_max s in
                let values :=
                  map (fun p => normalize_value (S:=QScalar) (fst (fst p)) (snd (fst p)) (snd p))
                    (combine (combine mn mx) x) in
                inr (Tensor s (rows_of s values), (depth_min, depth_max))
            end
        end
  end.

(** Lines 357-358: [depth_min] and [depth_max] have shape [(B, 1, 1)]. *)
Definition denormalize (predicted_depth : tensor) (depth_min depth_max : list Q)
  : exn + tensor :=
  let B := Z.of_nat (length depth_min) in
  match broadcast_shapes (shape predicted_depth) [B; 1; 1],
        broadcast_rows
          (fun row range =>
             map (denormalize_value (S:=QScalar) (fst range) (snd range)) row)
          (data predicted_depth) (combine depth_min depth_max) with
  | Some s, Some rows => inr (Tensor s rows)
  | _, _ => inl RuntimeError
  end.

(** Lines 335-336: [height // patch_size] and [width // patch_size]. *)
Definition patch_grid (patch_size height width : Z) : Z * Z :=
  (height / patch_size, width / patch_size).

Section Defs.
Context {ops : TorchOps}.

(** [backbone] is [self.backbone.forward_with_filtered_kwargs] with its
    arguments [pixel_values], [output_hidden_states], [output_attentions]. *)
Record t : Type := {
  config : PromptDepthAnythingConfig.t;
  backbone : tensor -> bool -> bool -> BackboneOutput.t;
  neck : PromptDepthAnythingNeck.t;
  head : PromptDepthAnythingDepthEstimationHead.t
}.

Definition or_default (flag : option bool) (default : bool) : bool :=
  match flag with
  | Some b => b
  | None => default
  end.

(** Lines 361-373, with [loss = None]. *)
Definition assemble (outputs : BackboneOutput.t) (predicted_depth : tensor)
  (return_dict output_hidden_states : bool) : output :=
  if negb return_dict then
    if output_hidden_states
    then PlainTuple predicted_depth (skipn 1 (BackboneOutput.as_tuple outputs))
    else PlainTuple predicted_depth (skipn 2 (BackboneOutput.as_tuple outputs))
  else
    ModelOutput
      {| DepthEstimatorOutput.loss := None;
         DepthEstimatorOutput.predicted_depth := predicted_depth;
         DepthEstimatorOutput.hidden_states :=
           if output_hidden_states then BackboneOutput.hidden_states outputs else None;
         DepthEstimatorOutput.attentions := BackboneOutput.attentions outputs |}.

Definition forward (self : t) (pixel_values : tensor) (labels : option tensor)
  (output_attentions output_hidden_states : option bool)
  (prompt_depth : option tensor) (return_dict : option bool) : M output :=
  match labels with
  | Some _ => raise (NotImplementedError "Training is not implemented yet")
  | None =>
      let return_dict :=
        or_default return_dict (PromptDepthAnythingConfig.use_return_dict (config self)) in
      let output_hidden_states :=
        or_default output_hidden_states
          (PromptDepthAnythingConfig.output_hidden_states (config self)) in
      let output_attentions :=
        or_default output_attentions
          (PromptDepthAnythingConfig.output_attentions (config self)) in
      call Backbone ;;;
      let outputs := backbone self pixel_values output_hidden_states output_attentions in
      let hidden_states := BackboneOutput.feature_maps outputs in
      match shape pixel_values with
      | [_; _; height; width] =>
          let patch_size := PromptDepthAnythingConfig.patch_size (config self) in
          if patch_size =? 0 then raise ZeroDivisionError
          else
            let '(patch_height, patch_width) := patch_grid patch_size height width in
            normalized <-
              match prompt_depth with
              | Some prompt_depth =>
                  (* normalize prompt depth *)
                  match normalize_prompt_depth prompt_depth with
                  | inr (prompt_depth, range) => ret (Some prompt_depth, Some range)
                  | inl e => raise e
                  end
              | None => ret (None, None)
              end ;;
            let '(prompt_depth, range) := normalized in
            call NeckModule ;;;
            hidden_states <- PromptDepthAnythingNeck.forward (neck self) hidden_states
                               (Some patch_height) (Some patch_width) prompt_depth ;;
            call HeadModule ;;;
            predicted_depth <- PromptDepthAnythingDepthEstimationHead.forward (head self)
                                 hidden_states patch_height patch_width ;;
            predicted_depth <-
              match range with
              | Some (depth_min, depth_max) =>
                  (* denormalize predicted depth *)
                  lift (denormalize predicted_depth depth_min depth_max)
              | None => ret predicted_depth
              end ;;
            ret (assemble outputs predicted_depth return_dict output_hidden_states)
      | _ => raise (ValueError "not enough values to unpack")
      end
  end.

End Defs.
End PromptDepthAnythingForDepthEstimation.

(** ** The pipeline without its prompt-depth branches

    The comparison pipeline of the spec's scenario D: "explicitly skipping
    every prompt-depth branch (normalization, PromptFusionConv injection,
    denormalization)". Each [forward] below is the one above with these
    branches deleted and the parameter [prompt_depth] gone. *)

Module WithoutPrompt.
Section Defs.
Context {ops : TorchOps}.

Definition fusion_layer_forward (self : PromptDepthAnythingFeatureFusionLayer.t)
  (hidden_state : tensor) (residual : option tensor) (size : option (list Z)) : tensor :=
  let hidden_state :=
    match residual with
    | Some residual =>
        let residual :=
          if negb (Zlist_eqb (shape hidden_state) (shape residual))
          then interpolate residual (Size (skipn 2 (shape hidden_state))) false
          else residual in
        tensor_add hidden_state
          (PromptDepthAnythingFeatureFusionLayer.residual_layer1 self residual)
    | None => hidden_state
    end in
  let hidden_state := PromptDepthAnythingFeatureFusionLayer.residual_layer2 self hidden_state in
  let modifier :=
    match size with
    | None => ScaleFactor 2
    | Some size => Size size
    end in
  let hidden_state := interpolate hidden_state modifier true in
  PromptDepthAnythingFeatureFusionLayer.projection self hidden_state.

Definition fusion_stage_body (hidden_states : list tensor)
  (st : PromptDepthAnythingFeatureFusionStage.locals)
  (item : nat * (tensor * PromptDepthAnythingFeatureFusionLayer.t))
  : M PromptDepthAnythingFeatureFusionStage.locals :=
  let '(idx, (hidden_state, layer)) := item in
  size <- (if negb (Z.of_nat idx =? Z.of_nat (length hidden_states) - 1)
           then match getitem hidden_states (Z.of_nat idx + 1) with
                | inr next => ret (Some (skipn 2 (shape next)))
                | inl e => raise e
                end
           else ret None) ;;
  call (FusionLayerModule idx) ;;;
  let fused :=
    match PromptDepthAnythingFeatureFusionStage.fused_hidden_state st with
    | None => fusion_layer_forward layer hidden_state None size
    | Some fused_hidden_state =>
        fusion_layer_forward layer fused_hidden_state (Some hidden_state) size
    end in
  ret {| PromptDepthAnythingFeatureFusionStage.size := size;
         PromptDepthAnythingFeatureFusionStage.fused_hidden_state := Some fused;
         PromptDepthAnythingFeatureFusionStage.fused_hidden_states :=
           PromptDepthAnythingFeatureFusionStage.fused_hidden_states st ++ [fused] |}.

Definition fusion_stage_forward (self : PromptDepthAnythingFeatureFusionStage.t)
  (hidden_states : list tensor) (size : option (list Z)) : M (list tensor) :=
  let hidden_states := rev hidden_states in
  st <- for_each (fusion_stage_body hidden_states)
          (enumerate (combine hidden_states (PromptDepthAnythingFeatureFusionStage.layers self)))
          {| PromptDepthAnythingFeatureFusionStage.size := size;
             PromptDepthAnythingFeatureFusionStage.fused_hidden_state := None;
             PromptDepthAnythingFeatureFusionStage.fused_hidden_states := [] |} ;;
  ret (PromptDepthAnythingFeatureFusionStage.fused_hidden_states st).

Definition neck_forward (self : PromptDepthAnythingNeck.t) (hidden_states : pyobj)
  (patch_height patch_width : option Z) : M (list tensor) :=
  if negb (is_tuple_or_list hidden_states)
  then raise (TypeError "hidden_states should be a tuple or list of tensors")
  else
    let hidden_states := PromptDepthAnythingNeck.items_of hidden_states in
    if negb (length hidden_states
               =? length (PromptDepthAnythingConfig.neck_hidden_sizes
                            (PromptDepthAnythingNeck.config self)))%nat
    then raise (ValueError "The number of hidden states should be equal to the number of neck hidden sizes.")
    else
      call ReassembleStageModule ;;;
      hidden_states <- PromptDepthAnythingReassembleStage.forward
                         (PromptDepthAnythingNeck.reassemble_stage self)
                         hidden_states patch_height patch_width ;;
      features <- for_each (PromptDepthAnythingNeck.readout self)
                    (enumerate hidden_states) [] ;;
      call FusionStageModule ;;;
      fusion_stage_forward (PromptDepthAnythingNeck.fusion_stage self) features None.

Definition forward (self : PromptDepthAnythingForDepthEstimation.t)
  (pixel_values : tensor) (labels : option tensor)
  (output_attentions output_hidden_states : option bool)
  (return_dict : option bool) : M output :=
  match labels with
  | Some _ => raise (NotImplementedError "Training is not implemented yet")
  | None =>
      let config := PromptDepthAnythingForDepthEstimation.config self in
      let return_dict :=
        PromptDepthAnythingForDepthEstimation.or_default return_dict
          (PromptDepthAnythingConfig.use_return_dict config) in
      let output_hidden_states :=
        PromptDepthAnythingForDepthEstimation.or_default output_hidden_states
          (PromptDepthAnythingConfig.output_hidden_states config) in
      let output_attentions :=
        PromptDepthAnythingForDepthEstimation.or_default output_attentions
          (PromptDepthAnythingConfig.output_attentions config) in
      call Backbone ;;;
      let outputs :=
        PromptDepthAnythingForDepthEstimation.backbone self pixel_values
          output_hidden_states output_attentions in
      let hidden_states := BackboneOutput.feature_maps outputs in
      match shape pixel_values with
      | [_; _; height; width] =>
          let patch_size := PromptDepthAnythingConfig.patch_size config in
          if patch_size =? 0 then raise ZeroDivisionError
          else
            let '(patch_height, patch_width) :=
              PromptDepthAnythingForDepthEstimation.patch_grid patch_size height width in
            call NeckModule ;;;
            hidden_states <- neck_forward (PromptDepthAnythingForDepthEstimation.neck self)
                               hidden_states (Some patch_height) (Some patch_width) ;;
            call HeadModule ;;;
            predicted_depth <- PromptDepthAnythingDepthEstimationHead.forward
                                 (PromptDepthAnythingForDepthEstimation.head self)
                                 hidden_states patch_height patch_width ;;
            ret (PromptDepthAnythingForDepthEstimation.assemble outputs predicted_depth
                   return_dict output_hidden_states)
      | _ => raise (ValueError "not enough values to unpack")
      end
  end.

End Defs.
End WithoutPrompt.

(** ** Well-formed models and inputs *)

(** The rows of [t] are those of its shape: one row per batch element, of
    as many values as the other dimensions hold. *)
Definition well_formed_tensor (t : tensor) : Prop :=
  match shape t with
  | [] => False
  | b :: rest =>
      Z.of_nat (length (data t)) = b /\
      Forall (fun row => Z.of_nat (length row) = fold_right Z.mul 1 rest) (data t)
  end.

(** A layer that takes feature maps of [cin] channels to feature maps of
    [cout] channels, the batch and the resolution kept. *)
Definition maps_channels (f : tensor -> tensor) (cin cout : Z) : Prop :=
  forall t b h w, shape t = [b; cin; h; w] -> shape (f t) = [b; cout; h; w].

(** A feature map of the fusion width and of batch size [b]. *)
Definition fused_map (config : PromptDepthAnythingConfig.t) (b : Z) (t : tensor) : Prop :=
  exists h w,
    shape t = [b; PromptDepthAnythingConfig.fusion_hidden_size config; h; w].

(** A prompt, when there is one, is a one-channel map of batch size [b]. *)
Definition prompt_ok (b : Z) (prompt_depth : option tensor) : Prop :=
  match prompt_depth with
  | None => True
  | Some p => exists h w, shape p = [b; 1; h; w]
  end.

(** A prompt of the documented shape [(b, 1, h, w)], with its values. *)
Definition prompt_well_formed (b : Z) (prompt_depth : option tensor) : Prop :=
  match prompt_depth with
  | None => True
  | Some p =>
      exists h w, shape p = [b; 1; h; w] /\ 0 < h /\ 0 < w /\ well_formed_tensor p
  end.

Section WellFormed.
Context {ops : TorchOps}.

Record fusion_layer_ok (config : PromptDepthAnythingConfig.t)
  (layer : PromptDepthAnythingFeatureFusionLayer.t) : Prop := {
  residual_layer1_ok :
    maps_channels (PromptDepthAnythingFeatureFusionLayer.residual_layer1 layer)
      (PromptDepthAnythingConfig.fusion_hidden_size config)
      (PromptDepthAnythingConfig.fusion_hidden_size config);
  residual_layer2_ok :
    maps_channels (PromptDepthAnythingFeatureFusionLayer.residual_layer2 layer)
      (PromptDepthAnythingConfig.fusion_hidden_size config)
      (PromptDepthAnythingConfig.fusion_hidden_size config);
  projection_ok :
    maps_channels (PromptDepthAnythingFeatureFusionLayer.projection layer)
      (PromptDepthAnythingConfig.fusion_hidden_size config)
      (PromptDepthAnythingConfig.fusion_hidden_size config);
  prompt_depth_layer_ok : exists w1 w2 w3,
    PromptDepthAnythingFeatureFusionLayer.prompt_depth_layer layer
    = PromptDepthAnythingLayer.init config w1 w2 w3
}.

Record neck_ok (self : PromptDepthAnythingNeck.t) : Prop := {
  reassemble_layers_ok :
    Forall2
      (fun layer channels => exists factor w_projection w_resize,
         PromptDepthAnythingReassembleLayer.init (PromptDepthAnythingNeck.config self)
           channels factor w_projection w_resize = inr layer)
      (PromptDepthAnythingReassembleStage.layers (PromptDepthAnythingNeck.reassemble_stage self))
      (PromptDepthAnythingConfig.neck_hidden_sizes (PromptDepthAnythingNeck.config self));
  convs_ok :
    Forall2
      (fun conv channels =>
         maps_channels conv channels
           (PromptDepthAnythingConfig.fusion_hidden_size (PromptDepthAnythingNeck.config self)))
      (PromptDepthAnythingNeck.convs self)
      (PromptDepthAnythingConfig.neck_hidden_sizes (PromptDepthAnythingNeck.config self));
  fusion_layers_ok :
    Forall (fusion_layer_ok (PromptDepthAnythingNeck.config self))
      (PromptDepthAnythingFeatureFusionStage.layers (PromptDepthAnythingNeck.fusion_stage self));
  fusion_layers_length :
    length (PromptDepthAnythingFeatureFusionStage.layers (PromptDepthAnythingNeck.fusion_stage self))
    = length (PromptDepthAnythingConfig.neck_hidden_sizes (PromptDepthAnythingNeck.config self))
}.

Record head_ok (config : PromptDepthAnythingConfig.t)
  (self : PromptDepthAnythingDepthEstimationHead.t) : Prop := {
  head_patch_size_ok :
    PromptDepthAnythingDepthEstimationHead.patch_size self
    = PromptDepthAnythingConfig.patch_size config;
  head_in_index_ok :
    - Z.of_nat (length (PromptDepthAnythingConfig.neck_hidden_sizes config))
    <= PromptDepthAnythingDepthEstimationHead.head_in_index self
    < Z.of_nat (length (PromptDepthAnythingConfig.neck_hidden_sizes config));
  head_layers_ok : exists c1 c2,
    maps_channels (PromptDepthAnythingDepthEstimationHead.conv1 self)
      (PromptDepthAnythingConfig.fusion_hidden_size config) c1 /\
    maps_channels (PromptDepthAnythingDepthEstimationHead.conv2 self) c1 c2 /\
    maps_channels (PromptDepthAnythingDepthEstimationHead.activation1 self) c2 c2 /\
    maps_channels (PromptDepthAnythingDepthEstimationHead.conv3 self) c2 1
}.

(** The backbone returns one 4-dimensional feature map per neck level, of
    the batch size of the pixels. *)
Definition backbone_ok (self : PromptDepthAnythingForDepthEstimation.t) : Prop :=
  forall pixel_values output_hidden_states output_attentions b c h w,
    shape pixel_values = [b; c; h; w] ->
    let config := PromptDepthAnythingForDepthEstimation.config self in
    let maps :=
      BackboneOutput.feature_maps
        (PromptDepthAnythingForDepthEstimation.backbone self pixel_values
           output_hidden_states output_attentions) in
    is_tuple_or_list maps = true /\
    length (PromptDepthAnythingNeck.items_of maps)
    = length (PromptDepthAnythingConfig.neck_hidden_sizes config) /\
    Forall
      (fun t => exists h' w',
         shape t = [b; PromptDepthAnythingConfig.reassemble_hidden_size config; h'; w'])
      (PromptDepthAnythingNeck.items_of maps).

Record model_ok (self : PromptDepthAnythingForDepthEstimation.t) : Prop := {
  neck_config_ok :
    PromptDepthAnythingNeck.config (PromptDepthAnythingForDepthEstimation.neck self)
    = PromptDepthAnythingForDepthEstimation.config self;
  model_neck_ok : neck_ok (PromptDepthAnythingForDepthEstimation.neck self);
  model_head_ok :
    head_ok (PromptDepthAnythingForDepthEstimation.config self)
      (PromptDepthAnythingForDepthEstimation.head self);
  model_backbone_ok : backbone_ok self
}.

End WellFormed.

(** ** A reference runtime and a reference model

    The runtime restricted to constant maps: a convolution whose kernel is
    zero returns its bias everywhere, and interpolating or adding constant
    maps gives constant maps. Shapes follow the formulas above. *)

Module Reference.

Definition full (s : list Z) (v : Q) : tensor :=
  Tensor s (repeat (repeat v (Z.to_nat (fold_right Z.mul 1 (tl s))))
              (Z.to_nat (hd 0 s))).

Definition first_value (t : tensor) : Q := hd 0%Q (hd [] (data t)).

(** [weights] is the bias of a layer whose kernel is zero. *)
#[export] Instance ops : TorchOps := {
  weights := Q;
  conv2d := fun p w t => full (conv2d_shape p (shape t)) w;
  conv_transpose2d := fun p w t => full (conv_transpose2d_shape p (shape t)) w;
  interpolate := fun t m _ => full (interpolate_shape (shape t) m) (first_value t);
  tensor_add := fun x y =>
    match broadcast_shapes (shape x) (shape y) with
    | Some s => full s (first_value x + first_value y)%Q
    | None => x
    end
}.

Definition config : PromptDepthAnythingConfig.t :=
  {| PromptDepthAnythingConfig.patch_size := 14;
     PromptDepthAnythingConfig.fusion_hidden_size := 4;
     PromptDepthAnythingConfig.reassemble_hidden_size := 6;
     PromptDepthAnythingConfig.neck_hidden_sizes := [2; 3; 4; 5];
     PromptDepthAnythingConfig.use_return_dict := true;
     PromptDepthAnythingConfig.output_hidden_states := false;
     PromptDepthAnythingConfig.output_attentions := false |}.

Definition fusion_layer : PromptDepthAnythingFeatureFusionLayer.t :=
  {| PromptDepthAnythingFeatureFusionLayer.residual_layer1 := fun t => t;
     PromptDepthAnythingFeatureFusionLayer.residual_layer2 := fun t => t;
     PromptDepthAnythingFeatureFusionLayer.projection := conv2d (ConvParams 4 4 1 1 0) 0%Q;
     PromptDepthAnythingFeatureFusionLayer.prompt_depth_layer :=
       PromptDepthAnythingLayer.init config 0%Q 0%Q 0%Q |}.

Definition fusion_stage : PromptDepthAnythingFeatureFusionStage.t :=
  {| PromptDepthAnythingFeatureFusionStage.layers :=
       [fusion_layer; fusion_layer; fusion_layer; fusion_layer] |}.

Definition reassemble_layer (channels : Z) (factor : Q)
  : PromptDepthAnythingReassembleLayer.t :=
  match PromptDepthAnythingReassembleLayer.init config channels factor 0%Q 0%Q with
  | inr layer => layer
  | inl _ =>
      {| PromptDepthAnythingReassembleLayer.projection := Identity;
         PromptDepthAnythingReassembleLayer.resize := Identity |}
  end.

Definition neck : PromptDepthAnythingNeck.t :=
  {| PromptDepthAnythingNeck.config := config;
     PromptDepthAnythingNeck.reassemble_stage :=
       {| PromptDepthAnythingReassembleStage.layers :=
            [reassemble_layer 2 4; reassemble_layer 3 2;
             reassemble_layer 4 1; reassemble_layer 5 (1 # 2)] |};
     PromptDepthAnythingNeck.convs :=
       [conv2d (ConvParams 2 4 3 1 1) 0%Q; conv2d (ConvParams 3 4 3 1 1) 0%Q;
        conv2d (ConvParams 4 4 3 1 1) 0%Q; conv2d (ConvParams 5 4 3 1 1) 0%Q];
     PromptDepthAnythingNeck.fusion_stage := fusion_stage |}.

(** A bounded activation with rational values:
    [min(1, max(0, x / 6 + 1 / 2))]. *)
Definition hard_sigmoid (x : Q) : Q := Qmin 1 (Qmax 0 (x / 6 + (1 # 2))).

(** The last convolution has bias [bias]: the head returns
    [hard_sigmoid bias * max_depth] at every pixel. *)
Definition head (max_depth bias : Q) : PromptDepthAnythingDepthEstimationHead.t :=
  {| PromptDepthAnythingDepthEstimationHead.head_in_index := -1;
     PromptDepthAnythingDepthEstimationHead.patch_size := 14;
     PromptDepthAnythingDepthEstimationHead.max_depth := max_depth;
     PromptDepthAnythingDepthEstimationHead.conv1 := conv2d (ConvParams 4 2 3 1 1) 0%Q;
     PromptDepthAnythingDepthEstimationHead.conv2 := conv2d (ConvParams 2 32 3 1 1) 0%Q;
     PromptDepthAnythingDepthEstimationHead.activation1 := relu;
     PromptDepthAnythingDepthEstimationHead.conv3 := conv2d (ConvParams 32 1 1 1 0) bias;
     PromptDepthAnythingDepthEstimationHead.activation2 := hard_sigmoid |}.

(** One feature map per neck level, on the grid of patches. *)
Definition backbone (pixel_values : tensor) (output_hidden_states output_attentions : bool)
  : BackboneOutput.t :=
  let feature :=
    match shape pixel_values with
    | [b; _; h; w] => full [b; 6; h / 14; w / 14] 0
    | _ => full [] 0
    end in
  let maps := PyTuple [feature; feature; feature; feature] in
  {| BackboneOutput.feature_maps := maps;
     BackboneOutput.hidden_states := None;
     BackboneOutput.attentions := None;
     BackboneOutput.as_tuple := [maps] |}.

Definition model (max_depth bias : Q) : PromptDepthAnythingForDepthEstimation.t :=
  {| PromptDepthAnythingForDepthEstimation.config := config;
     PromptDepthAnythingForDepthEstimation.backbone := backbone;
     PromptDepthAnythingForDepthEstimation.neck := neck;
     PromptDepthAnythingForDepthEstimation.head := head max_depth bias |}.

(** Pixels of shape [[1, 3, 28, 28]] and a prompt of shape [[1, 1, 1, 2]]
    with the values 0 and 1. *)
Definition pixels_28 : tensor := full [1; 3; 28; 28] 0.

Definition prompt_0_1 : tensor := Tensor [1; 1; 1; 2] [[0%Q; 1%Q]].

(** The run of the model on these pixels and this prompt. *)
Definition run_28 (max_depth bias : Q) : (exn + output) * trace :=
  PromptDepthAnythingForDepthEstimation.forward (model max_depth bias) pixels_28
    None None None (Some prompt_0_1) None [].

Definition output_28 (max_depth bias : Q) : output :=
  match fst (run_28 max_depth bias) with
  | inr out => out
  | inl _ => PlainTuple pixels_28 []
  end.

(** A fusion stage of one layer, and feature maps of the fusion width. *)
Definition one_layer_stage : PromptDepthAnythingFeatureFusionStage.t :=
  {| PromptDepthAnythingFeatureFusionStage.layers := [fusion_layer] |}.

Definition map_4x4 : tensor := full [1; 4; 4; 4] 0.

Definition map_2x2 : tensor := full [1; 4; 2; 2] 0.

(** Pixels of shape [[1, 3, 392, 518]]. *)
Definition pixels_392_518 : tensor := full [1; 3; 392; 518] 0.

End Reference.


(** ** The round trip of the protocol, on the rows of the prompt *)

Section RoundTrip.
Context {S : Scalar}.



End RoundTrip.


(** ** Computations that only add calls *)

(** [m] returns the trace that it was given, followed by the calls that it
    made, all of them among [allowed]. *)
Definition emits {A : Type} (allowed : submodule -> bool) (m : M A) : Prop :=
  forall (tr : trace) (r : exn + A) (tr' : trace),
    m tr = (r, tr') ->
    exists calls, tr' = tr ++ calls /\ Forall (fun s => allowed s = true) calls.

(** The sub-modules that the neck calls: its reassemble stage, its
    convolutions, its fusion stage and the layers of the fusion stage. *)
Definition inside_neck (s : submodule) : bool :=
  match s with
  | ReassembleStageModule | NeckConv _ | FusionStageModule | FusionLayerModule _ => true
  | Backbone | NeckModule | HeadModule => false
  end.

(** ** [PromptDepthAnythingPreTrainedModel._init_weights] *)

Module PromptDepthAnythingPreTrainedModel.

(** The classes that [_init_weights] tells apart. *)
Inductive kind : Type :=
| Linear
| Conv2dModule
| ConvTranspose2dModule
| LayerNorm
| OtherModule.

(** A module with its parameters; [None] is the Python [None] (a layer built
    with [bias=False], a normalization built without affine parameters). *)
Record parameters : Type := {
  kind_of : kind;
  weight : option (list Q);
  bias : option (list Q)
}.

Section Defs.

(** The state of the random number generator, and [normal_]: it fills a
    tensor of [n] values from the normal distribution of the given mean and
    standard deviation, and returns the values with the next state. *)
Variable rng : Type.
Variable normal_ : rng -> nat -> Q -> Q -> list Q * rng.

(** [t.zero_()] and [t.fill_(v)] *)
Definition fill_ (v : Q) (t : list Q) : list Q := map (fun _ => v) t.

Definition zero_ : list Q -> list Q := fill_ 0%Q.

(** How a call ends: it returns, or [None.data] raises. *)
Inductive outcome : Type :=
| Returned
| AttributeError.

(** Lines 200-210; [initializer_range] is [self.config.initializer_range].
    The module is updated in place, so the result holds the module and the
    generator as the call leaves them, also when it raises. *)
Definition _init_weights (initializer_range : Q) (module : parameters) (g : rng)
  : outcome * parameters * rng :=
  match kind_of module with
  | Linear | Conv2dModule | ConvTranspose2dModule =>
      match weight module with
      | None => (AttributeError, module, g)
      | Some w =>
          let '(w', g') := normal_ g (length w) 0%Q initializer_range in
          let module := {| kind_of := kind_of module; weight := Some w';
                           bias := bias module |} in
          match bias module with
          | Some b =>
              (Returned,
               {| kind_of := kind_of module; weight := weight module;
                  bias := Some (zero_ b) |}, g')
          | None => (Returned, module, g')
          end
      end
  | LayerNorm =>
      match bias module with
      | None => (AttributeError, module, g)
      | Some b =>
          let module := {| kind_of := kind_of module; weight := weight module;
                           bias := Some (zero_ b) |} in
          match weight module with
          | None => (AttributeError, module, g)
          | Some w =>
              (Returned,
               {| kind_of := kind_of module; weight := Some (fill_ 1%Q w);
                  bias := bias module |}, g)
          end
      end
  | OtherModule => (Returned, module, g)
  end.

End Defs.

(** A generator for closed examples: the state counts the values drawn, and
    every value drawn is the mean. *)
Definition constant_normal (g : nat) (n : nat) (mean std : Q) : list Q * nat :=
  (repeat mean n, (g + n)%nat).

End PromptDepthAnythingPreTrainedModel.

(** ** Inputs of closed examples *)

Module Examples.

#[local] Existing Instance Reference.ops.

(** The head of the reference model on one fused map, for a grid of one
    patch. *)
Definition head_run : (exn + tensor) * trace :=
  PromptDepthAnythingDepthEstimationHead.forward (Reference.head 1 0)
    [Reference.map_2x2] 1 1 [].

Definition head_output : tensor :=
  match fst head_run with
  | inr t => t
  | inl _ => Reference.map_2x2
  end.







(** Pixels whose height and width are not multiples of the patch size. *)
Definition pixels_30_45 : tensor := Reference.full [1; 3; 30; 45] 0.

(** Pixels without a batch dimension. *)
Definition pixels_3d : tensor := Reference.full [3; 28; 28] 0.

(** The reference model with a patch size of 0. *)
Definition model_patch_0 : PromptDepthAnythingForDepthEstimation.t :=
  let config := Reference.config in
  {| PromptDepthAnythingForDepthEstimation.config :=
       {| PromptDepthAnythingConfig.patch_size := 0;
          PromptDepthAnythingConfig.fusion_hidden_size :=
            PromptDepthAnythingConfig.fusion_hidden_size config;
          PromptDepthAnythingConfig.reassemble_hidden_size :=
            PromptDepthAnythingConfig.reassemble_hidden_size config;
          PromptDepthAnythingConfig.neck_hidden_sizes :=
            PromptDepthAnythingConfig.neck_hidden_sizes config;
          PromptDepthAnythingConfig.use_return_dict :=
            PromptDepthAnythingConfig.use_return_dict config;
          PromptDepthAnythingConfig.output_hidden_states :=
            PromptDepthAnythingConfig.output_hidden_states config;
          PromptDepthAnythingConfig.output_attentions :=
            PromptDepthAnythingConfig.output_attentions config |};
     PromptDepthAnythingForDepthEstimation.backbone := Reference.backbone;
     PromptDepthAnythingForDepthEstimation.neck := Reference.neck;
     PromptDepthAnythingForDepthEstimation.head := Reference.head 1 0 |}.

(** A prompt of shape [[1, 1, 0, 2]]: one batch element, no values. *)
Definition prompt_no_values : tensor := Tensor [1; 1; 0; 2] [[]].

End Examples.

(** ** Rounded arithmetic *)

(** Arithmetic on rationals in which [rnd] rounds the result of every
    operation; [min], [max] and the comparison are exact, and the literal
    [1e-6] is the number that it rounds to. The identity gives exact
    arithmetic. *)
Definition RoundedScalar (rnd : Q -> Q) : Scalar := {|
  num := Q;
  s_add := fun x y => rnd (x + y)%Q;
  s_sub := fun x y => rnd (x - y)%Q;
  s_mul := fun x y => rnd (x * y)%Q;
  s_div := fun x y => rnd (x / y)%Q;
  s_min := Qmin;
  s_max := Qmax;
  s_le_zero := fun x => Qle_bool x 0;
  s_eps := rnd (1 # 1000000)%Q
|}.

(** A rounding is monotone and exact at 0 and at 1, as rounding to the
    nearest number of a floating-point format is while nothing
    overflows. *)
Record rounding (rnd : Q -> Q) : Prop := {
  rnd_monotone : forall x y : Q, (x <= y)%Q -> (rnd x <= rnd y)%Q;
  rnd_zero : (rnd 0 == 0)%Q;
  rnd_one : (rnd 1 == 1)%Q
}.

(** Rounding to the nearest multiple of [2^-20], a half upwards. *)
Definition round_grid (x : Q) : Q :=
  (inject_Z (Qfloor (x * inject_Z (2 ^ 20) + (1 # 2))) / inject_Z (2 ^ 20))%Q.

(** A batch element whose range, as the arithmetic computes it, is positive
    and does not exceed [2^127], which binary32 holds without overflow. *)
Definition range_ok (rnd : Q -> Q) (row : list Q) : Prop :=
  exists mn mx : Q,
    reduce (S:=RoundedScalar rnd) Qmin row = Some mn /\
    reduce (S:=RoundedScalar rnd) Qmax row = Some mx /\
    (0 < rnd (mx - mn))%Q /\ (mx - mn <= inject_Z (2 ^ 127))%Q.

Module ExamplePrompts.

(** The rows of a prompt of two batch elements, with the values 1 and 3
    and the values 2 and 6, and of a uniform prompt of value 5. *)
Definition rows_1_3_and_2_6 : list (list Q) := [[1%Q; 3%Q]; [2%Q; 6%Q]].

Definition rows_5 : list (list Q) := [[5%Q; 5%Q; 5%Q; 5%Q]].

(** A predicted depth of three batch elements. *)
Definition predicted_3 : tensor :=
  Tensor [3; 1; 2] [[0%Q; 1%Q]; [(1 # 2)%Q; 1%Q]; [0%Q; 0%Q]].

(** In binary32: the uniform prompts of the largest value below 32 and of
    its opposite, on one batch element of two pixels. *)
Definition uniform_below_32 : list (list spec_float) :=
  [[Binary32.scaled 16777215 (-19); Binary32.scaled 16777215 (-19)]].

Definition uniform_above_minus_32 : list (list spec_float) :=
  [[SFopp (Binary32.scaled 16777215 (-19)); SFopp (Binary32.scaled 16777215 (-19))]].

End ExamplePrompts.

(** * Theorems *)

#[local] Existing Instance Reference.ops.

(** ** The monad *)

Lemma for_each_ext {A St : Type} (f g : St -> A -> M St) (items : list A) :
  (forall st x tr, f st x tr = g st x tr) ->
  forall st tr, for_each f items st tr = for_each g items st tr.
Proof.
  intros Hfg. induction items as [|x rest IH]; intros st tr; simpl.
  - reflexivity.
  - unfold bind. rewrite Hfg. destruct (g st x tr) as [[e|st'] tr']; auto.
Qed.

Lemma for_each_app {A St : Type} (f : St -> A -> M St) (xs ys : list A) :
  forall st tr,
    for_each f (xs ++ ys) st tr = bind (for_each f xs st) (for_each f ys) tr.
Proof.
  induction xs as [|x rest IH]; intros st tr; simpl.
  - reflexivity.
  - unfold bind. destruct (f st x tr) as [[e|st'] tr']; auto.
Qed.

(** ** Rejections *)

Section Rejections.
Context {ops : TorchOps}.

(** C7. A call of the top-level [forward] with [labels] set raises
    [NotImplementedError] and leaves the trace of sub-module calls as it
    found it: neither the backbone nor any later stage has run, and no
    output is produced. *)
Theorem forward_rejects_labels :
  forall (self : PromptDepthAnythingForDepthEstimation.t)
         (pixel_values labels : tensor)
         (output_attentions output_hidden_states : option bool)
         (prompt_depth : option tensor) (return_dict : option bool) (tr : trace),
    PromptDepthAnythingForDepthEstimation.forward self pixel_values (Some labels)
      output_attentions output_hidden_states prompt_depth return_dict tr
    = (inl (NotImplementedError "Training is not implemented yet"), tr).
Proof. reflexivity. Qed.

(** C8. The neck's [forward] raises [TypeError] when its argument is neither
    a tuple nor a list, and [ValueError] when the sequence has another
    length than [config.neck_hidden_sizes]; in both cases the trace of
    sub-module calls is unchanged, so no stage has run. *)
Theorem neck_rejects_malformed_input :
  forall (self : PromptDepthAnythingNeck.t) (hidden_states : pyobj)
         (patch_height patch_width : option Z) (prompt_depth : option tensor)
         (tr : trace),
    (is_tuple_or_list hidden_states = false ->
     PromptDepthAnythingNeck.forward self hidden_states patch_height patch_width
       prompt_depth tr
     = (inl (TypeError "hidden_states should be a tuple or list of tensors"), tr))
    /\
    (is_tuple_or_list hidden_states = true ->
     length (PromptDepthAnythingNeck.items_of hidden_states)
     <> length (PromptDepthAnythingConfig.neck_hidden_sizes
                  (PromptDepthAnythingNeck.config self)) ->
     PromptDepthAnythingNeck.forward self hidden_states patch_height patch_width
       prompt_depth tr
     = (inl (ValueError "The number of hidden states should be equal to the number of neck hidden sizes."), tr)).
Proof.
  intros self hidden_states ph pw pd tr. unfold PromptDepthAnythingNeck.forward.
  split.
  - intros Hseq. rewrite Hseq. reflexivity.
  - intros Hseq Hlen. rewrite Hseq. cbn [negb].
    apply Nat.eqb_neq in Hlen. rewrite Hlen. reflexivity.
Qed.

End Rejections.

Lemma neck_rejects_malformed_input_witness :
  PromptDepthAnythingNeck.forward Reference.neck PyNone None None None []
  = (inl (TypeError "hidden_states should be a tuple or list of tensors"), [])
  /\
  PromptDepthAnythingNeck.forward Reference.neck (PyList []) None None None []
  = (inl (ValueError "The number of hidden states should be equal to the number of neck hidden sizes."), []).
Proof.
  split.
  - apply (proj1 (neck_rejects_malformed_input Reference.neck PyNone None None None [])).
    reflexivity.
  - apply (proj2 (neck_rejects_malformed_input Reference.neck (PyList []) None None None [])).
    + reflexivity.
    + simpl. lia.
Defined.

(** ** The fusion stage and the absent prompt *)

Section NoPrompt.
Context {ops : TorchOps}.

Lemma fusion_body_ignores_size :
  forall hidden_states prompt_depth
         (st st' : PromptDepthAnythingFeatureFusionStage.locals) item tr,
    PromptDepthAnythingFeatureFusionStage.fused_hidden_state st
    = PromptDepthAnythingFeatureFusionStage.fused_hidden_state st' ->
    PromptDepthAnythingFeatureFusionStage.fused_hidden_states st
    = PromptDepthAnythingFeatureFusionStage.fused_hidden_states st' ->
    PromptDepthAnythingFeatureFusionStage.body hidden_states prompt_depth st item tr
    = PromptDepthAnythingFeatureFusionStage.body hidden_states prompt_depth st' item tr.
Proof.
  intros hs pd st st' [idx [hidden_state layer]] tr Hfused Hlist.
  unfold PromptDepthAnythingFeatureFusionStage.body.
  rewrite Hfused, Hlist. reflexivity.
Qed.

(** C10. The parameter [size] of the fusion stage's [forward] has no effect:
    two calls that differ only in it return the same list and make the same
    calls. *)
Theorem fusion_stage_size_unused :
  forall (self : PromptDepthAnythingFeatureFusionStage.t) (hidden_states : list tensor)
         (size1 size2 : option (list Z)) (prompt_depth : option tensor) (tr : trace),
    PromptDepthAnythingFeatureFusionStage.forward self hidden_states size1 prompt_depth tr
    = PromptDepthAnythingFeatureFusionStage.forward self hidden_states size2 prompt_depth tr.
Proof.
  intros self hs size1 size2 pd tr.
  unfold PromptDepthAnythingFeatureFusionStage.forward.
  destruct (enumerate (combine (rev hs) (PromptDepthAnythingFeatureFusionStage.layers self)))
    as [|item rest].
  - reflexivity.
  - unfold bind. simpl for_each. unfold bind.
    rewrite (fusion_body_ignores_size (rev hs) pd
               {| PromptDepthAnythingFeatureFusionStage.size := size1;
                  PromptDepthAnythingFeatureFusionStage.fused_hidden_state := None;
                  PromptDepthAnythingFeatureFusionStage.fused_hidden_states := [] |}
               {| PromptDepthAnythingFeatureFusionStage.size := size2;
                  PromptDepthAnythingFeatureFusionStage.fused_hidden_state := None;
                  PromptDepthAnythingFeatureFusionStage.fused_hidden_states := [] |}
               item tr eq_refl eq_refl).
    reflexivity.
Qed.

Lemma fusion_body_without_prompt :
  forall hidden_states st item tr,
    PromptDepthAnythingFeatureFusionStage.body hidden_states None st item tr
    = WithoutPrompt.fusion_stage_body hidden_states st item tr.
Proof. intros hs st [idx [hidden_state layer]] tr. reflexivity. Qed.

Lemma fusion_stage_without_prompt :
  forall self hidden_states size tr,
    PromptDepthAnythingFeatureFusionStage.forward self hidden_states size None tr
    = WithoutPrompt.fusion_stage_forward self hidden_states size tr.
Proof.
  intros self hs size tr.
  unfold PromptDepthAnythingFeatureFusionStage.forward, WithoutPrompt.fusion_stage_forward.
  unfold bind.
  rewrite (for_each_ext _ _ _ (fusion_body_without_prompt (rev hs))).
  reflexivity.
Qed.

Lemma neck_without_prompt :
  forall self hidden_states patch_height patch_width tr,
    PromptDepthAnythingNeck.forward self hidden_states patch_height patch_width None tr
    = WithoutPrompt.neck_forward self hidden_states patch_height patch_width tr.
Proof.
  intros self hs ph pw tr.
  unfold PromptDepthAnythingNeck.forward, WithoutPrompt.neck_forward.
  destruct (negb (is_tuple_or_list hs)); [reflexivity|].
  destruct (negb _); [reflexivity|].
  unfold bind.
  destruct (call ReassembleStageModule tr) as [[e|u] tr1]; [reflexivity|].
  destruct (PromptDepthAnythingReassembleStage.forward _ _ _ _ tr1) as [[e|hs1] tr2];
    [reflexivity|].
  destruct (for_each _ _ _ tr2) as [[e|features] tr3]; [reflexivity|].
  destruct (call FusionStageModule tr3) as [[e|u'] tr4]; [reflexivity|].
  rewrite fusion_stage_without_prompt.
  destruct (WithoutPrompt.fusion_stage_forward _ _ _ tr4) as [[e|out] tr5]; reflexivity.
Qed.

(** C1. With [prompt_depth=None] the top-level [forward] returns, on every
    input and from every trace, what the pipeline without normalization,
    without the injection in the fusion layers and without denormalization
    returns, and makes the same calls. *)
Theorem forward_without_prompt :
  forall (self : PromptDepthAnythingForDepthEstimation.t) (pixel_values : tensor)
         (labels : option tensor) (output_attentions output_hidden_states : option bool)
         (return_dict : option bool) (tr : trace),
    PromptDepthAnythingForDepthEstimation.forward self pixel_values labels
      output_attentions output_hidden_states None return_dict tr
    = WithoutPrompt.forward self pixel_values labels
        output_attentions output_hidden_states return_dict tr.
Proof.
  intros self pixel labels oa ohs rd tr.
  unfold PromptDepthAnythingForDepthEstimation.forward, WithoutPrompt.forward.
  destruct labels as [l|]; [reflexivity|].
  unfold bind.
  destruct (call Backbone tr) as [[e|u] tr1]; [reflexivity|].
  destruct (shape pixel) as [|d0 [|d1 [|height [|width [|d4 rest]]]]]; try reflexivity.
  destruct (PromptDepthAnythingConfig.patch_size _ =? 0); [reflexivity|].
  destruct (PromptDepthAnythingForDepthEstimation.patch_grid _ height width)
    as [patch_height patch_width].
  unfold ret at 1.
  destruct (call NeckModule tr1) as [[e|u'] tr2]; [reflexivity|].
  rewrite neck_without_prompt.
  destruct (WithoutPrompt.neck_forward _ _ _ _ tr2) as [[e|hs] tr3]; [reflexivity|].
  destruct (call HeadModule tr3) as [[e|u''] tr4]; [reflexivity|].
  destruct (PromptDepthAnythingDepthEstimationHead.forward _ _ _ _ tr4) as [[e|pd] tr5];
    reflexivity.
Qed.

End NoPrompt.

(** ** The range of the prompt *)

Section RangeGeneric.
Context {S : Scalar}.

Lemma reduce_dim1_length :
  forall f rows vs, reduce_dim1 f rows = Some vs -> length vs = length rows.
Proof.
  intros f rows. induction rows as [|row rest IH]; intros vs H; simpl in H.
  - injection H as <-. reflexivity.
  - destruct (reduce f row) as [v|]; [|discriminate].
    destruct (reduce_dim1 f rest) as [vs'|]; [|discriminate].
    injection H as <-. simpl. f_equal. apply IH. reflexivity.
Qed.

Lemma masked_assign_corrected :
  forall mins maxs, length mins = length maxs ->
    masked_assign (invalid_mask mins maxs) mins maxs
    = map (fun p => corrected (fst p) (snd p)) (combine mins maxs).
Proof.
  induction mins as [|mn mins IH]; intros [|mx maxs] Hlen; simpl in *;
    try discriminate; try reflexivity.
  unfold corrected at 1. f_equal. apply IH. lia.
Qed.

Lemma no_invalid_corrected :
  forall mins maxs, length mins = length maxs ->
    existsb (fun b => b) (invalid_mask mins maxs) = false ->
    maxs = map (fun p => corrected (fst p) (snd p)) (combine mins maxs).
Proof.
  induction mins as [|mn mins IH]; intros [|mx maxs] Hlen Hnone; simpl in *;
    try discriminate; try reflexivity.
  apply orb_false_iff in Hnone. destruct Hnone as [Hhead Htail].
  unfold corrected at 1. rewrite Hhead. f_equal. apply IH; [lia|assumption].
Qed.

(** [depth_range] returns the minima and the corrected maxima. *)
Lemma depth_range_corrected :
  forall rows mins maxs,
    reduce_dim1 s_min rows = Some mins ->
    reduce_dim1 s_max rows = Some maxs ->
    depth_range rows
    = Some (mins, map (fun p => corrected (fst p) (snd p)) (combine mins maxs)).
Proof.
  intros rows mins maxs Hmin Hmax. unfold depth_range. rewrite Hmin, Hmax.
  assert (Hlen : length mins = length maxs).
  { rewrite (reduce_dim1_length _ _ Hmin), (reduce_dim1_length _ _ Hmax). reflexivity. }
  destruct (existsb (fun b => b) (invalid_mask mins maxs)) eqn:Hany.
  - rewrite masked_assign_corrected by assumption. reflexivity.
  - rewrite <- (no_invalid_corrected _ _ Hlen Hany). reflexivity.
Qed.

Lemma depth_range_inv :
  forall rows mins maxs,
    depth_range rows = Some (mins, maxs) ->
    exists raw, reduce_dim1 s_min rows = Some mins /\
                reduce_dim1 s_max rows = Some raw /\
                maxs = map (fun p => corrected (fst p) (snd p)) (combine mins raw).
Proof.
  intros rows mins maxs H.
  destruct (reduce_dim1 s_min rows) as [mins'|] eqn:Hmin;
    [|unfold depth_range in H; rewrite Hmin in H; discriminate].
  destruct (reduce_dim1 s_max rows) as [raw|] eqn:Hmax;
    [|unfold depth_range in H; rewrite Hmin, Hmax in H; discriminate].
  rewrite (depth_range_corrected _ Hmin Hmax) in H. injection H as <- <-.
  exists raw. auto.
Qed.

End RangeGeneric.

(** ** Exact arithmetic *)

Local Open Scope Q_scope.

Lemma fold_min_le : forall rest x, fold_left Qmin rest x <= x.
Proof.
  induction rest as [|y rest IH]; intros x; simpl.
  - apply Qle_refl.
  - eapply Qle_trans; [apply IH|apply Q.le_min_l].
Qed.

Lemma fold_max_ge : forall rest x, x <= fold_left Qmax rest x.
Proof.
  induction rest as [|y rest IH]; intros x; simpl.
  - apply Qle_refl.
  - eapply Qle_trans; [apply Q.le_max_l|apply IH].
Qed.

Lemma reduce_min_le_max :
  forall row mn mx,
    reduce Qmin row = Some mn -> reduce Qmax row = Some mx -> mn <= mx.
Proof.
  intros [|x rest] mn mx Hmin Hmax; simpl in *; [discriminate|].
  injection Hmin as <-. injection Hmax as <-.
  eapply Qle_trans; [apply fold_min_le|apply fold_max_ge].
Qed.

Lemma reduce_dim1_min_le_max :
  forall rows mins maxs,
    reduce_dim1 (S:=QScalar) Qmin rows = Some mins ->
    reduce_dim1 (S:=QScalar) Qmax rows = Some maxs ->
    Forall2 Qle mins maxs.
Proof.
  induction rows as [|row rest IH]; intros mins maxs Hmin Hmax; simpl in *.
  - injection Hmin as <-. injection Hmax as <-. constructor.
  - destruct (reduce (S:=QScalar) Qmin row) as [mn|] eqn:Hmn; [|discriminate].
    destruct (reduce_dim1 (S:=QScalar) Qmin rest) as [mins'|]; [|discriminate].
    destruct (reduce (S:=QScalar) Qmax row) as [mx|] eqn:Hmx; [|discriminate].
    destruct (reduce_dim1 (S:=QScalar) Qmax rest) as [maxs'|]; [|discriminate].
    injection Hmin as <-. injection Hmax as <-.
    constructor; [exact (reduce_min_le_max row Hmn Hmx)|apply IH; reflexivity].
Qed.

(** Over the rationals the corrected maximum lies above the minimum; on a
    degenerate range it lies [1e-6] above, on another range it is the raw
    maximum. *)
Lemma corrected_exact :
  forall mn mx : Q, mn <= mx ->
    mn < corrected (S:=QScalar) mn mx /\
    (mx - mn <= 0 -> corrected (S:=QScalar) mn mx - mn == 1 # 1000000) /\
    (0 < mx - mn -> corrected (S:=QScalar) mn mx = mx).
Proof.
  intros mn mx Hle. unfold corrected. simpl.
  destruct (Qle_bool (mx - mn) 0) eqn:Hdeg.
  - apply Qle_bool_iff in Hdeg. repeat split.
    + lra.
    + intros _. ring.
    + intros Hpos. lra.
  - assert (Hpos : ~ mx - mn <= 0).
    { intros H. apply Qle_bool_iff in H. congruence. }
    repeat split.
    + lra.
    + intros H. contradiction.
Qed.


Lemma depth_range_lengths :
  forall rows mins maxs,
    depth_range (S:=QScalar) rows = Some (mins, maxs) ->
    length mins = length rows /\ length maxs = length rows.
Proof.
  intros rows mins maxs H.
  destruct (depth_range_inv _ H) as [raw [Hmin [Hmax ->]]].
  pose proof (reduce_dim1_length _ _ Hmin) as Hl1.
  pose proof (reduce_dim1_length _ _ Hmax) as Hl2.
  split; [assumption|].
  rewrite length_map, length_combine. lia.
Qed.



Local Close Scope Q_scope.

(** ** Broadcasting of values *)

Lemma chunks_lengths {A : Type} :
  forall (n size : nat) (flat : list A),
    length flat = (n * size)%nat ->
    Forall (fun piece => length piece = size) (chunks n size flat).
Proof.
  induction n as [|n IH]; intros size flat Hlen; simpl; constructor.
  - rewrite length_firstn. simpl in Hlen. lia.
  - apply IH. rewrite length_skipn. simpl in Hlen. lia.
Qed.

Lemma concat_chunks {A : Type} :
  forall (n size : nat) (flat : list A),
    length flat = (n * size)%nat -> concat (chunks n size flat) = flat.
Proof.
  induction n as [|n IH]; intros size flat Hlen; simpl.
  - destruct flat; [reflexivity|discriminate].
  - rewrite IH; [apply firstn_skipn|].
    rewrite length_skipn. simpl in Hlen. lia.
Qed.

Lemma chunks_concat {A : Type} :
  forall (size : nat) (rows : list (list A)),
    Forall (fun row => length row = size) rows ->
    chunks (length rows) size (concat rows) = rows.
Proof.
  intros size rows H. induction H as [|row rows Hrow _ IH]; simpl; [reflexivity|].
  subst size.
  rewrite firstn_app, firstn_all, Nat.sub_diag, firstn_O, app_nil_r.
  rewrite skipn_app, skipn_all, Nat.sub_diag, skipn_O. simpl.
  f_equal. exact IH.
Qed.

Lemma chunks_singletons {A : Type} :
  forall l : list A, chunks (length l) 1 l = map (fun x => [x]) l.
Proof.
  induction l as [|x l IH]; simpl; [reflexivity|]. f_equal. exact IH.
Qed.

Lemma concat_repeat_repeat {A : Type} :
  forall (x : A) (n m : nat), concat (repeat (repeat x n) m) = repeat x (m * n).
Proof.
  intros x n m. induction m as [|m IH]; simpl; [reflexivity|].
  rewrite IH. symmetry. apply repeat_app.
Qed.

Lemma product_nonneg :
  forall s : list Z, Forall (fun d => 0 <= d) s -> 0 <= fold_right Z.mul 1 s.
Proof.
  induction 1 as [|d s Hd _ IH]; simpl; [lia|]. apply Z.mul_nonneg_nonneg; assumption.
Qed.

Lemma numel_cons :
  forall (d : Z) (s : list Z),
    0 <= d -> Forall (fun d => 0 <= d) s ->
    numel (d :: s) = (Z.to_nat d * numel s)%nat.
Proof.
  intros d s Hd Hs. unfold numel. simpl.
  apply Z2Nat.inj_mul; [exact Hd|exact (product_nonneg Hs)].
Qed.

(** Expanding to the shape that the values have changes nothing. *)
Lemma expand_same {A : Type} :
  forall (s : list Z) (flat : list A),
    Forall (fun d => 0 <= d) s -> length flat = numel s -> expand s s flat = flat.
Proof.
  induction s as [|d s IH]; intros flat Hs Hlen; simpl; [reflexivity|].
  inversion Hs as [|? ? Hd Hs']; subst.
  rewrite Z.eqb_refl. rewrite (numel_cons Hd Hs') in Hlen.
  replace (map (expand s s) (chunks (Z.to_nat d) (numel s) flat))
    with (chunks (Z.to_nat d) (numel s) flat).
  - exact (concat_chunks _ _ _ Hlen).
  - symmetry. rewrite <- map_id. apply map_ext_in. intros piece Hin.
    apply IH; [exact Hs'|].
    exact (proj1 (Forall_forall _ _) (chunks_lengths _ _ _ Hlen) piece Hin).
Qed.

(** Expanding one value fills the shape with it. *)
Lemma expand_ones {A : Type} (x : A) :
  forall from to : list Z,
    length from = length to ->
    Forall (fun d => d = 1) from -> Forall (fun d => 0 <= d) to ->
    expand from to [x] = repeat x (numel to).
Proof.
  induction from as [|d from IH]; intros [|D to] Hlen Hones Hto; simpl in Hlen;
    try discriminate.
  - reflexivity.
  - inversion Hones as [|? ? Hd Hones']; subst.
    inversion Hto as [|? ? HD Hto']; subst.
    assert (Hone : numel from = 1%nat).
    { clear -Hones'. unfold numel. induction Hones' as [|d s Hd _ IHs]; simpl.
      - reflexivity.
      - subst d. rewrite Z.mul_1_l. exact IHs. }
    assert (Hrest : expand from to [x] = repeat x (numel to))
      by (apply IH; [lia|assumption|assumption]).
    rewrite (numel_cons HD Hto'). cbn [expand].
    destruct (Z.eqb_spec 1 D) as [<-|_].
    + rewrite Hone. change (Z.to_nat 1) with 1%nat.
      cbn [chunks firstn map concat]. rewrite Hrest, app_nil_r. f_equal. lia.
    + rewrite Hrest. apply concat_repeat_repeat.
Qed.

Lemma combine_app {A B : Type} :
  forall (a a' : list A) (b b' : list B),
    length a = length b ->
    combine (a ++ a') (b ++ b') = combine a b ++ combine a' b'.
Proof.
  induction a as [|x a IH]; intros a' [|y b] b' Hlen; simpl in *; try discriminate.
  - reflexivity.
  - f_equal. apply IH. lia.
Qed.

Lemma normalize_repeated_range :
  forall (mn mx : Q) (row : list Q),
    map (fun p => normalize_value (S:=QScalar) (fst (fst p)) (snd (fst p)) (snd p))
      (combine (combine (repeat mn (length row)) (repeat mx (length row))) row)
    = map (normalize_value (S:=QScalar) mn mx) row.
Proof.
  intros mn mx. induction row as [|x row IH]; simpl; [reflexivity|].
  f_equal. exact IH.
Qed.

(** Ranges repeated along the rows meet row [b] at index [b]. *)
Lemma normalize_flat_rows :
  forall (size : nat) (rows : list (list Q)) (mins maxs : list Q),
    Forall (fun row => length row = size) rows ->
    length mins = length rows -> length maxs = length rows ->
    map (fun p => normalize_value (S:=QScalar) (fst (fst p)) (snd (fst p)) (snd p))
      (combine (combine (concat (map (fun m => repeat m size) mins))
                  (concat (map (fun m => repeat m size) maxs)))
         (concat rows))
    = concat (normalize_rows (S:=QScalar) rows mins maxs).
Proof.
  intros size rows mins maxs H. revert mins maxs.
  induction H as [|row rows Hrow _ IH]; intros [|mn mins] [|mx maxs] Hl1 Hl2;
    simpl in *; try discriminate; try reflexivity.
  rewrite !combine_app, map_app.
  - rewrite <- Hrow, normalize_repeated_range. f_equal. rewrite Hrow.
    apply IH; lia.
  - rewrite length_combine, !repeat_length. lia.
  - rewrite !repeat_length. reflexivity.
Qed.

Lemma normalize_rows_lengths :
  forall (size : nat) (rows : list (list Q)) (mins maxs : list Q),
    Forall (fun row => length row = size) rows ->
    Forall (fun row => length row = size) (normalize_rows (S:=QScalar) rows mins maxs).
Proof.
  intros size rows mins maxs H. revert mins maxs.
  induction H as [|row rows Hrow _ IH]; intros [|mn mins] [|mx maxs]; simpl;
    try constructor.
  - rewrite length_map. exact Hrow.
  - apply IH.
Qed.

Lemma normalize_rows_count :
  forall (rows : list (list Q)) (mins maxs : list Q),
    length mins = length rows -> length maxs = length rows ->
    length (normalize_rows (S:=QScalar) rows mins maxs) = length rows.
Proof.
  induction rows as [|row rest IH]; intros [|mn mins] [|mx maxs] Hl1 Hl2;
    simpl in *; try discriminate; try reflexivity.
  f_equal. apply IH; lia.
Qed.


Lemma broadcast_shapes_4d : forall B C H W : Z,
  broadcast_shapes [B; C; H; W] [B; 1; 1; 1] = Some [B; C; H; W].
Proof.
  intros B C H W. unfold broadcast_shapes. cbn.
  rewrite Z.eqb_refl. cbn.
  destruct (Z.eqb_spec C 1), (Z.eqb_spec H 1), (Z.eqb_spec W 1); subst; reflexivity.
Qed.

(** On a 4-dimensional prompt the broadcasting of line 349 pairs the rows
    with the ranges index by index, and the shape is kept. *)
Lemma normalize_prompt_depth_4d :
  forall (prompt_depth : tensor) (B C H W : Z) (depth_min depth_max : list Q),
    shape prompt_depth = [B; C; H; W] ->
    0 < B -> 0 < C -> 0 < H -> 0 < W ->
    well_formed_tensor prompt_depth ->
    depth_range (S:=QScalar) (data prompt_depth) = Some (depth_min, depth_max) ->
    PromptDepthAnythingForDepthEstimation.normalize_prompt_depth prompt_depth
    = inr (Tensor [B; C; H; W]
             (normalize_rows (S:=QScalar) (data prompt_depth) depth_min depth_max),
           (depth_min, depth_max)).
Proof.
  intros pd B C H W mins maxs Hshape HB HC HH HW Hwf Hrange.
  unfold well_formed_tensor in Hwf. rewrite Hshape in Hwf.
  destruct Hwf as [Hcount Hrows].
  destruct (depth_range_inv _ Hrange) as [raw [Hmins [Hraw Hmaxs]]].
  pose proof (reduce_dim1_length _ _ Hmins) as Hl1.
  assert (Hl2 : length maxs = length (data pd)).
  { pose proof (reduce_dim1_length _ _ Hraw) as Hl.
    rewrite Hmaxs, length_map, length_combine. change (@num QScalar) with Q in *. lia. }
  change (@num QScalar) with Q in *.
  assert (Hdims : Forall (fun d => 0 <= d) [C; H; W])
    by (repeat constructor; lia).
  set (size := numel [C; H; W]).
  assert (Hsize : Forall (fun row : list Q => length row = size) (data pd)).
  { eapply Forall_impl; [|exact Hrows]. intros row Hrow. cbv beta in Hrow.
    unfold size, numel. rewrite <- Hrow. symmetry. apply Nat2Z.id. }
  assert (HBn : Z.to_nat B = length (data pd)) by lia.
  unfold PromptDepthAnythingForDepthEstimation.normalize_prompt_depth.
  rewrite Hshape. destruct (Z.eqb_spec B 0) as [E|_]; [lia|].
  rewrite Hrange, broadcast_shapes_4d.
  unfold broadcast_to. cbn [length Nat.sub repeat app].
  change (@num QScalar) with Q.
  (* the prompt *)
  assert (Hx : expand [B; C; H; W] [B; C; H; W] (concat (data pd)) = concat (data pd)).
  { apply expand_same; [constructor; [lia|exact Hdims]|].
    rewrite (@numel_cons B [C; H; W]) by (lia || exact Hdims).
    rewrite HBn. fold size. clear -Hsize.
    induction Hsize as [|row rows Hrow _ IH]; simpl; [reflexivity|].
    rewrite length_app, IH, Hrow. reflexivity. }
  (* the ranges *)
  assert (Hr : forall v : list Q, length v = length (data pd) ->
            expand [B; 1; 1; 1] [B; C; H; W] v
            = concat (map (fun m => repeat m size) v)).
  { intros v Hv. cbn [expand]. rewrite Z.eqb_refl.
    change (numel [1; 1; 1]) with 1%nat.
    rewrite HBn, <- Hv, chunks_singletons, map_map. f_equal.
    apply map_ext. intros m.
    exact (@expand_ones Q m [1; 1; 1] [C; H; W] eq_refl
             ltac:(repeat constructor) Hdims). }
  rewrite Hx, (Hr mins Hl1), (Hr maxs Hl2).
  pose proof (@normalize_flat_rows size (data pd) mins maxs Hsize Hl1 Hl2) as Hflat.
  change (@num QScalar) with Q in Hflat. rewrite Hflat.
  cbn [rows_of]. fold size.
  pose proof (@normalize_rows_count (data pd) mins maxs Hl1 Hl2) as Hcnt.
  pose proof (@chunks_concat Q size _
                (@normalize_rows_lengths size (data pd) mins maxs Hsize)) as Hchunks.
  change (@num QScalar) with Q in Hcnt, Hchunks.
  rewrite HBn, <- Hcnt, Hchunks. reflexivity.
Qed.

(** ** Round trip of the protocol *)

Lemma broadcast_shapes_3d : forall B H W : Z,
  broadcast_shapes [B; H; W] [B; 1; 1] = Some [B; H; W].
Proof.
  intros B H W. unfold broadcast_shapes. cbn.
  rewrite Z.eqb_refl. cbn.
  destruct (Z.eqb_spec H 1), (Z.eqb_spec W 1); subst; reflexivity.
Qed.






(** ** The degenerate range *)

(** Over exact arithmetic the correction does what it is meant to do: a
    corrected range is positive, a degenerate range becomes [1e-6] wide, and
    another range keeps its maximum. *)
Lemma range_correction_exact :
  forall rows mins maxs,
    depth_range (S:=QScalar) rows = Some (mins, maxs) ->
    exists raw,
      reduce_dim1 (S:=QScalar) Qmin rows = Some mins /\
      reduce_dim1 (S:=QScalar) Qmax rows = Some raw /\
      Forall2
        (fun (p : Q * Q) (mx : Q) =>
           (fst p < mx)%Q /\
           ((snd p - fst p <= 0)%Q -> (mx - fst p == 1 # 1000000)%Q) /\
           ((0 < snd p - fst p)%Q -> mx = snd p))
        (combine mins raw) maxs.
Proof.
  intros rows mins maxs H.
  destruct (depth_range_inv _ H) as [raw [Hmin [Hmax ->]]].
  exists raw. repeat split; try assumption.
  pose proof (reduce_dim1_min_le_max _ Hmin Hmax) as Hle.
  clear -Hle. induction Hle as [|mn mx mins raw Hle _ IH]; simpl; constructor.
  - exact (corrected_exact Hle).
  - exact IH.
Qed.

(** In binary32 the corrected range of the uniform prompt of value 5 is
    [2^-20] wide, which is not the binary32 number nearest to [1e-6]; the
    normalized values are zero. *)
Lemma uniform_5_binary32 :
  exists depth_min depth_max,
    depth_range (S:=Binary32.scalar) uniform_5 = Some ([depth_min], [depth_max]) /\
    s_sub (Scalar:=Binary32.scalar) depth_max depth_min = S754_finite false 8388608 (-43) /\
    s_sub (Scalar:=Binary32.scalar) depth_max depth_min <> Binary32.eps /\
    normalize_rows (S:=Binary32.scalar) uniform_5 [depth_min] [depth_max]
    = [[S754_zero false; S754_zero false; S754_zero false; S754_zero false]].
Proof.
  eexists. eexists. split; [vm_compute; reflexivity|].
  split; [vm_compute; reflexivity|].
  split; [vm_compute; discriminate|vm_compute; reflexivity].
Qed.

(** C3, in binary32. On the uniform prompt of value 100 the range is
    degenerate and [depth_max] is replaced by [depth_min + 1e-6], which
    rounds to [depth_min]: the corrected range is zero wide, not [1e-6], and
    the normalization divides zero by zero, so that every normalized value
    is NaN. *)
Theorem uniform_prompt_binary32 :
  let depth_min := Binary32.of_Z 100 in
  let depth_max := s_add (Scalar:=Binary32.scalar) depth_min Binary32.eps in
  invalid_mask (S:=Binary32.scalar) [depth_min] [depth_min] = [true] /\
  depth_range (S:=Binary32.scalar) uniform_100 = Some ([depth_min], [depth_max]) /\
  depth_max = depth_min /\
  s_sub (Scalar:=Binary32.scalar) depth_max depth_min = S754_zero false /\
  normalize_rows (S:=Binary32.scalar) uniform_100 [depth_min] [depth_max]
  = [[S754_nan; S754_nan; S754_nan; S754_nan]].
Proof. repeat split; vm_compute; reflexivity. Qed.

(** ** The reference runtime obeys the laws *)

Lemma Reference_laws : TorchLaws Reference.ops.
Proof.
  constructor.
  - intros; reflexivity.
  - intros; reflexivity.
  - intros; reflexivity.
  - intros x y s H. cbn [tensor_add Reference.ops]. rewrite H. reflexivity.
Qed.

(** ** The reassemble layer *)

Lemma Qcompare_lt : forall a b : Q, (a < b)%Q -> Qcompare a b = Lt.
Proof. intros a b H. apply Qlt_alt. exact H. Qed.

Lemma torch_int_inject_Z : forall n : Z, torch_int (inject_Z n) = n.
Proof.
  intros n. unfold torch_int. rewrite Qfloor_Z.
  rewrite Qcompare_lt by lra. reflexivity.
Qed.

Lemma Qfloor_le_torch_int : forall x : Q, Qfloor x <= torch_int x.
Proof.
  intros x. unfold torch_int.
  destruct (Qcompare _ _); [destruct (Z.even _)| |]; lia.
Qed.

(** A reciprocal that is an integer is its own rounding, as it is its own
    truncation. *)
Lemma torch_int_reciprocal :
  forall n : Z, 0 < n -> torch_int (1 / (1 # Z.to_pos n)) = n.
Proof.
  intros n Hn. rewrite <- (torch_int_inject_Z n) at 2.
  unfold torch_int.
  assert (E : (1 / (1 # Z.to_pos n) == inject_Z n)%Q).
  { unfold Qdiv, Qinv, Qmult, Qeq, inject_Z. simpl. rewrite Pos.mul_1_r, Z2Pos.id by lia. lia. }
  rewrite (Qfloor_comp _ _ E).
  assert (C : ((1 / (1 # Z.to_pos n) - inject_Z (Qfloor (inject_Z n)))
               ?= (1 # 2))%Q
              = ((inject_Z n - inject_Z (Qfloor (inject_Z n))) ?= (1 # 2))%Q).
  { apply Qcompare_comp; [rewrite E; reflexivity|reflexivity]. }
  rewrite C. reflexivity.
Qed.

Lemma Qred_inject_Z : forall k : Z, Qred (inject_Z k) = inject_Z k.
Proof.
  intros k. unfold Qred, inject_Z.
  pose proof (Z.ggcd_gcd k 1) as Hg.
  pose proof (Z.ggcd_correct_divisors k 1) as Hd.
  destruct (Z.ggcd k 1) as [g [aa bb]]. simpl in Hg, Hd.
  rewrite Z.gcd_1_r in Hg. subst g. destruct Hd as [Hk Hb].
  rewrite Z.mul_1_l in Hk, Hb. subst aa bb. reflexivity.
Qed.

Lemma as_int_inject_Z :
  forall (factor : Q) (k : Z),
    (factor == inject_Z k)%Q -> PromptDepthAnythingReassembleLayer.as_int factor = Some k.
Proof.
  intros factor k E. unfold PromptDepthAnythingReassembleLayer.as_int.
  rewrite (Qred_complete _ _ E).
  rewrite Qred_inject_Z.
  reflexivity.
Qed.

Lemma conv_out_pointwise : forall n : Z, conv_out n 1 1 0 = n.
Proof. intros n. unfold conv_out. rewrite Z.div_1_r. lia. Qed.

Lemma conv_transpose_out_exact : forall n k : Z, conv_transpose_out n k k 0 = n * k.
Proof. intros n k. unfold conv_transpose_out. ring. Qed.

(** A 3x3 convolution of padding 1 and stride [s] returns the quotient of the
    size by [s], rounded up. *)
Lemma conv_out_downsample :
  forall n s : Z, 1 <= s -> 0 < n ->
    s * (conv_out n 3 s 1 - 1) < n <= s * conv_out n 3 s 1.
Proof.
  intros n s Hs Hn. unfold conv_out.
  replace (n + 2 * 1 - 3) with (n - 1) by lia.
  pose proof (Z.mul_div_le (n - 1) s ltac:(lia)).
  pose proof (Z.mul_succ_div_gt (n - 1) s ltac:(lia)).
  lia.
Qed.

Section Reassemble.
Context {ops : TorchOps} {laws : TorchLaws ops}.

(** C6. For an input of shape [(b, c, h, w)]:
    - an integer [factor > 1] gives a transposed convolution of kernel and
      stride [factor] and padding 0, and the output is [h * factor] by
      [w * factor];
    - [factor == 1] gives the identity, and the output is [h] by [w];
    - [0 < factor < 1] gives a 3x3 convolution of padding 1 and stride
      [torch_int (1 / factor)], at least 1, and the output sizes are the
      quotients of [h] and [w] by the stride, rounded up;
    - in every case the 1x1 projection to [channels] is applied first. *)
Theorem reassemble_layer_resizes :
  forall (config : PromptDepthAnythingConfig.t) (channels : Z) (factor : Q)
         (w_projection w_resize : weights) (x : tensor) (b c h w : Z),
    shape x = [b; c; h; w] ->
    let projection :=
      Conv2d (ConvParams (PromptDepthAnythingConfig.reassemble_hidden_size config)
                channels 1 1 0) w_projection in
    (forall k : Z, 1 < k -> (factor == inject_Z k)%Q ->
       exists layer,
         PromptDepthAnythingReassembleLayer.init config channels factor
           w_projection w_resize = inr layer /\
         PromptDepthAnythingReassembleLayer.projection layer = projection /\
         PromptDepthAnythingReassembleLayer.resize layer
         = ConvTranspose2d (ConvParams channels channels k k 0) w_resize /\
         shape (PromptDepthAnythingReassembleLayer.forward layer x)
         = [b; channels; h * k; w * k])
    /\
    ((factor == 1)%Q ->
       exists layer,
         PromptDepthAnythingReassembleLayer.init config channels factor
           w_projection w_resize = inr layer /\
         PromptDepthAnythingReassembleLayer.projection layer = projection /\
         PromptDepthAnythingReassembleLayer.resize layer = Identity /\
         shape (PromptDepthAnythingReassembleLayer.forward layer x)
         = [b; channels; h; w])
    /\
    ((0 < factor)%Q -> (factor < 1)%Q ->
       exists layer stride h' w',
         PromptDepthAnythingReassembleLayer.init config channels factor
           w_projection w_resize = inr layer /\
         stride = torch_int (1 / factor) /\ 1 <= stride /\
         PromptDepthAnythingReassembleLayer.projection layer = projection /\
         PromptDepthAnythingReassembleLayer.resize layer
         = Conv2d (ConvParams channels channels 3 stride 1) w_resize /\
         shape (PromptDepthAnythingReassembleLayer.forward layer x)
         = [b; channels; h'; w'] /\
         (0 < h -> stride * (h' - 1) < h <= stride * h') /\
         (0 < w -> stride * (w' - 1) < w <= stride * w'))
    /\
    (forall layer,
       PromptDepthAnythingReassembleLayer.init config channels factor
         w_projection w_resize = inr layer ->
       PromptDepthAnythingReassembleLayer.projection layer = projection /\
       PromptDepthAnythingReassembleLayer.forward layer x
       = apply (PromptDepthAnythingReassembleLayer.resize layer) (apply projection x)).
Proof.
  intros config channels factor wp wr x b c h w Hshape projection.
  assert (Hproj : shape (apply projection x) = [b; channels; h; w]).
  { unfold projection. cbn [apply].
    rewrite (conv2d_has_shape _ _ _ Hshape), Hshape. cbn.
    rewrite !conv_out_pointwise. reflexivity. }
  repeat split.
  - intros k Hk E. unfold PromptDepthAnythingReassembleLayer.init.
    destruct (Qlt_le_dec 1 factor) as [_|Hle].
    2:{ exfalso. rewrite E in Hle. unfold Qle, inject_Z in Hle. simpl in Hle. lia. }
    rewrite (as_int_inject_Z E). eexists. repeat split.
    unfold PromptDepthAnythingReassembleLayer.forward.
    cbn [PromptDepthAnythingReassembleLayer.projection
         PromptDepthAnythingReassembleLayer.resize].
    fold projection. cbn [apply] in *.
    rewrite (conv_transpose2d_has_shape _ _ _ Hproj), Hproj. cbn.
    rewrite !conv_transpose_out_exact. reflexivity.
  - intros E. unfold PromptDepthAnythingReassembleLayer.init.
    destruct (Qlt_le_dec 1 factor) as [Hlt|_]; [exfalso; lra|].
    apply Qeq_bool_iff in E. rewrite E. eexists. repeat split.
    exact Hproj.
  - intros Hpos Hlt1. unfold PromptDepthAnythingReassembleLayer.init.
    destruct (Qlt_le_dec 1 factor) as [Hlt|_]; [exfalso; lra|].
    destruct (Qeq_bool factor 1) eqn:E1.
    { apply Qeq_bool_iff in E1. exfalso. lra. }
    destruct (Qeq_bool factor 0) eqn:E0.
    { apply Qeq_bool_iff in E0. exfalso. lra. }
    assert (Hstride : 1 <= torch_int (1 / factor)).
    { eapply Z.le_trans; [|apply Qfloor_le_torch_int].
      assert (Hrec : (inject_Z 1 <= 1 / factor)%Q).
      { apply Qle_shift_div_l; [assumption|]. change (inject_Z 1) with 1%Q. lra. }
      apply Qfloor_resp_le in Hrec. rewrite Qfloor_Z in Hrec. exact Hrec. }
    eexists. exists (torch_int (1 / factor)).
    exists (conv_out h 3 (torch_int (1 / factor)) 1),
           (conv_out w 3 (torch_int (1 / factor)) 1).
    split; [reflexivity|]. split; [reflexivity|]. split; [assumption|].
    split; [reflexivity|]. split; [reflexivity|]. split; [|split].
    + unfold PromptDepthAnythingReassembleLayer.forward.
      cbn [PromptDepthAnythingReassembleLayer.projection
           PromptDepthAnythingReassembleLayer.resize].
      fold projection. cbn [apply] in *.
      rewrite (conv2d_has_shape _ _ _ Hproj), Hproj. reflexivity.
    + intros Hh. apply conv_out_downsample; assumption.
    + intros Hw. apply conv_out_downsample; assumption.
  - unfold PromptDepthAnythingReassembleLayer.init in H.
    destruct (Qlt_le_dec 1 factor);
      [destruct (PromptDepthAnythingReassembleLayer.as_int factor)|
       destruct (Qeq_bool factor 1); [|destruct (Qeq_bool factor 0)]];
      try discriminate; injection H as <-; reflexivity.
  - unfold PromptDepthAnythingReassembleLayer.init in H.
    destruct (Qlt_le_dec 1 factor);
      [destruct (PromptDepthAnythingReassembleLayer.as_int factor)|
       destruct (Qeq_bool factor 1); [|destruct (Qeq_bool factor 0)]];
      try discriminate; injection H as <-; reflexivity.
Qed.

End Reassemble.

Lemma reassemble_layer_resizes_witness :
  (exists layer,
     PromptDepthAnythingReassembleLayer.init Reference.config 2 4 0%Q 0%Q = inr layer /\
     shape (PromptDepthAnythingReassembleLayer.forward layer (Reference.full [1; 6; 2; 2] 0))
     = [1; 2; 2 * 4; 2 * 4]) /\
  (exists layer,
     PromptDepthAnythingReassembleLayer.init Reference.config 4 1 0%Q 0%Q = inr layer /\
     shape (PromptDepthAnythingReassembleLayer.forward layer (Reference.full [1; 6; 2; 2] 0))
     = [1; 4; 2; 2]) /\
  (exists layer stride,
     PromptDepthAnythingReassembleLayer.init Reference.config 5 (1 # 2) 0%Q 0%Q = inr layer /\
     stride = torch_int (1 / (1 # 2)) /\ 1 <= stride).
Proof.
  split; [|split].
  - destruct (@reassemble_layer_resizes Reference.ops Reference_laws Reference.config
                2 4%Q 0%Q 0%Q (Reference.full [1; 6; 2; 2] 0) 1 6 2 2 eq_refl)
      as [Hup _].
    destruct (Hup 4 ltac:(lia) ltac:(reflexivity)) as [layer [Hinit [_ [_ Hshape]]]].
    exists layer. split; assumption.
  - destruct (@reassemble_layer_resizes Reference.ops Reference_laws Reference.config
                4 1%Q 0%Q 0%Q (Reference.full [1; 6; 2; 2] 0) 1 6 2 2 eq_refl)
      as [_ [Hid _]].
    destruct (Hid ltac:(reflexivity)) as [layer [Hinit [_ [_ Hshape]]]].
    exists layer. split; assumption.
  - destruct (@reassemble_layer_resizes Reference.ops Reference_laws Reference.config
                5 (1 # 2)%Q 0%Q 0%Q (Reference.full [1; 6; 2; 2] 0) 1 6 2 2 eq_refl)
      as [_ [_ [Hdown _]]].
    destruct (Hdown ltac:(reflexivity) ltac:(reflexivity))
      as [layer [stride [h' [w' [Hinit [Hstride [Hone _]]]]]]].
    exists layer, stride. repeat split; assumption.
Defined.

(** ** Shapes through the fusion layers *)

Lemma bind_inr {A B : Type} (m : M A) (k : A -> M B) (a : A) (tr tr' : trace) :
  m tr = (inr a, tr') -> bind m k tr = k a tr'.
Proof. intros H. unfold bind. rewrite H. reflexivity. Qed.

Lemma broadcast_aligned_same : forall a : list Z, broadcast_aligned a a = Some a.
Proof.
  induction a as [|x a IH]; simpl; [reflexivity|].
  rewrite IH, Z.eqb_refl. reflexivity.
Qed.

Lemma broadcast_shapes_same : forall a : list Z, broadcast_shapes a a = Some a.
Proof.
  intros a. unfold broadcast_shapes. rewrite broadcast_aligned_same. simpl.
  rewrite rev_involutive. reflexivity.
Qed.

Lemma conv_out_same : forall n : Z, conv_out n 3 1 1 = n.
Proof. intros n. unfold conv_out. rewrite Z.div_1_r. lia. Qed.

Lemma getitem_nth {A : Type} (items : list A) (i : nat) (x : A) :
  nth_error items i = Some x -> getitem items (Z.of_nat i) = inr x.
Proof.
  intros H. unfold getitem.
  assert (Hlt : (i < length items)%nat) by (apply nth_error_Some; congruence).
  assert (E1 : (Z.of_nat i <? 0) = false) by (apply Z.ltb_ge; lia).
  assert (E2 : (Z.of_nat (length items) <=? Z.of_nat i) = false) by (apply Z.leb_gt; lia).
  cbv zeta. rewrite E1, E1, E2. cbn [orb].
  rewrite Nat2Z.id, H. reflexivity.
Qed.

Section FusionShapes.
Context {ops : TorchOps} {laws : TorchLaws ops}.
Variable config : PromptDepthAnythingConfig.t.
Variable b : Z.

Local Abbreviation F := (PromptDepthAnythingConfig.fusion_hidden_size config).

Lemma prompt_depth_layer_shape :
  forall w1 w2 w3 t c h w,
    shape t = [b; c; h; w] ->
    shape (PromptDepthAnythingLayer.forward (PromptDepthAnythingLayer.init config w1 w2 w3) t)
    = [b; F; h; w].
Proof.
  intros w1 w2 w3 t c h w Ht.
  unfold PromptDepthAnythingLayer.forward, PromptDepthAnythingLayer.init.
  cbn [PromptDepthAnythingLayer.convolution1 PromptDepthAnythingLayer.convolution2
       PromptDepthAnythingLayer.convolution3 PromptDepthAnythingLayer.activation1
       PromptDepthAnythingLayer.activation2 apply].
  assert (H1 : shape (relu (conv2d (ConvParams 1 F 3 1 1) w1 t)) = [b; F; h; w]).
  { unfold relu, tmap. cbn [shape].
    rewrite (conv2d_has_shape _ _ _ Ht), Ht. cbn. rewrite !conv_out_same. reflexivity. }
  assert (H2 : shape (relu (conv2d (ConvParams F F 3 1 1) w2
                              (relu (conv2d (ConvParams 1 F 3 1 1) w1 t))))
               = [b; F; h; w]).
  { unfold relu at 1, tmap at 1. cbn [shape].
    rewrite (conv2d_has_shape _ _ _ H1), H1. cbn. rewrite !conv_out_same. reflexivity. }
  rewrite (conv2d_has_shape _ _ _ H2), H2. cbn. rewrite !conv_out_same. reflexivity.
Qed.

(** The shape that one fusion layer returns. *)
Lemma fusion_layer_shape :
  forall layer hidden_state residual size prompt_depth h w,
    fusion_layer_ok config layer ->
    shape hidden_state = [b; F; h; w] ->
    match residual with None => True | Some r => fused_map config b r end ->
    prompt_ok b prompt_depth ->
    match size with None => True | Some s => length s = 2%nat end ->
    shape (PromptDepthAnythingFeatureFusionLayer.forward layer hidden_state residual
             size prompt_depth)
    = match size with
      | None => [b; F; h * 2; w * 2]
      | Some s => b :: F :: s
      end.
Proof.
  intros layer hidden residual size pd h w [Hr1 Hr2 Hproj [w1 [w2 [w3 Hpdl]]]]
    Hhidden Hres Hpd Hsize.
  unfold PromptDepthAnythingFeatureFusionLayer.forward.
  set (hs1 := match residual with Some _ => _ | None => hidden end).
  assert (H1 : shape hs1 = [b; F; h; w]).
  { unfold hs1. destruct residual as [r|]; [|assumption].
    destruct Hres as [hr [wr Hr]].
    apply tensor_add_has_shape.
    assert (Hres' : shape (PromptDepthAnythingFeatureFusionLayer.residual_layer1 layer
                             (if negb (Zlist_eqb (shape hidden) (shape r))
                              then interpolate r (Size (skipn 2 (shape hidden))) false
                              else r)) = [b; F; h; w]).
    { apply Hr1. unfold Zlist_eqb.
      destruct (list_eq_dec Z.eq_dec (shape hidden) (shape r)) as [E|_]; cbn [negb].
      - rewrite <- E. assumption.
      - rewrite Hhidden.
        rewrite (interpolate_has_shape _ (Size (skipn 2 [b; F; h; w])) _ Hr eq_refl), Hr.
        reflexivity. }
    rewrite Hres', Hhidden. apply broadcast_shapes_same. }
  set (hs2 := PromptDepthAnythingFeatureFusionLayer.residual_layer2 layer hs1).
  assert (H2 : shape hs2 = [b; F; h; w]) by (apply Hr2; assumption).
  set (hs3 := match pd with Some _ => _ | None => hs2 end).
  assert (H3 : shape hs3 = [b; F; h; w]).
  { unfold hs3. destruct pd as [p|]; [|assumption].
    destruct Hpd as [hp [wp Hp]].
    apply tensor_add_has_shape. rewrite Hpdl.
    assert (Hi : shape (interpolate p (Size (skipn 2 (shape hs2))) false) = [b; 1; h; w]).
    { rewrite H2.
      rewrite (interpolate_has_shape _ (Size (skipn 2 [b; F; h; w])) _ Hp eq_refl), Hp.
      reflexivity. }
    rewrite (prompt_depth_layer_shape _ _ _ _ Hi), H2. apply broadcast_shapes_same. }
  destruct size as [[|h' [|w' [|extra rest]]]|]; try discriminate.
  - apply Hproj. rewrite (interpolate_has_shape _ (Size [h'; w']) _ H3 Hsize), H3. reflexivity.
  - apply Hproj.
    rewrite (interpolate_has_shape _ (ScaleFactor 2) _ H3 eq_refl), H3. reflexivity.
Qed.

End FusionShapes.

(** ** Shapes through the fusion stage *)

Lemma skipn_cons_nth {A : Type} :
  forall (k : nat) (l : list A) (x : A) (r : list A),
    skipn k l = x :: r -> nth_error l k = Some x /\ skipn (S k) l = r.
Proof.
  induction k as [|k IH]; intros [|y l] x r H; simpl in *; try discriminate.
  - injection H as -> ->. split; reflexivity.
  - apply IH. assumption.
Qed.

Lemma nth_error_rev_last {A : Type} :
  forall (x : A) (rest : list A),
    nth_error (rev (x :: rest)) (length (rev (x :: rest)) - 1) = Some x.
Proof.
  intros x rest. simpl. rewrite length_app. simpl.
  replace (length (rev rest) + 1 - 1)%nat with (length (rev rest)) by lia.
  rewrite nth_error_app2 by lia. rewrite Nat.sub_diag. reflexivity.
Qed.

Lemma map_fst_combine {A B : Type} :
  forall (xs : list A) (ys : list B),
    (length xs <= length ys)%nat -> map fst (combine xs ys) = xs.
Proof.
  induction xs as [|x xs IH]; intros [|y ys] H; simpl in *; try lia; try reflexivity.
  f_equal. apply IH. lia.
Qed.

Section FusionStageShapes.
Context {ops : TorchOps} {laws : TorchLaws ops}.
Variable config : PromptDepthAnythingConfig.t.
Variable b : Z.
Variable prompt_depth : option tensor.
Hypothesis prompt_depth_ok : prompt_ok b prompt_depth.
Variable hidden_states : list tensor.
Hypothesis hidden_states_ok : Forall (fused_map config b) hidden_states.

Local Abbreviation F := (PromptDepthAnythingConfig.fusion_hidden_size config).

(** The loop, from its turn [k] on: [items] holds the levels from [k] on
    with their layers, and the state holds [k] fused maps, the last of them
    of the shape of level [k]. *)
Lemma fusion_loop_shapes :
  forall (items : list (tensor * PromptDepthAnythingFeatureFusionLayer.t)) (k : nat)
         (st : PromptDepthAnythingFeatureFusionStage.locals) (tr : trace),
    map fst items = skipn k hidden_states ->
    Forall (fun p => fusion_layer_ok config (snd p)) items ->
    Forall (fused_map config b) (PromptDepthAnythingFeatureFusionStage.fused_hidden_states st) ->
    length (PromptDepthAnythingFeatureFusionStage.fused_hidden_states st) = k ->
    (k = 0%nat -> PromptDepthAnythingFeatureFusionStage.fused_hidden_state st = None) ->
    ((0 < k)%nat ->
     exists f, PromptDepthAnythingFeatureFusionStage.fused_hidden_state st = Some f /\
               forall t, nth_error hidden_states k = Some t -> shape f = shape t) ->
    exists st' tr',
      for_each (PromptDepthAnythingFeatureFusionStage.body hidden_states prompt_depth)
        (combine (seq k (length items)) items) st tr = (inr st', tr') /\
      Forall (fused_map config b)
        (PromptDepthAnythingFeatureFusionStage.fused_hidden_states st') /\
      length (PromptDepthAnythingFeatureFusionStage.fused_hidden_states st')
      = (k + length items)%nat /\
      (items <> [] ->
       forall d, exists t h w,
         nth_error hidden_states (length hidden_states - 1) = Some t /\
         shape t = [b; F; h; w] /\
         shape (last (PromptDepthAnythingFeatureFusionStage.fused_hidden_states st') d)
         = [b; F; h * 2; w * 2]).
Proof.
  induction items as [|[t layer] rest IH]; intros k st tr Hitems Hlayers Hfused Hlen Hzero Hpos.
  - exists st, tr. simpl. rewrite Nat.add_0_r. repeat split; try assumption.
    intros Hne. contradiction.
  - cbn [map fst] in Hitems. symmetry in Hitems.
    pose proof (f_equal (@length tensor) Hitems) as Hcount.
    rewrite length_skipn in Hcount. cbn [length] in Hcount. rewrite length_map in Hcount.
    destruct (skipn_cons_nth _ _ Hitems) as [Ht Hrest].
    inversion Hlayers as [|p ps Hlayer Hlayers']; subst p ps. cbn [snd] in Hlayer.
    assert (Htmap : fused_map config b t).
    { eapply Forall_forall; [exact hidden_states_ok|]. eapply nth_error_In; exact Ht. }
    destruct Htmap as [h [w Htshape]].
    (* the state that the turn leaves *)
    assert (Hturn : exists fused size,
      PromptDepthAnythingFeatureFusionStage.body hidden_states prompt_depth st
        (k, (t, layer)) tr
      = (inr {| PromptDepthAnythingFeatureFusionStage.size := size;
                PromptDepthAnythingFeatureFusionStage.fused_hidden_state := Some fused;
                PromptDepthAnythingFeatureFusionStage.fused_hidden_states :=
                  PromptDepthAnythingFeatureFusionStage.fused_hidden_states st ++ [fused] |},
         tr ++ [FusionLayerModule k]) /\
      (rest = [] -> shape fused = [b; F; h * 2; w * 2]) /\
      (forall next, nth_error hidden_states (S k) = Some next -> shape fused = shape next) /\
      fused_map config b fused).
    { assert (Hshape_in : forall residual size,
        match residual with None => True | Some r => fused_map config b r end ->
        forall hidden, shape hidden = [b; F; h; w] ->
        match size with None => True | Some s => length s = 2%nat end ->
        shape (PromptDepthAnythingFeatureFusionLayer.forward layer hidden residual
                 size prompt_depth)
        = match size with
          | None => [b; F; h * 2; w * 2]
          | Some s => b :: F :: s
          end).
      { intros residual size Hres hidden Hhidden Hsize.
        apply fusion_layer_shape; assumption. }
      assert (Hstate : exists hidden residual,
        (forall size,
           match PromptDepthAnythingFeatureFusionStage.fused_hidden_state st with
           | None =>
               PromptDepthAnythingFeatureFusionLayer.forward layer t None size prompt_depth
           | Some fused_hidden_state =>
               PromptDepthAnythingFeatureFusionLayer.forward layer fused_hidden_state
                 (Some t) size prompt_depth
           end
           = PromptDepthAnythingFeatureFusionLayer.forward layer hidden residual
               size prompt_depth) /\
        shape hidden = [b; F; h; w] /\
        match residual with None => True | Some r => fused_map config b r end).
      { destruct k as [|k'].
        - rewrite (Hzero eq_refl). exists t, None. repeat split; auto.
        - destruct (Hpos ltac:(lia)) as [f [Hf Hfshape]]. rewrite Hf.
          exists f, (Some t). repeat split.
          + rewrite (Hfshape _ Ht). assumption.
          + exists h, w. assumption. }
      destruct Hstate as [hidden [residual [Hsame [Hhidden Hres]]]].
      unfold PromptDepthAnythingFeatureFusionStage.body.
      destruct rest as [|[next_t next_layer] rest'].
      + (* the last turn: k = n - 1 *)
        cbn [length] in Hcount.
        assert (Hlast : (Z.of_nat k =? Z.of_nat (length hidden_states) - 1) = true)
          by (apply Z.eqb_eq; lia).
        rewrite Hlast. cbn [negb].
        eexists. exists None. split; [|split; [|split]].
        * unfold bind, ret, call. reflexivity.
        * intros _. rewrite Hsame. apply (Hshape_in residual None Hres hidden Hhidden I).
        * intros next Hnext. exfalso.
          assert ((S k < length hidden_states)%nat)
            by (apply nth_error_Some; congruence).
          lia.
        * rewrite Hsame. exists (h * 2), (w * 2).
          apply (Hshape_in residual None Hres hidden Hhidden I).
      + (* a turn before the last *)
        cbn [length] in Hcount.
        assert (Hnot : (Z.of_nat k =? Z.of_nat (length hidden_states) - 1) = false)
          by (apply Z.eqb_neq; lia).
        rewrite Hnot. cbn [negb].
        cbn [map fst] in Hrest.
        destruct (skipn_cons_nth _ _ Hrest) as [Hnext _].
        assert (Hnmap : fused_map config b next_t).
        { eapply Forall_forall; [exact hidden_states_ok|].
          eapply nth_error_In; exact Hnext. }
        destruct Hnmap as [h' [w' Hnshape]].
        replace (Z.of_nat k + 1) with (Z.of_nat (S k)) by lia.
        rewrite (getitem_nth _ _ Hnext), Hnshape. cbn [skipn].
        eexists. exists (Some [h'; w']). split; [|split; [|split]].
        * unfold bind, ret, call. reflexivity.
        * intros Hrest'. discriminate.
        * intros next Hnext'. rewrite Hnext in Hnext'. injection Hnext' as <-.
          rewrite Hsame, (Hshape_in residual (Some [h'; w']) Hres hidden Hhidden eq_refl),
            Hnshape.
          reflexivity.
        * rewrite Hsame. exists h', w'.
          apply (Hshape_in residual (Some [h'; w']) Hres hidden Hhidden eq_refl). }
    destruct Hturn as [fused [size [Hbody [Hfinal [Hnextshape Hfmap]]]]].
    cbn [length seq combine for_each].
    rewrite (@bind_inr _ _ _ _ _ _ _ Hbody).
    destruct (IH (S k)
                {| PromptDepthAnythingFeatureFusionStage.size := size;
                   PromptDepthAnythingFeatureFusionStage.fused_hidden_state := Some fused;
                   PromptDepthAnythingFeatureFusionStage.fused_hidden_states :=
                     PromptDepthAnythingFeatureFusionStage.fused_hidden_states st ++ [fused] |}
                (tr ++ [FusionLayerModule k]))
      as [st' [tr' [Hloop [Hall' [Hlen' Hlast']]]]].
    + symmetry. exact Hrest.
    + exact Hlayers'.
    + cbn. apply Forall_app. split; [assumption|constructor; [assumption|constructor]].
    + cbn. rewrite length_app. simpl. lia.
    + intros Habs. discriminate.
    + intros _. exists fused. split; [reflexivity|]. exact Hnextshape.
    + exists st', tr'. split; [exact Hloop|]. split; [exact Hall'|].
      split; [cbn [length]; lia|].
      intros _ d. destruct rest as [|item rest'].
      * simpl in Hloop. unfold ret in Hloop. injection Hloop as <- <-.
        cbn. rewrite last_last.
        exists t, h, w. repeat split; [|assumption|apply Hfinal; reflexivity].
        cbn [length] in Hcount.
        replace (length hidden_states - 1)%nat with k by lia. assumption.
      * apply Hlast'. discriminate.
Qed.

End FusionStageShapes.

Section FusionStageOutput.
Context {ops : TorchOps} {laws : TorchLaws ops}.

(** The fusion stage keeps the length, the width and the batch size of its
    input, and doubles the resolution of the finest level. *)
Lemma fusion_stage_shapes :
  forall (config : PromptDepthAnythingConfig.t) (b : Z)
         (self : PromptDepthAnythingFeatureFusionStage.t)
         (hidden_states : list tensor) (size : option (list Z))
         (prompt_depth : option tensor) (tr : trace),
    Forall (fusion_layer_ok config) (PromptDepthAnythingFeatureFusionStage.layers self) ->
    Forall (fused_map config b) hidden_states ->
    prompt_ok b prompt_depth ->
    (length hidden_states <= length (PromptDepthAnythingFeatureFusionStage.layers self))%nat ->
    exists out tr',
      PromptDepthAnythingFeatureFusionStage.forward self hidden_states size prompt_depth tr
      = (inr out, tr') /\
      length out = length hidden_states /\
      Forall (fused_map config b) out /\
      forall finest rest h w,
        hidden_states = finest :: rest ->
        shape finest = [b; PromptDepthAnythingConfig.fusion_hidden_size config; h; w] ->
        shape (last out finest)
        = [b; PromptDepthAnythingConfig.fusion_hidden_size config; h * 2; w * 2].
Proof.
  intros config b self hs size pd tr Hlayers Hmaps Hpd Hlen.
  unfold PromptDepthAnythingFeatureFusionStage.forward, enumerate.
  set (layers := PromptDepthAnythingFeatureFusionStage.layers self) in *.
  assert (Hrev : Forall (fused_map config b) (rev hs)).
  { apply Forall_forall. intros t Hin. apply in_rev in Hin.
    eapply Forall_forall; [exact Hmaps|exact Hin]. }
  assert (Hfst : map fst (combine (rev hs) layers) = skipn 0 (rev hs)).
  { cbn [skipn]. apply map_fst_combine. rewrite length_rev. exact Hlen. }
  assert (Hoks : Forall (fun p => fusion_layer_ok config (snd p)) (combine (rev hs) layers)).
  { apply Forall_forall. intros [t layer] Hin. cbn [snd].
    apply in_combine_r in Hin. eapply Forall_forall; [exact Hlayers|exact Hin]. }
  destruct (@fusion_loop_shapes ops laws config b pd Hpd (rev hs) Hrev
              (combine (rev hs) layers) 0%nat
              {| PromptDepthAnythingFeatureFusionStage.size := size;
                 PromptDepthAnythingFeatureFusionStage.fused_hidden_state := None;
                 PromptDepthAnythingFeatureFusionStage.fused_hidden_states := [] |}
              tr Hfst Hoks)
    as [st' [tr' [Hloop [Hall [Hcount Hlast]]]]].
  - constructor.
  - reflexivity.
  - reflexivity.
  - intros Habs. lia.
  - exists (PromptDepthAnythingFeatureFusionStage.fused_hidden_states st'), tr'.
    split; [rewrite (@bind_inr _ _ _ _ _ _ _ Hloop); reflexivity|].
    split; [|split; [exact Hall|]].
    + rewrite Hcount, length_combine, length_rev. cbn [Nat.add]. lia.
    + intros finest rest h w Hhs Hfinest.
      assert (Hne : combine (rev hs) layers <> []).
      { intros Hnil. apply (f_equal (@length _)) in Hnil.
        rewrite length_combine, length_rev, Hhs in Hnil. rewrite Hhs in Hlen.
        cbn [length] in *. lia. }
      destruct (Hlast Hne finest) as [t [h' [w' [Hnth [Htshape Hout]]]]].
      rewrite Hhs, nth_error_rev_last in Hnth. injection Hnth as <-.
      rewrite Hfinest in Htshape. injection Htshape as <- <-. exact Hout.
Qed.

(** C5, as the code has it. On feature maps of the fusion width and of one
    batch size, not more of them than the stage has layers, the fusion stage
    returns a list of the length of its input, of feature maps of the same
    width and batch size; the last of them has twice the height and twice
    the width of the finest level, the first of the input: the last layer
    is called with [size=None] and upsamples by the scale factor 2. *)
Theorem fusion_stage_output :
  forall (config : PromptDepthAnythingConfig.t) (b : Z)
         (self : PromptDepthAnythingFeatureFusionStage.t)
         (hidden_states : list tensor) (size : option (list Z))
         (prompt_depth : option tensor) (tr : trace),
    Forall (fusion_layer_ok config) (PromptDepthAnythingFeatureFusionStage.layers self) ->
    Forall (fused_map config b) hidden_states ->
    prompt_ok b prompt_depth ->
    (length hidden_states <= length (PromptDepthAnythingFeatureFusionStage.layers self))%nat ->
    exists out tr',
      PromptDepthAnythingFeatureFusionStage.forward self hidden_states size prompt_depth tr
      = (inr out, tr') /\
      length out = length hidden_states /\
      Forall (fused_map config b) out /\
      forall finest rest h w,
        hidden_states = finest :: rest ->
        shape finest = [b; PromptDepthAnythingConfig.fusion_hidden_size config; h; w] ->
        shape (last out finest)
        = [b; PromptDepthAnythingConfig.fusion_hidden_size config; h * 2; w * 2].
Proof. exact fusion_stage_shapes. Qed.

End FusionStageOutput.

Lemma Reference_fusion_layer_ok : fusion_layer_ok Reference.config Reference.fusion_layer.
Proof.
  constructor.
  - intros t b h w H. exact H.
  - intros t b h w H. exact H.
  - intros t b h w H.
    cbn [Reference.fusion_layer PromptDepthAnythingFeatureFusionLayer.projection
         conv2d Reference.ops Reference.full shape].
    rewrite H. unfold conv2d_shape. cbn [out_channels kernel_size stride padding].
    rewrite !conv_out_pointwise. reflexivity.
  - exists 0%Q, 0%Q, 0%Q. reflexivity.
Qed.

Lemma fusion_stage_output_witness :
  exists out tr',
    PromptDepthAnythingFeatureFusionStage.forward Reference.one_layer_stage
      [Reference.map_4x4] None None [] = (inr out, tr') /\
    length out = 1%nat /\
    Forall (fused_map Reference.config 1) out /\
    forall finest rest h w,
      [Reference.map_4x4] = finest :: rest ->
      shape finest = [1; 4; h; w] ->
      shape (last out finest) = [1; 4; h * 2; w * 2].
Proof.
  apply (@fusion_stage_output Reference.ops Reference_laws Reference.config 1
           Reference.one_layer_stage [Reference.map_4x4] None None []).
  - constructor; [exact Reference_fusion_layer_ok|constructor].
  - constructor; [exists 4, 4; reflexivity|constructor].
  - exact I.
  - simpl. lia.
Defined.

(** C5, the statement of the spec, fails. One level of 4 by 4 through a stage
    of one layer comes out 8 by 8, not 4 by 4; and two levels through a
    stage of one layer come out as one map, not two. *)
Lemma fusion_stage_last_is_upsampled :
  (exists out tr',
     PromptDepthAnythingFeatureFusionStage.forward Reference.one_layer_stage
       [Reference.map_4x4] None None [] = (inr out, tr') /\
     skipn 2 (shape Reference.map_4x4) = [4; 4] /\
     skipn 2 (shape (last out Reference.map_4x4)) = [8; 8] /\
     skipn 2 (shape (last out Reference.map_4x4)) <> skipn 2 (shape Reference.map_4x4))
  /\
  (exists out tr',
     PromptDepthAnythingFeatureFusionStage.forward Reference.one_layer_stage
       [Reference.map_4x4; Reference.map_2x2] None None [] = (inr out, tr') /\
     length out = 1%nat /\
     length out <> length [Reference.map_4x4; Reference.map_2x2]).
Proof.
  split.
  - eexists. eexists. split; [vm_compute; reflexivity|].
    repeat split; try reflexivity. cbn. discriminate.
  - eexists. eexists. split; [vm_compute; reflexivity|].
    split; [reflexivity|]. cbn. discriminate.
Qed.

(** ** Shapes through the neck and the head *)

Lemma Forall2_join {A B C : Type} (P : A -> C -> Prop) (Q : B -> C -> Prop) :
  forall (xs : list A) (ys : list B) (zs : list C),
    Forall2 P xs zs -> Forall2 Q ys zs ->
    Forall2 (fun x y => exists z, P x z /\ Q y z) xs ys.
Proof.
  intros xs ys zs HP. revert ys.
  induction HP as [|x z xs zs Hx _ IH]; intros ys HQ; inversion HQ; subst.
  - constructor.
  - constructor; [exists z; split; assumption|apply IH; assumption].
Qed.

Lemma getitem_valid {A : Type} (items : list A) (i : Z) :
  - Z.of_nat (length items) <= i < Z.of_nat (length items) ->
  exists x, getitem items i = inr x /\ In x items.
Proof.
  intros Hi. unfold getitem. cbv zeta.
  set (j := if i <? 0 then Z.of_nat (length items) + i else i).
  assert (Hj : 0 <= j < Z.of_nat (length items)).
  { unfold j. destruct (Z.ltb_spec i 0); lia. }
  assert (E1 : (j <? 0) = false) by (apply Z.ltb_ge; lia).
  assert (E2 : (Z.of_nat (length items) <=? j) = false) by (apply Z.leb_gt; lia).
  rewrite E1, E2. cbn [orb].
  destruct (nth_error items (Z.to_nat j)) as [x|] eqn:Hnth.
  - exists x. split; [reflexivity|]. eapply nth_error_In; exact Hnth.
  - apply nth_error_None in Hnth. lia.
Qed.

Section NeckShapes.
Context {ops : TorchOps} {laws : TorchLaws ops}.

Lemma reassemble_layer_shape :
  forall config channels factor w_projection w_resize layer x b c h w,
    PromptDepthAnythingReassembleLayer.init config channels factor w_projection w_resize
    = inr layer ->
    shape x = [b; c; h; w] ->
    exists h' w',
      shape (PromptDepthAnythingReassembleLayer.forward layer x) = [b; channels; h'; w'].
Proof.
  intros config channels factor wp wr layer x b c h w Hinit Hx.
  set (projection :=
         Conv2d (ConvParams (PromptDepthAnythingConfig.reassemble_hidden_size config)
                   channels 1 1 0) wp).
  assert (Hproj : shape (apply projection x) = [b; channels; h; w]).
  { unfold projection. cbn [apply].
    rewrite (conv2d_has_shape _ _ _ Hx), Hx. cbn.
    rewrite !conv_out_pointwise. reflexivity. }
  unfold PromptDepthAnythingReassembleLayer.init in Hinit. fold projection in Hinit.
  unfold PromptDepthAnythingReassembleLayer.forward.
  destruct (Qlt_le_dec 1 factor).
  - destruct (PromptDepthAnythingReassembleLayer.as_int factor) as [k|]; [|discriminate].
    injection Hinit as <-.
    cbn [PromptDepthAnythingReassembleLayer.projection
         PromptDepthAnythingReassembleLayer.resize].
    cbn [apply] in *. rewrite (conv_transpose2d_has_shape _ _ _ Hproj), Hproj.
    eexists. eexists. reflexivity.
  - destruct (Qeq_bool factor 1).
    + injection Hinit as <-.
      cbn [PromptDepthAnythingReassembleLayer.projection
           PromptDepthAnythingReassembleLayer.resize].
      exists h, w. exact Hproj.
    + destruct (Qeq_bool factor 0); [discriminate|]. injection Hinit as <-.
      cbn [PromptDepthAnythingReassembleLayer.projection
           PromptDepthAnythingReassembleLayer.resize].
      cbn [apply] in *. rewrite (conv2d_has_shape _ _ _ Hproj), Hproj.
      eexists. eexists. reflexivity.
Qed.

Lemma zip_layers_shapes :
  forall config b R layers channels hidden_states,
    Forall2
      (fun layer c => exists factor w_projection w_resize,
         PromptDepthAnythingReassembleLayer.init config c factor w_projection w_resize
         = inr layer) layers channels ->
    Forall (fun t => exists h w, shape t = [b; R; h; w]) hidden_states ->
    length hidden_states = length layers ->
    Forall2 (fun t c => exists h w, shape t = [b; c; h; w])
      (PromptDepthAnythingReassembleStage.zip_layers layers hidden_states) channels.
Proof.
  intros config b R layers channels hs Hlayers. revert hs.
  induction Hlayers as [|layer c layers channels [factor [wp [wr Hinit]]] _ IH];
    intros [|t hs] Hmaps Hlen; simpl in *; try discriminate; constructor.
  - inversion Hmaps as [|? ? [h [w Ht]] _]; subst.
    exact (reassemble_layer_shape _ _ _ _ _ _ Hinit Ht).
  - inversion Hmaps; subst. apply IH; [assumption|lia].
Qed.

Lemma readout_loop :
  forall (self : PromptDepthAnythingNeck.t) (b : Z) (items : list tensor)
         (rest_convs : list (tensor -> tensor)),
    Forall2
      (fun t conv => exists c,
         (exists h w, shape t = [b; c; h; w]) /\
         maps_channels conv c
           (PromptDepthAnythingConfig.fusion_hidden_size (PromptDepthAnythingNeck.config self)))
      items rest_convs ->
    forall (k : nat) (features : list tensor) (tr : trace),
      skipn k (PromptDepthAnythingNeck.convs self) = rest_convs ->
      exists outs tr',
        for_each (PromptDepthAnythingNeck.readout self)
          (combine (seq k (length items)) items) features tr
        = (inr (features ++ outs), tr') /\
        length outs = length items /\
        Forall (fused_map (PromptDepthAnythingNeck.config self) b) outs.
Proof.
  intros self b items rest_convs H.
  induction H as [|t conv items rest_convs [c [[h [w Ht]] Hconv]] _ IH];
    intros k features tr Hskip.
  - exists [], tr. rewrite app_nil_r. repeat split. constructor.
  - destruct (skipn_cons_nth _ _ Hskip) as [Hnth Hskip'].
    destruct (IH (S k) (features ++ [conv t]) (tr ++ [NeckConv k]) Hskip')
      as [outs [tr' [Hloop [Hlen Hall]]]].
    exists (conv t :: outs), tr'. split; [|split].
    + cbn [length seq combine for_each].
      unfold PromptDepthAnythingNeck.readout at 1.
      unfold bind at 1 2. unfold lift. rewrite (getitem_nth _ _ Hnth).
      unfold bind at 1. unfold call. unfold ret at 1.
      rewrite Hloop, <- app_assoc. reflexivity.
    + simpl. lia.
    + constructor; [|exact Hall]. exists h, w. apply Hconv. exact Ht.
Qed.

Lemma neck_forward_shapes :
  forall (self : PromptDepthAnythingNeck.t) (hidden_states : pyobj)
         (patch_height patch_width : option Z) (prompt_depth : option tensor)
         (tr : trace) (b : Z),
    neck_ok self ->
    prompt_ok b prompt_depth ->
    is_tuple_or_list hidden_states = true ->
    length (PromptDepthAnythingNeck.items_of hidden_states)
    = length (PromptDepthAnythingConfig.neck_hidden_sizes (PromptDepthAnythingNeck.config self)) ->
    Forall
      (fun t => exists h w,
         shape t = [b; PromptDepthAnythingConfig.reassemble_hidden_size
                         (PromptDepthAnythingNeck.config self); h; w])
      (PromptDepthAnythingNeck.items_of hidden_states) ->
    exists out tr',
      PromptDepthAnythingNeck.forward self hidden_states patch_height patch_width
        prompt_depth tr = (inr out, tr') /\
      length out
      = length (PromptDepthAnythingConfig.neck_hidden_sizes (PromptDepthAnythingNeck.config self)) /\
      Forall (fused_map (PromptDepthAnythingNeck.config self) b) out.
Proof.
  intros self hs ph pw pd tr b [Hre Hconvs Hfusion Hflen] Hpd Hseq Hlen Hmaps.
  unfold PromptDepthAnythingNeck.forward.
  rewrite Hseq. cbn [negb]. rewrite Hlen, Nat.eqb_refl. cbn [negb].
  set (items := PromptDepthAnythingNeck.items_of hs) in *.
  set (config := PromptDepthAnythingNeck.config self) in *.
  set (layers := PromptDepthAnythingReassembleStage.layers
                   (PromptDepthAnythingNeck.reassemble_stage self)) in *.
  assert (Hll : length layers = length (PromptDepthAnythingConfig.neck_hidden_sizes config))
    by (eapply Forall2_length; exact Hre).
  assert (Hzip := @zip_layers_shapes _ _ _ _ _ _ Hre Hmaps ltac:(lia)).
  pose proof (Forall2_join Hzip Hconvs) as Hjoin.
  destruct (readout_loop self Hjoin 0%nat [] (tr ++ [ReassembleStageModule]) eq_refl)
    as [features [tr1 [Hread [Hflen' Hfeat]]]].
  cbn [app] in Hread.
  assert (Hzlen : length (PromptDepthAnythingReassembleStage.zip_layers layers items)
                  = length (PromptDepthAnythingConfig.neck_hidden_sizes config))
    by (eapply Forall2_length; exact Hzip).
  destruct (@fusion_stage_shapes _ _ config b (PromptDepthAnythingNeck.fusion_stage self)
              features None pd (tr1 ++ [FusionStageModule]) Hfusion Hfeat Hpd ltac:(lia))
    as [out [tr2 [Hstage [Holen [Hout _]]]]].
  exists out, tr2. split; [|split; [lia|exact Hout]].
  unfold bind at 1. unfold call at 1.
  unfold bind at 1. unfold PromptDepthAnythingReassembleStage.forward.
  fold layers. rewrite Hlen, <- Hll, Nat.eqb_refl. cbn [negb]. unfold ret at 1.
  unfold bind at 1. unfold enumerate. rewrite Hread.
  unfold bind at 1. unfold call at 1.
  unfold bind at 1. rewrite Hstage. reflexivity.
Qed.

Lemma head_forward_shape :
  forall (config : PromptDepthAnythingConfig.t)
         (self : PromptDepthAnythingDepthEstimationHead.t)
         (hidden_states : list tensor) (patch_height patch_width : Z) (tr : trace) (b : Z),
    head_ok config self ->
    Forall (fused_map config b) hidden_states ->
    length hidden_states = length (PromptDepthAnythingConfig.neck_hidden_sizes config) ->
    exists t,
      PromptDepthAnythingDepthEstimationHead.forward self hidden_states
        patch_height patch_width tr = (inr t, tr) /\
      shape t
      = [b; fst (PromptDepthAnythingDepthEstimationHead.target_size self patch_height patch_width);
            snd (PromptDepthAnythingDepthEstimationHead.target_size self patch_height patch_width)].
Proof.
  intros config self hs ph pw tr b [Hps Hidx [c1 [c2 [H1 [H2 [Ha H3]]]]]] Hmaps Hlen.
  rewrite <- Hlen in Hidx.
  destruct (getitem_valid hs Hidx) as [x [Hget Hin]].
  assert (Hx : fused_map config b x) by (eapply Forall_forall; [exact Hmaps|exact Hin]).
  destruct Hx as [h [w Hx]].
  unfold PromptDepthAnythingDepthEstimationHead.forward.
  unfold bind, lift. rewrite Hget.
  destruct (PromptDepthAnythingDepthEstimationHead.target_size self ph pw) as [th tw].
  eexists. split; [reflexivity|]. cbn [fst snd].
  pose proof (H1 _ _ _ _ Hx) as S1.
  assert (S2 : shape (interpolate (PromptDepthAnythingDepthEstimationHead.conv1 self x)
                        (Size [th; tw]) true) = [b; c1; th; tw]).
  { rewrite (interpolate_has_shape _ (Size [th; tw]) _ S1 eq_refl), S1. reflexivity. }
  pose proof (H2 _ _ _ _ S2) as S3.
  pose proof (Ha _ _ _ _ S3) as S4.
  pose proof (H3 _ _ _ _ S4) as S5.
  unfold squeeze1, tmap. cbn [shape data]. rewrite S5. reflexivity.
Qed.

End NeckShapes.

(** ** Shapes through the model *)

Lemma reduce_dim1_total {S : Scalar} (f : num -> num -> num) :
  forall rows : list (list num),
    Forall (fun row => row <> []) rows -> exists vs, reduce_dim1 f rows = Some vs.
Proof.
  induction 1 as [|row rows Hrow _ [vs IH]].
  - exists []. reflexivity.
  - destruct row as [|x rest]; [contradiction|].
    eexists. simpl. rewrite IH. reflexivity.
Qed.

Lemma normalize_well_formed :
  forall (p : tensor) (b h w : Z),
    shape p = [b; 1; h; w] -> 0 < b -> 0 < h -> 0 < w -> well_formed_tensor p ->
    exists normalized depth_min depth_max,
      PromptDepthAnythingForDepthEstimation.normalize_prompt_depth p
      = inr (normalized, (depth_min, depth_max)) /\
      shape normalized = [b; 1; h; w] /\
      Z.of_nat (length depth_min) = b /\
      length depth_max = length depth_min.
Proof.
  intros p b h w Hshape Hb Hh Hw Hwf.
  pose proof Hwf as Hwf'.
  unfold well_formed_tensor in Hwf. rewrite Hshape in Hwf. destruct Hwf as [Hrows Hlens].
  assert (Hne : Forall (fun row : list Q => row <> []) (data p)).
  { eapply Forall_impl; [|exact Hlens]. intros row Hrow Hnil. subst row.
    cbn [length fold_right] in Hrow. nia. }
  destruct (reduce_dim1_total (S:=QScalar) Qmin Hne) as [mins Hmins].
  destruct (reduce_dim1_total (S:=QScalar) Qmax Hne) as [maxs Hmaxs].
  pose proof (depth_range_corrected _ Hmins Hmaxs) as Hrange.
  pose proof (reduce_dim1_length _ _ Hmins) as Hl1.
  pose proof (reduce_dim1_length _ _ Hmaxs) as Hl2.
  change (@num QScalar) with Q in *.
  eexists. exists mins. eexists.
  rewrite (@normalize_prompt_depth_4d p b 1 h w _ _ Hshape Hb ltac:(lia) Hh Hw Hwf' Hrange).
  split; [reflexivity|]. split; [reflexivity|]. split; [lia|].
  rewrite length_map, length_combine. lia.
Qed.

Lemma denormalize_single :
  forall (t : tensor) (depth_min depth_max : list Q) (th tw : Z),
    Z.of_nat (length depth_min) = 1 -> length depth_max = length depth_min ->
    shape t = [1; th; tw] ->
    exists t',
      PromptDepthAnythingForDepthEstimation.denormalize t depth_min depth_max = inr t' /\
      shape t' = [1; th; tw].
Proof.
  intros t mins maxs th tw Hone Hlen Hshape.
  unfold PromptDepthAnythingForDepthEstimation.denormalize.
  rewrite Hshape, Hone, broadcast_shapes_3d.
  destruct mins as [|mn [|mn' mins']]; cbn [length] in Hone; try lia.
  destruct maxs as [|mx [|mx' maxs']]; cbn [length] in Hlen; try discriminate.
  cbn [combine]. unfold PromptDepthAnythingForDepthEstimation.broadcast_rows.
  destruct (_ =? _)%nat.
  - eexists. split; reflexivity.
  - destruct (data t) as [|row [|row' rows]]; eexists; split; reflexivity.
Qed.

Lemma predicted_depth_of_assemble :
  forall outputs predicted_depth return_dict output_hidden_states,
    predicted_depth_of
      (PromptDepthAnythingForDepthEstimation.assemble outputs predicted_depth
         return_dict output_hidden_states) = predicted_depth.
Proof.
  intros outputs pd rd ohs. unfold PromptDepthAnythingForDepthEstimation.assemble.
  destruct rd, ohs; reflexivity.
Qed.

Section ModelShapes.
Context {ops : TorchOps} {laws : TorchLaws ops}.

(** On pixels of batch size 1 a well-formed model returns a depth map at the
    resolution that the head interpolates to. *)
Lemma forward_shape :
  forall (self : PromptDepthAnythingForDepthEstimation.t) (pixel_values : tensor)
         (output_attentions output_hidden_states : option bool)
         (prompt_depth : option tensor) (return_dict : option bool) (tr : trace)
         (c height width : Z),
    model_ok self ->
    PromptDepthAnythingConfig.patch_size (PromptDepthAnythingForDepthEstimation.config self) <> 0 ->
    shape pixel_values = [1; c; height; width] ->
    prompt_well_formed 1 prompt_depth ->
    exists out tr',
      PromptDepthAnythingForDepthEstimation.forward self pixel_values None
        output_attentions output_hidden_states prompt_depth return_dict tr
      = (inr out, tr') /\
      let patch_size :=
        PromptDepthAnythingConfig.patch_size (PromptDepthAnythingForDepthEstimation.config self) in
      let grid := PromptDepthAnythingForDepthEstimation.patch_grid patch_size height width in
      let target :=
        PromptDepthAnythingDepthEstimationHead.target_size
          (PromptDepthAnythingForDepthEstimation.head self) (fst grid) (snd grid) in
      shape (predicted_depth_of out) = [1; fst target; snd target].
Proof.
  intros self pixel oa ohs prompt rd tr c height width [Hcfg Hneck Hhead Hbackbone]
    Hps Hpixel Hprompt.
  unfold PromptDepthAnythingForDepthEstimation.forward.
  set (config := PromptDepthAnythingForDepthEstimation.config self) in *.
  set (outputs := PromptDepthAnythingForDepthEstimation.backbone self pixel _ _).
  destruct (Hbackbone pixel
              (PromptDepthAnythingForDepthEstimation.or_default ohs
                 (PromptDepthAnythingConfig.output_hidden_states config))
              (PromptDepthAnythingForDepthEstimation.or_default oa
                 (PromptDepthAnythingConfig.output_attentions config))
              1 c height width Hpixel) as [Hseq [Hlen Hmaps]].
  fold config in Hlen, Hmaps. fold outputs in Hseq, Hlen, Hmaps.
  unfold bind at 1. unfold call at 1. rewrite Hpixel.
  apply Z.eqb_neq in Hps. rewrite Hps.
  unfold PromptDepthAnythingForDepthEstimation.patch_grid. cbn [fst snd].
  set (ph := height / PromptDepthAnythingConfig.patch_size config).
  set (pw := width / PromptDepthAnythingConfig.patch_size config).
  (* the prompt, normalized *)
  assert (Hnorm : exists prompt' range,
    match prompt with
    | Some prompt_depth =>
        match PromptDepthAnythingForDepthEstimation.normalize_prompt_depth prompt_depth with
        | inr (prompt_depth, range) => ret (Some prompt_depth, Some range)
        | inl e => raise e
        end
    | None => ret (None, None)
    end (tr ++ [Backbone]) = (inr (prompt', range), tr ++ [Backbone]) /\
    prompt_ok 1 prompt' /\
    match range with
    | None => True
    | Some (depth_min, depth_max) =>
        Z.of_nat (length depth_min) = 1 /\ length depth_max = length depth_min
    end).
  { destruct prompt as [p|].
    - destruct Hprompt as [h [w [Hp [Hh [Hw Hwf]]]]].
      destruct (@normalize_well_formed p 1 h w Hp ltac:(lia) Hh Hw Hwf)
        as [p' [mins [maxs [Hn [Hp' [Hone Hlens]]]]]].
      exists (Some p'), (Some (mins, maxs)). rewrite Hn.
      split; [reflexivity|]. split; [exists h, w; exact Hp'|]. split; assumption.
    - exists None, None. repeat split. }
  destruct Hnorm as [prompt' [range [Hnorm [Hpok Hrange]]]].
  rewrite (@bind_inr _ _ _ _ _ _ _ Hnorm).
  unfold bind at 1. unfold call at 1.
  rewrite <- Hcfg in Hlen, Hmaps.
  destruct (@neck_forward_shapes _ _ (PromptDepthAnythingForDepthEstimation.neck self)
              (BackboneOutput.feature_maps outputs) (Some ph) (Some pw) prompt'
              ((tr ++ [Backbone]) ++ [NeckModule]) 1 Hneck Hpok Hseq Hlen Hmaps)
    as [fused [tr1 [Hneckrun [Hflen Hfused]]]].
  rewrite (@bind_inr _ _ _ _ _ _ _ Hneckrun).
  unfold bind at 1. unfold call at 1.
  rewrite Hcfg in Hflen, Hfused.
  destruct (@head_forward_shape _ _ config (PromptDepthAnythingForDepthEstimation.head self)
              fused ph pw (tr1 ++ [HeadModule]) 1 Hhead Hfused Hflen)
    as [predicted [Hheadrun Hpshape]].
  rewrite (@bind_inr _ _ _ _ _ _ _ Hheadrun).
  destruct range as [[mins maxs]|].
  - destruct Hrange as [Hone Hlens].
    destruct (@denormalize_single predicted mins maxs _ _ Hone Hlens Hpshape) as [restored [Hden Hrshape]].
    unfold bind, lift, ret. rewrite Hden.
    eexists. eexists. split; [reflexivity|].
    cbv zeta. rewrite predicted_depth_of_assemble. exact Hrshape.
  - unfold bind, ret.
    eexists. eexists. split; [reflexivity|].
    cbv zeta. rewrite predicted_depth_of_assemble. exact Hpshape.
Qed.

(** C9. For pixels of shape [(1, 3, 392, 518)] and a patch size of 14, the
    patch grid is [(28, 37)], the head interpolates to [(392, 518)], and the
    model returns a predicted depth of shape [(1, 392, 518)]; the prompt is
    absent or of shape [(1, 1, h, w)]. *)
Theorem scenario_A_shapes :
  forall (self : PromptDepthAnythingForDepthEstimation.t) (pixel_values : tensor)
         (output_attentions output_hidden_states : option bool)
         (prompt_depth : option tensor) (return_dict : option bool) (tr : trace),
    model_ok self ->
    PromptDepthAnythingConfig.patch_size (PromptDepthAnythingForDepthEstimation.config self) = 14 ->
    shape pixel_values = [1; 3; 392; 518] ->
    prompt_well_formed 1 prompt_depth ->
    PromptDepthAnythingForDepthEstimation.patch_grid 14 392 518 = (28, 37) /\
    PromptDepthAnythingDepthEstimationHead.target_size
      (PromptDepthAnythingForDepthEstimation.head self) 28 37 = (392, 518) /\
    exists out tr',
      PromptDepthAnythingForDepthEstimation.forward self pixel_values None
        output_attentions output_hidden_states prompt_depth return_dict tr
      = (inr out, tr') /\
      shape (predicted_depth_of out) = [1; 392; 518].
Proof.
  intros self pixel oa ohs prompt rd tr Hok Hps Hpixel Hprompt.
  assert (Htarget : PromptDepthAnythingDepthEstimationHead.target_size
                      (PromptDepthAnythingForDepthEstimation.head self) 28 37 = (392, 518)).
  { unfold PromptDepthAnythingDepthEstimationHead.target_size.
    rewrite (head_patch_size_ok (model_head_ok Hok)), Hps, !torch_int_inject_Z.
    reflexivity. }
  split; [reflexivity|]. split; [exact Htarget|].
  destruct (@forward_shape self pixel oa ohs prompt rd tr 3 392 518 Hok
              ltac:(rewrite Hps; discriminate) Hpixel Hprompt)
    as [out [tr' [Hrun Hshape]]].
  exists out, tr'. split; [exact Hrun|].
  cbv zeta in Hshape. rewrite Hps in Hshape.
  change (PromptDepthAnythingForDepthEstimation.patch_grid 14 392 518) with (28, 37) in Hshape.
  cbn [fst snd] in Hshape. rewrite Htarget in Hshape. exact Hshape.
Qed.

End ModelShapes.

(** ** The reference model is well formed *)

Lemma Reference_conv_maps_channels :
  forall (cin cout : Z) (bias : Q),
    maps_channels (conv2d (ConvParams cin cout 3 1 1) bias) cin cout.
Proof.
  intros cin cout bias t b h w H.
  cbn [conv2d Reference.ops Reference.full shape]. rewrite H.
  unfold conv2d_shape. cbn [out_channels kernel_size stride padding].
  rewrite !conv_out_same. reflexivity.
Qed.

Lemma Reference_pointwise_maps_channels :
  forall (cin cout : Z) (bias : Q),
    maps_channels (conv2d (ConvParams cin cout 1 1 0) bias) cin cout.
Proof.
  intros cin cout bias t b h w H.
  cbn [conv2d Reference.ops Reference.full shape]. rewrite H.
  unfold conv2d_shape. cbn [out_channels kernel_size stride padding].
  rewrite !conv_out_pointwise. reflexivity.
Qed.

Lemma Reference_neck_ok : neck_ok Reference.neck.
Proof.
  constructor.
  - cbn [Reference.neck PromptDepthAnythingNeck.reassemble_stage
         PromptDepthAnythingNeck.config PromptDepthAnythingReassembleStage.layers
         Reference.config PromptDepthAnythingConfig.neck_hidden_sizes].
    apply Forall2_cons; [exists 4%Q, 0%Q, 0%Q; reflexivity|].
    apply Forall2_cons; [exists 2%Q, 0%Q, 0%Q; reflexivity|].
    apply Forall2_cons; [exists 1%Q, 0%Q, 0%Q; reflexivity|].
    apply Forall2_cons; [exists (1 # 2)%Q, 0%Q, 0%Q; reflexivity|].
    apply Forall2_nil.
  - cbn [Reference.neck PromptDepthAnythingNeck.convs PromptDepthAnythingNeck.config
         Reference.config PromptDepthAnythingConfig.neck_hidden_sizes
         PromptDepthAnythingConfig.fusion_hidden_size].
    repeat (apply Forall2_cons; [apply Reference_conv_maps_channels|]). apply Forall2_nil.
  - cbn [Reference.neck PromptDepthAnythingNeck.fusion_stage PromptDepthAnythingNeck.config
         Reference.fusion_stage PromptDepthAnythingFeatureFusionStage.layers].
    repeat (apply Forall_cons; [exact Reference_fusion_layer_ok|]). apply Forall_nil.
  - reflexivity.
Qed.

Lemma Reference_head_ok :
  forall max_depth bias : Q, head_ok Reference.config (Reference.head max_depth bias).
Proof.
  intros max_depth bias. constructor.
  - reflexivity.
  - cbn. lia.
  - exists 2, 32.
    cbn [Reference.head Reference.config PromptDepthAnythingConfig.fusion_hidden_size
         PromptDepthAnythingDepthEstimationHead.conv1
         PromptDepthAnythingDepthEstimationHead.conv2
         PromptDepthAnythingDepthEstimationHead.conv3
         PromptDepthAnythingDepthEstimationHead.activation1].
    repeat split.
    + apply Reference_conv_maps_channels.
    + apply Reference_conv_maps_channels.
    + intros t b h w H. exact H.
    + apply Reference_pointwise_maps_channels.
Qed.

Lemma Reference_model_ok :
  forall max_depth bias : Q, model_ok (Reference.model max_depth bias).
Proof.
  intros max_depth bias. constructor.
  - reflexivity.
  - exact Reference_neck_ok.
  - apply Reference_head_ok.
  - intros pixel ohs oa b c h w Hpixel.
    cbn [Reference.model PromptDepthAnythingForDepthEstimation.backbone
         PromptDepthAnythingForDepthEstimation.config Reference.backbone
         BackboneOutput.feature_maps].
    rewrite Hpixel. cbv zeta.
    split; [reflexivity|]. split; [reflexivity|].
    cbn [PromptDepthAnythingNeck.items_of].
    repeat (apply Forall_cons; [exists (h / 14), (w / 14); reflexivity|]). apply Forall_nil.
Qed.

Lemma scenario_A_shapes_witness :
  PromptDepthAnythingForDepthEstimation.patch_grid 14 392 518 = (28, 37) /\
  PromptDepthAnythingDepthEstimationHead.target_size
    (PromptDepthAnythingForDepthEstimation.head (Reference.model 1 0)) 28 37 = (392, 518) /\
  exists out tr',
    PromptDepthAnythingForDepthEstimation.forward (Reference.model 1 0)
      Reference.pixels_392_518 None None None (Some Reference.prompt_0_1) None []
    = (inr out, tr') /\
    shape (predicted_depth_of out) = [1; 392; 518].
Proof.
  apply (@scenario_A_shapes Reference.ops Reference_laws (Reference.model 1 0)
           Reference.pixels_392_518 None None (Some Reference.prompt_0_1) None []).
  - apply Reference_model_ok.
  - reflexivity.
  - reflexivity.
  - exists 1, 2. split; [reflexivity|]. split; [lia|]. split; [lia|].
    unfold well_formed_tensor. cbn [Reference.prompt_0_1 shape data].
    split; [reflexivity|]. repeat constructor.
Defined.

(** ** The range of the predicted depth *)

Local Open Scope Q_scope.


Local Close Scope Q_scope.




(** * Further properties of the normalization protocol *)

Local Open Scope Q_scope.

Lemma fold_min_le_in :
  forall (rest : list Q) (x0 y : Q), In y (x0 :: rest) -> fold_left Qmin rest x0 <= y.
Proof.
  induction rest as [|z rest IH]; intros x0 y Hin; simpl.
  - destruct Hin as [<-|[]]. apply Qle_refl.
  - destruct Hin as [<-|[<-|Hin]].
    + eapply Qle_trans; [apply fold_min_le|apply Q.le_min_l].
    + eapply Qle_trans; [apply fold_min_le|apply Q.le_min_r].
    + apply IH. right. exact Hin.
Qed.

Lemma fold_max_ge_in :
  forall (rest : list Q) (x0 y : Q), In y (x0 :: rest) -> y <= fold_left Qmax rest x0.
Proof.
  induction rest as [|z rest IH]; intros x0 y Hin; simpl.
  - destruct Hin as [<-|[]]. apply Qle_refl.
  - destruct Hin as [<-|[<-|Hin]].
    + eapply Qle_trans; [apply Q.le_max_l|apply fold_max_ge].
    + eapply Qle_trans; [apply Q.le_max_r|apply fold_max_ge].
    + apply IH. right. exact Hin.
Qed.

Lemma reduce_min_le_in :
  forall (row : list Q) (mn x : Q),
    reduce (S:=QScalar) Qmin row = Some mn -> In x row -> mn <= x.
Proof.
  intros [|x0 rest] mn x H Hin; simpl in H; [discriminate|].
  injection H as <-. apply fold_min_le_in. exact Hin.
Qed.

Lemma reduce_max_ge_in :
  forall (row : list Q) (mx x : Q),
    reduce (S:=QScalar) Qmax row = Some mx -> In x row -> x <= mx.
Proof.
  intros [|x0 rest] mx x H Hin; simpl in H; [discriminate|].
  injection H as <-. apply fold_max_ge_in. exact Hin.
Qed.

Lemma fold_min_in :
  forall (rest : list Q) (x0 : Q), In (fold_left Qmin rest x0) (x0 :: rest).
Proof.
  induction rest as [|z rest IH]; intros x0; simpl.
  - left. reflexivity.
  - destruct (IH (Qmin x0 z)) as [E|Hin].
    + rewrite <- E. unfold Qmin, GenericMinMax.gmin.
      destruct (x0 ?= z); [left|left|right; left]; reflexivity.
    + right. right. exact Hin.
Qed.

Lemma fold_max_in :
  forall (rest : list Q) (x0 : Q), In (fold_left Qmax rest x0) (x0 :: rest).
Proof.
  induction rest as [|z rest IH]; intros x0; simpl.
  - left. reflexivity.
  - destruct (IH (Qmax x0 z)) as [E|Hin].
    + rewrite <- E. unfold Qmax, GenericMinMax.gmax.
      destruct (x0 ?= z); [left|right; left|left]; reflexivity.
    + right. right. exact Hin.
Qed.

Lemma reduce_min_in :
  forall (row : list Q) (mn : Q), reduce (S:=QScalar) Qmin row = Some mn -> In mn row.
Proof.
  intros [|x0 rest] mn H; simpl in H; [discriminate|].
  injection H as <-. apply fold_min_in.
Qed.

Lemma reduce_max_in :
  forall (row : list Q) (mx : Q), reduce (S:=QScalar) Qmax row = Some mx -> In mx row.
Proof.
  intros [|x0 rest] mx H; simpl in H; [discriminate|].
  injection H as <-. apply fold_max_in.
Qed.

(** *** The uniform prompt *)

Lemma fold_min_uniform :
  forall (v : Q) (rest : list Q) (x0 : Q),
    x0 == v -> Forall (fun x => x == v) rest -> fold_left Qmin rest x0 == v.
Proof.
  intros v. induction rest as [|z rest IH]; intros x0 Hx0 Hrest; simpl.
  - exact Hx0.
  - inversion Hrest as [|? ? Hz Hrest']; subst. apply IH; [|exact Hrest'].
    destruct (Q.min_dec x0 z) as [E|E]; rewrite E; assumption.
Qed.

Lemma fold_max_uniform :
  forall (v : Q) (rest : list Q) (x0 : Q),
    x0 == v -> Forall (fun x => x == v) rest -> fold_left Qmax rest x0 == v.
Proof.
  intros v. induction rest as [|z rest IH]; intros x0 Hx0 Hrest; simpl.
  - exact Hx0.
  - inversion Hrest as [|? ? Hz Hrest']; subst. apply IH; [|exact Hrest'].
    destruct (Q.max_dec x0 z) as [E|E]; rewrite E; assumption.
Qed.

Lemma reduce_min_uniform :
  forall (v : Q) (row : list Q) (mn : Q),
    reduce (S:=QScalar) Qmin row = Some mn -> Forall (fun x => x == v) row -> mn == v.
Proof.
  intros v [|x0 rest] mn H Huni; simpl in H; [discriminate|].
  injection H as <-. inversion Huni; subst. apply fold_min_uniform; assumption.
Qed.

Lemma reduce_max_uniform :
  forall (v : Q) (row : list Q) (mx : Q),
    reduce (S:=QScalar) Qmax row = Some mx -> Forall (fun x => x == v) row -> mx == v.
Proof.
  intros v [|x0 rest] mx H Huni; simpl in H; [discriminate|].
  injection H as <-. inversion Huni; subst. apply fold_max_uniform; assumption.
Qed.

(** *** Rounded arithmetic *)

Lemma round_grid_rounding : rounding round_grid.
Proof.
  assert (Hpos : 0 < inject_Z (2 ^ 20)) by reflexivity.
  constructor.
  - intros x y Hxy. unfold round_grid.
    apply Qmult_le_compat_r; [|apply Qlt_le_weak, Qinv_lt_0_compat; exact Hpos].
    rewrite <- Zle_Qle. apply Qfloor_resp_le.
    apply Qplus_le_l. apply Qmult_le_compat_r; [exact Hxy|discriminate].
  - reflexivity.
  - reflexivity.
Qed.

Section Rounded.
Variable rnd : Q -> Q.
Hypothesis Hrnd : rounding rnd.

Local Abbreviation R := (RoundedScalar rnd).

Lemma rnd_le : forall x y : Q, x <= y -> rnd x <= rnd y.
Proof. exact (@rnd_monotone rnd Hrnd). Qed.

Lemma rnd_proper : forall x y : Q, x == y -> rnd x == rnd y.
Proof.
  intros x y E. apply Qle_antisym; apply rnd_le; rewrite E; apply Qle_refl.
Qed.

Lemma rnd_eq_zero : forall x : Q, x == 0 -> rnd x == 0.
Proof.
  intros x E. apply Qeq_trans with (rnd 0); [apply rnd_proper; exact E|].
  exact (rnd_zero Hrnd).
Qed.

Lemma rnd_eq_one : forall x : Q, x == 1 -> rnd x == 1.
Proof.
  intros x E. apply Qeq_trans with (rnd 1); [apply rnd_proper; exact E|].
  exact (rnd_one Hrnd).
Qed.

Lemma rnd_nonneg : forall x : Q, 0 <= x -> 0 <= rnd x.
Proof.
  intros x Hx. apply Qle_trans with (rnd 0); [rewrite (rnd_zero Hrnd); apply Qle_refl|].
  apply rnd_le. exact Hx.
Qed.

Lemma rnd_positive_inv : forall x : Q, 0 < rnd x -> 0 < x.
Proof.
  intros x Hx. apply Qnot_le_lt. intros Hle.
  apply rnd_le in Hle. rewrite (rnd_zero Hrnd) in Hle. lra.
Qed.

(** Line 349 on a value between the minimum and the maximum. *)
Lemma normalize_value_rounded_unit :
  forall mn mx x : Q,
    0 < rnd (mx - mn) -> mn <= x -> x <= mx ->
    0 <= normalize_value (S:=R) mn mx x <= 1.
Proof.
  intros mn mx x Hw Hlo Hhi. unfold normalize_value. cbn [s_div s_sub RoundedScalar].
  assert (Ha0 : 0 <= rnd (x - mn)) by (apply rnd_nonneg; lra).
  assert (Haw : rnd (x - mn) <= rnd (mx - mn)) by (apply rnd_le; lra).
  split.
  - apply rnd_nonneg. apply Qle_shift_div_l; [exact Hw|lra].
  - apply Qle_trans with (rnd 1); [|rewrite (rnd_one Hrnd); apply Qle_refl].
    apply rnd_le. apply Qle_shift_div_r; [exact Hw|lra].
Qed.

Lemma normalize_value_rounded_ends :
  forall mn mx : Q,
    0 < rnd (mx - mn) ->
    normalize_value (S:=R) mn mx mn == 0 /\ normalize_value (S:=R) mn mx mx == 1.
Proof.
  intros mn mx Hw. unfold normalize_value. cbn [s_div s_sub RoundedScalar]. split.
  - apply rnd_eq_zero.
    assert (E : rnd (mn - mn) == 0) by (apply rnd_eq_zero; ring).
    rewrite E. unfold Qdiv. ring.
  - apply rnd_eq_one. unfold Qdiv. apply Qmult_inv_r. lra.
Qed.

(** Lines 349 and 358 are monotone. *)
Lemma protocol_value_monotone :
  forall mn mx a b : Q,
    0 < rnd (mx - mn) -> a <= b ->
    normalize_value (S:=R) mn mx a <= normalize_value (S:=R) mn mx b /\
    denormalize_value (S:=R) mn mx a <= denormalize_value (S:=R) mn mx b.
Proof.
  intros mn mx a b Hw Hab. unfold normalize_value, denormalize_value.
  cbn [s_div s_sub s_mul s_add RoundedScalar]. split.
  - apply rnd_le. unfold Qdiv.
    apply Qmult_le_compat_r; [apply rnd_le; lra|].
    apply Qlt_le_weak, Qinv_lt_0_compat. exact Hw.
  - apply rnd_le. apply Qplus_le_l.
    apply rnd_le. apply Qmult_le_compat_r; [exact Hab|lra].
Qed.

(** Ranges that are positive as computed are not corrected. *)
Lemma ranges_ok :
  forall rows : list (list Q),
    Forall (range_ok rnd) rows ->
    exists mins maxs,
      depth_range (S:=R) rows = Some (mins, maxs) /\
      reduce_dim1 (S:=R) Qmin rows = Some mins /\
      reduce_dim1 (S:=R) Qmax rows = Some maxs /\
      Forall2 (fun mn mx : Q => 0 < rnd (mx - mn)) mins maxs.
Proof.
  intros rows Hrows.
  assert (Hred : exists mins maxs,
            reduce_dim1 (S:=R) Qmin rows = Some mins /\
            reduce_dim1 (S:=R) Qmax rows = Some maxs /\
            Forall2 (fun mn mx : Q => 0 < rnd (mx - mn)) mins maxs).
  { induction Hrows as [|row rows [mn [mx [Hmn [Hmx [Hw _]]]]] _ [mins [maxs [H1 [H2 H3]]]]].
    - exists [], []. repeat split; constructor.
    - exists (mn :: mins), (mx :: maxs). cbn [reduce_dim1].
      rewrite Hmn, Hmx, H1, H2. repeat split. constructor; assumption. }
  destruct Hred as [mins [maxs [Hmins [Hmaxs Hw]]]].
  exists mins, maxs. split; [|repeat split; assumption].
  rewrite (@depth_range_corrected R rows mins maxs Hmins Hmaxs). do 2 f_equal.
  clear -Hw. induction Hw as [|mn mx mins maxs Hw1 _ IH]; cbn [combine map fst snd];
    [reflexivity|].
  f_equal; [|exact IH].
  unfold corrected. cbn [s_le_zero s_sub s_add RoundedScalar].
  destruct (Qle_bool (rnd (mx - mn)) 0) eqn:E; [|reflexivity].
  apply Qle_bool_iff in E. lra.
Qed.

Lemma normalize_rows_rounded :
  forall (rows : list (list Q)) (mins maxs : list Q),
    reduce_dim1 (S:=R) Qmin rows = Some mins ->
    reduce_dim1 (S:=R) Qmax rows = Some maxs ->
    Forall2 (fun mn mx : Q => 0 < rnd (mx - mn)) mins maxs ->
    Forall (fun row =>
              Forall (fun v : Q => 0 <= v <= 1) row /\
              (exists v, In v row /\ v == 0) /\ (exists v, In v row /\ v == 1))
      (normalize_rows (S:=R) rows mins maxs).
Proof.
  induction rows as [|row rows IH]; intros mins maxs Hmins Hmaxs Hw;
    cbn [reduce_dim1] in Hmins, Hmaxs.
  - injection Hmins as <-. constructor.
  - destruct (reduce (S:=R) Qmin row) as [mn|] eqn:Hmn; [|discriminate].
    destruct (reduce_dim1 (S:=R) Qmin rows) as [mins'|]; [|discriminate].
    destruct (reduce (S:=R) Qmax row) as [mx|] eqn:Hmx; [|discriminate].
    destruct (reduce_dim1 (S:=R) Qmax rows) as [maxs'|]; [|discriminate].
    injection Hmins as <-. injection Hmaxs as <-.
    inversion Hw as [|? ? ? ? Hw1 Hw']; subst.
    cbn [normalize_rows].
    constructor; [|apply IH; [reflexivity|reflexivity|exact Hw']].
    destruct (@normalize_value_rounded_ends mn mx Hw1) as [E0 E1].
    change (@num R) with Q in *.
    split; [|split].
    + apply Forall_forall. intros v Hv. apply in_map_iff in Hv.
      destruct Hv as [x [<- Hx]].
      apply (normalize_value_rounded_unit Hw1);
        [exact (@reduce_min_le_in row mn x Hmn Hx)|exact (@reduce_max_ge_in row mx x Hmx Hx)].
    + exists (normalize_value (S:=R) mn mx mn). split; [|exact E0].
      apply in_map. exact (@reduce_min_in row mn Hmn).
    + exists (normalize_value (S:=R) mn mx mx). split; [|exact E1].
      apply in_map. exact (@reduce_max_in row mx Hmx).
Qed.

(** X9. Lines 341-349 in rounded arithmetic, for every rounding. When the
    range of every batch element is positive as computed, and small enough
    for binary32, the ranges are left as they are, every normalized value
    lies between 0 and 1, and every batch element takes the value 0, at its
    minimum, and the value 1, at its maximum. *)
Theorem normalized_prompt_in_unit_interval :
  forall rows : list (list Q),
    Forall (range_ok rnd) rows ->
    exists depth_min depth_max,
      depth_range (S:=R) rows = Some (depth_min, depth_max) /\
      reduce_dim1 (S:=R) Qmin rows = Some depth_min /\
      reduce_dim1 (S:=R) Qmax rows = Some depth_max /\
      Forall (fun row =>
                Forall (fun v : Q => 0 <= v <= 1) row /\
                (exists v, In v row /\ v == 0) /\ (exists v, In v row /\ v == 1))
        (normalize_rows (S:=R) rows depth_min depth_max).
Proof.
  intros rows Hrows.
  destruct (ranges_ok Hrows) as [mins [maxs [Hrange [Hmins [Hmaxs Hw]]]]].
  exists mins, maxs. repeat split; try assumption.
  exact (normalize_rows_rounded _ Hmins Hmaxs Hw).
Qed.

(** X11. Lines 341-349 and 358 in rounded arithmetic, for every rounding.
    When the range of every batch element is positive as computed, and
    small enough for binary32, normalization and denormalization with the
    computed range never invert two depth values: both are monotone at
    every batch element. *)
Theorem protocol_keeps_order :
  forall rows : list (list Q),
    Forall (range_ok rnd) rows ->
    exists depth_min depth_max,
      depth_range (S:=R) rows = Some (depth_min, depth_max) /\
      Forall2
        (fun mn mx : Q =>
           forall a b : Q, a <= b ->
             normalize_value (S:=R) mn mx a <= normalize_value (S:=R) mn mx b /\
             denormalize_value (S:=R) mn mx a <= denormalize_value (S:=R) mn mx b)
        depth_min depth_max.
Proof.
  intros rows Hrows.
  destruct (ranges_ok Hrows) as [mins [maxs [Hrange [_ [_ Hw]]]]].
  exists mins, maxs. split; [exact Hrange|].
  clear Hrange. induction Hw as [|mn mx mins maxs Hw1 _ IH]; constructor.
  - intros a b Hab. exact (@protocol_value_monotone mn mx a b Hw1 Hab).
  - exact IH.
Qed.



(** X10. Lines 341-349 in rounded arithmetic, for every rounding, on a
    prompt whose every value is [v]. Every range is degenerate and is
    corrected to [(v, v + 1e-6)], rounded. When the width of the corrected
    range is positive as computed, every normalized value is 0. *)
Theorem uniform_prompt_normalizes_to_zero :
  forall (rows : list (list Q)) (v : Q),
    Forall (fun row : list Q => row <> []) rows ->
    Forall (Forall (fun x => x == v)) rows ->
    0 < rnd (rnd (v + rnd (1 # 1000000)) - v) ->
    exists depth_min depth_max,
      depth_range (S:=R) rows = Some (depth_min, depth_max) /\
      Forall (fun mn => mn == v) depth_min /\
      Forall (fun mx => mx == rnd (v + rnd (1 # 1000000)) /\ v < mx) depth_max /\
      Forall (Forall (fun y => y == 0)) (normalize_rows (S:=R) rows depth_min depth_max).
Proof.
  intros rows v Hne Huni Hw.
  destruct (reduce_dim1_total (S:=R) Qmin Hne) as [mins Hmins].
  destruct (reduce_dim1_total (S:=R) Qmax Hne) as [raw Hraw].
  exists mins. eexists.
  split; [exact (@depth_range_corrected R rows mins raw Hmins Hraw)|].
  change (@num R) with Q in *.
  clear Hne. revert mins raw Hmins Hraw.
  induction Huni as [|row rows Hrow _ IH]; intros mins raw Hmins Hraw;
    cbn [reduce_dim1] in Hmins, Hraw.
  - injection Hmins as <-. injection Hraw as <-. repeat split; constructor.
  - destruct (reduce (S:=R) Qmin row) as [mn|] eqn:Hmn; [|discriminate].
    destruct (reduce_dim1 (S:=R) Qmin rows) as [mins'|]; [|discriminate].
    destruct (reduce (S:=R) Qmax row) as [mx|] eqn:Hmx; [|discriminate].
    destruct (reduce_dim1 (S:=R) Qmax rows) as [raw'|]; [|discriminate].
    injection Hmins as <-. injection Hraw as <-.
    destruct (IH mins' raw' eq_refl eq_refl) as [IH1 [IH2 IH3]].
    pose proof (@reduce_min_uniform v row mn Hmn Hrow) as Emin.
    pose proof (@reduce_max_uniform v row mx Hmx Hrow) as Emax.
    assert (Ecor : corrected (S:=R) mn mx == rnd (v + rnd (1 # 1000000))).
    { unfold corrected. cbn [s_le_zero s_sub s_add s_eps RoundedScalar].
      assert (Ez : rnd (mx - mn) == 0) by (apply rnd_eq_zero; lra).
      assert (Hdeg : Qle_bool (rnd (mx - mn)) 0 = true) by (apply Qle_bool_iff; lra).
      rewrite Hdeg. apply rnd_proper. lra. }
    assert (Hw' : 0 < rnd (corrected (S:=R) mn mx - mn)).
    { assert (E : rnd (corrected (S:=R) mn mx - mn)
                  == rnd (rnd (v + rnd (1 # 1000000)) - v))
        by (apply rnd_proper; lra).
      lra. }
    cbn [combine map fst snd normalize_rows].
    split; [constructor; assumption|]. split; [constructor; [|exact IH2]|].
    + split; [exact Ecor|]. pose proof (rnd_positive_inv Hw') as Hd. lra.
    + constructor; [|exact IH3].
      apply Forall_forall. intros y Hy. apply in_map_iff in Hy.
      destruct Hy as [x [<- Hx]].
      pose proof (proj1 (Forall_forall _ _) Hrow x Hx) as Ex. cbv beta in Ex.
      unfold normalize_value. cbn [s_div s_sub RoundedScalar].
      apply rnd_eq_zero.
      assert (E : rnd (x - mn) == 0) by (apply rnd_eq_zero; lra).
      rewrite E. unfold Qdiv. ring.
Qed.

End Rounded.

Lemma normalized_prompt_in_unit_interval_witness :
  exists depth_min depth_max,
    depth_range (S:=RoundedScalar round_grid) ExamplePrompts.rows_1_3_and_2_6
    = Some (depth_min, depth_max) /\
    reduce_dim1 (S:=RoundedScalar round_grid) Qmin ExamplePrompts.rows_1_3_and_2_6
    = Some depth_min /\
    reduce_dim1 (S:=RoundedScalar round_grid) Qmax ExamplePrompts.rows_1_3_and_2_6
    = Some depth_max /\
    Forall (fun row =>
              Forall (fun v : Q => 0 <= v <= 1) row /\
              (exists v, In v row /\ v == 0) /\ (exists v, In v row /\ v == 1))
      (normalize_rows (S:=RoundedScalar round_grid) ExamplePrompts.rows_1_3_and_2_6
         depth_min depth_max).
Proof.
  apply (@normalized_prompt_in_unit_interval round_grid round_grid_rounding
           ExamplePrompts.rows_1_3_and_2_6).
  apply Forall_cons; [|apply Forall_cons; [|apply Forall_nil]].
  - exists 1, 3. repeat split; try reflexivity. discriminate.
  - exists 2, 6. repeat split; try reflexivity. discriminate.
Defined.

Lemma uniform_prompt_normalizes_to_zero_witness :
  exists depth_min depth_max,
    depth_range (S:=RoundedScalar round_grid) ExamplePrompts.rows_5
    = Some (depth_min, depth_max) /\
    Forall (fun mn => mn == 5) depth_min /\
    Forall (fun mx => mx == round_grid (5 + round_grid (1 # 1000000)) /\ 5 < mx)
      depth_max /\
    Forall (Forall (fun y => y == 0))
      (normalize_rows (S:=RoundedScalar round_grid) ExamplePrompts.rows_5
         depth_min depth_max).
Proof.
  apply (@uniform_prompt_normalizes_to_zero round_grid round_grid_rounding
           ExamplePrompts.rows_5 5).
  - apply Forall_cons; [discriminate|apply Forall_nil].
  - repeat constructor.
  - reflexivity.
Defined.

Lemma protocol_keeps_order_witness :
  exists depth_min depth_max,
    depth_range (S:=RoundedScalar round_grid) ExamplePrompts.rows_1_3_and_2_6
    = Some (depth_min, depth_max) /\
    Forall2
      (fun mn mx : Q =>
         forall a b : Q, a <= b ->
           normalize_value (S:=RoundedScalar round_grid) mn mx a
           <= normalize_value (S:=RoundedScalar round_grid) mn mx b /\
           denormalize_value (S:=RoundedScalar round_grid) mn mx a
           <= denormalize_value (S:=RoundedScalar round_grid) mn mx b)
      depth_min depth_max.
Proof.
  apply (@protocol_keeps_order round_grid round_grid_rounding
           ExamplePrompts.rows_1_3_and_2_6).
  apply Forall_cons; [|apply Forall_cons; [|apply Forall_nil]].
  - exists 1, 3. repeat split; try reflexivity. discriminate.
  - exists 2, 6. repeat split; try reflexivity. discriminate.
Defined.


(** In binary32, at the largest value below 32 and at its opposite: the
    corrected maximum is above the minimum and the normalized values are
    zero. *)
Lemma uniform_below_32_binary32 :
  (exists depth_min depth_max,
     depth_range (S:=Binary32.scalar) ExamplePrompts.uniform_below_32
     = Some ([depth_min], [depth_max]) /\
     SFltb depth_min depth_max = true /\
     normalize_rows (S:=Binary32.scalar) ExamplePrompts.uniform_below_32
       [depth_min] [depth_max]
     = [[S754_zero false; S754_zero false]]) /\
  (exists depth_min depth_max,
     depth_range (S:=Binary32.scalar) ExamplePrompts.uniform_above_minus_32
     = Some ([depth_min], [depth_max]) /\
     SFltb depth_min depth_max = true /\
     normalize_rows (S:=Binary32.scalar) ExamplePrompts.uniform_above_minus_32
       [depth_min] [depth_max]
     = [[S754_zero false; S754_zero false]]).
Proof.
  split; eexists; eexists;
    (split; [vm_compute; reflexivity|]); split; vm_compute; reflexivity.
Qed.


Local Close Scope Q_scope.

Lemma data_squeeze1 : forall t : tensor, data (squeeze1 t) = data t.
Proof.
  intros t. unfold squeeze1.
  destruct (shape t) as [|b [|c rest]]; try reflexivity.
  destruct c as [|[p|p|]|]; reflexivity.
Qed.


Section DepthRange.
Context {ops : TorchOps}.

(** The head returns values between 0 and [max_depth]. *)
Lemma head_forward_values :
  forall (self : PromptDepthAnythingDepthEstimationHead.t) (hidden_states : list tensor)
         (patch_height patch_width : Z) (tr tr' : trace) (t : tensor),
    (forall x : Q,
       (0 <= PromptDepthAnythingDepthEstimationHead.activation2 self x <= 1)%Q) ->
    (0 <= PromptDepthAnythingDepthEstimationHead.max_depth self)%Q ->
    PromptDepthAnythingDepthEstimationHead.forward self hidden_states
      patch_height patch_width tr = (inr t, tr') ->
    Forall (Forall (fun v : Q =>
                      (0 <= v <= PromptDepthAnythingDepthEstimationHead.max_depth self)%Q))
      (data t).
Proof.
  intros self hs ph pw tr tr' t Hact Hmax Hrun.
  unfold PromptDepthAnythingDepthEstimationHead.forward in Hrun.
  unfold bind, lift in Hrun.
  destruct (getitem hs (PromptDepthAnythingDepthEstimationHead.head_in_index self))
    as [e|x]; [discriminate|].
  destruct (PromptDepthAnythingDepthEstimationHead.target_size self ph pw) as [th tw].
  unfold ret in Hrun. injection Hrun as <- _.
  rewrite data_squeeze1. unfold tmap. cbn [data].
  apply Forall_forall. intros row Hrow.
  apply in_map_iff in Hrow. destruct Hrow as [row1 [<- Hrow1]].
  apply in_map_iff in Hrow1. destruct Hrow1 as [row0 [<- _]].
  apply Forall_forall. intros v Hv.
  apply in_map_iff in Hv. destruct Hv as [y [<- Hy]].
  apply in_map_iff in Hy. destruct Hy as [x0 [<- _]].
  destruct (Hact x0) as [H0 H1].
  set (a := PromptDepthAnythingDepthEstimationHead.activation2 self x0) in *.
  set (M := PromptDepthAnythingDepthEstimationHead.max_depth self) in *.
  split.
  - apply Qmult_le_0_compat; assumption.
  - assert (H2 : (a * M <= 1 * M)%Q) by (apply Qmult_le_compat_r; assumption).
    lra.
Qed.




End DepthRange.

Lemma hard_sigmoid_bounds : forall x : Q, (0 <= Reference.hard_sigmoid x <= 1)%Q.
Proof.
  intros x. unfold Reference.hard_sigmoid. split.
  - apply Q.min_glb; [discriminate|apply Q.le_max_l].
  - apply Q.le_min_l.
Qed.



(** * Further properties of the layers and of the fusion stage *)

Section LayerShapes.
Context {ops : TorchOps} {laws : TorchLaws ops}.

(** X1. [PromptDepthAnythingLayer]: three 3x3 convolutions of stride 1 and
    padding 1 with two rectifications between them take a one-channel map,
    the input that its first convolution is built for, to a map of
    [fusion_hidden_size] channels, the batch size and the resolution
    kept. *)
Theorem prompt_layer_keeps_resolution :
  forall (config : PromptDepthAnythingConfig.t) (w1 w2 w3 : weights)
         (t : tensor) (b h w : Z),
    shape t = [b; 1; h; w] ->
    shape (PromptDepthAnythingLayer.forward (PromptDepthAnythingLayer.init config w1 w2 w3) t)
    = [b; PromptDepthAnythingConfig.fusion_hidden_size config; h; w].
Proof.
  intros config w1 w2 w3 t b h w Ht.
  exact (@prompt_depth_layer_shape ops laws config b w1 w2 w3 t 1 h w Ht).
Qed.

(** X2. [PromptDepthAnythingFeatureFusionLayer.forward]: whatever the
    resolution of the residual and of the prompt, the result has the batch
    size and the channels of [hidden_state]; its resolution is [size] when a
    size is given and twice that of [hidden_state] otherwise. *)
Theorem fusion_layer_output_shape :
  forall (config : PromptDepthAnythingConfig.t) (b : Z)
         (layer : PromptDepthAnythingFeatureFusionLayer.t)
         (hidden_state : tensor) (residual : option tensor) (size : option (list Z))
         (prompt_depth : option tensor) (h w : Z),
    fusion_layer_ok config layer ->
    shape hidden_state = [b; PromptDepthAnythingConfig.fusion_hidden_size config; h; w] ->
    match residual with None => True | Some r => fused_map config b r end ->
    prompt_ok b prompt_depth ->
    match size with None => True | Some s => length s = 2%nat end ->
    shape (PromptDepthAnythingFeatureFusionLayer.forward layer hidden_state residual
             size prompt_depth)
    = match size with
      | None => [b; PromptDepthAnythingConfig.fusion_hidden_size config; h * 2; w * 2]
      | Some s => b :: PromptDepthAnythingConfig.fusion_hidden_size config :: s
      end.
Proof.
  intros config b layer hidden residual size pd h w Hok Hh Hr Hp Hs.
  exact (@fusion_layer_shape ops laws config b layer hidden residual size pd h w
           Hok Hh Hr Hp Hs).
Qed.

End LayerShapes.

Lemma prompt_layer_keeps_resolution_witness :
  shape (PromptDepthAnythingLayer.forward
           (PromptDepthAnythingLayer.init Reference.config 0%Q 0%Q 0%Q)
           Reference.prompt_0_1)
  = [1; 4; 1; 2].
Proof.
  exact (@prompt_layer_keeps_resolution Reference.ops Reference_laws Reference.config
           0%Q 0%Q 0%Q Reference.prompt_0_1 1 1 2 eq_refl).
Defined.

Lemma fusion_layer_output_shape_witness :
  shape (PromptDepthAnythingFeatureFusionLayer.forward Reference.fusion_layer
           Reference.map_2x2 (Some Reference.map_4x4) (Some [4; 4])
           (Some Reference.prompt_0_1))
  = [1; 4; 4; 4]
  /\
  shape (PromptDepthAnythingFeatureFusionLayer.forward Reference.fusion_layer
           Reference.map_2x2 None None None)
  = [1; 4; 2 * 2; 2 * 2].
Proof.
  split.
  - apply (@fusion_layer_output_shape Reference.ops Reference_laws Reference.config 1
             Reference.fusion_layer Reference.map_2x2 (Some Reference.map_4x4)
             (Some [4; 4]) (Some Reference.prompt_0_1) 2 2).
    + exact Reference_fusion_layer_ok.
    + reflexivity.
    + exists 4, 4. reflexivity.
    + exists 1, 2. reflexivity.
    + reflexivity.
  - apply (@fusion_layer_output_shape Reference.ops Reference_laws Reference.config 1
             Reference.fusion_layer Reference.map_2x2 None None None 2 2).
    + exact Reference_fusion_layer_ok.
    + reflexivity.
    + exact I.
    + exact I.
    + exact I.
Defined.

Section StageRuns.
Context {ops : TorchOps}.

(** From turn [k] on the loop never raises: it makes one call per item, in
    order, and appends one map per item. *)
Lemma fusion_loop_runs :
  forall (hidden_states : list tensor) (prompt_depth : option tensor)
         (items : list (tensor * PromptDepthAnythingFeatureFusionLayer.t)) (k : nat)
         (st : PromptDepthAnythingFeatureFusionStage.locals) (tr : trace),
    (k + length items <= length hidden_states)%nat ->
    exists st' outs,
      for_each (PromptDepthAnythingFeatureFusionStage.body hidden_states prompt_depth)
        (combine (seq k (length items)) items) st tr
      = (inr st', tr ++ map FusionLayerModule (seq k (length items))) /\
      PromptDepthAnythingFeatureFusionStage.fused_hidden_states st'
      = PromptDepthAnythingFeatureFusionStage.fused_hidden_states st ++ outs /\
      length outs = length items.
Proof.
  intros hs pd items. induction items as [|[t layer] rest IH]; intros k st tr Hk.
  - exists st, []. simpl. rewrite !app_nil_r. repeat split.
  - cbn [length] in Hk.
    assert (Hsize : exists size,
      (if negb (Z.of_nat k =? Z.of_nat (length hs) - 1)
       then match getitem hs (Z.of_nat k + 1) with
            | inr next => ret (Some (skipn 2 (shape next)))
            | inl e => raise e
            end
       else ret None) tr = (inr size, tr)).
    { destruct (Z.of_nat k =? Z.of_nat (length hs) - 1) eqn:E; cbn [negb].
      - exists None. reflexivity.
      - apply Z.eqb_neq in E.
        destruct (nth_error hs (S k)) as [next|] eqn:Hnext.
        + replace (Z.of_nat k + 1) with (Z.of_nat (S k)) by lia.
          rewrite (getitem_nth _ _ Hnext). eexists. reflexivity.
        + apply nth_error_None in Hnext. lia. }
    destruct Hsize as [size Hsize].
    set (fused :=
           match PromptDepthAnythingFeatureFusionStage.fused_hidden_state st with
           | None =>
               PromptDepthAnythingFeatureFusionLayer.forward layer t None size pd
           | Some fused_hidden_state =>
               PromptDepthAnythingFeatureFusionLayer.forward layer fused_hidden_state
                 (Some t) size pd
           end).
    assert (Hbody :
      PromptDepthAnythingFeatureFusionStage.body hs pd st (k, (t, layer)) tr
      = (inr {| PromptDepthAnythingFeatureFusionStage.size := size;
                PromptDepthAnythingFeatureFusionStage.fused_hidden_state := Some fused;
                PromptDepthAnythingFeatureFusionStage.fused_hidden_states :=
                  PromptDepthAnythingFeatureFusionStage.fused_hidden_states st ++ [fused] |},
         tr ++ [FusionLayerModule k])).
    { unfold PromptDepthAnythingFeatureFusionStage.body.
      rewrite (@bind_inr _ _ _ _ _ _ _ Hsize). reflexivity. }
    destruct (IH (S k)
                {| PromptDepthAnythingFeatureFusionStage.size := size;
                   PromptDepthAnythingFeatureFusionStage.fused_hidden_state := Some fused;
                   PromptDepthAnythingFeatureFusionStage.fused_hidden_states :=
                     PromptDepthAnythingFeatureFusionStage.fused_hidden_states st ++ [fused] |}
                (tr ++ [FusionLayerModule k]) ltac:(lia))
      as [st' [outs [Hloop [Hfused Hlen]]]].
    exists st', (fused :: outs). split; [|split].
    + cbn [length seq combine for_each map].
      rewrite (@bind_inr _ _ _ _ _ _ _ Hbody), Hloop, <- app_assoc. reflexivity.
    + rewrite Hfused. cbn [PromptDepthAnythingFeatureFusionStage.fused_hidden_states].
      rewrite <- app_assoc. reflexivity.
    + cbn [length]. lia.
Qed.

(** X3. On feature maps of the fusion width and of one batch size, with
    well-formed layers and a prompt of that batch size, the fusion stage
    returns as many maps as the shorter of the input list and the layer list
    has elements: [zip] cuts the longer one. It has called the layers of
    these positions once each, in order, and the element that line 119
    reads ahead is there at every turn. *)
Theorem fusion_stage_calls_layers_in_order :
  forall (config : PromptDepthAnythingConfig.t) (b : Z)
         (self : PromptDepthAnythingFeatureFusionStage.t) (hidden_states : list tensor)
         (size : option (list Z)) (prompt_depth : option tensor) (tr : trace),
    Forall (fusion_layer_ok config) (PromptDepthAnythingFeatureFusionStage.layers self) ->
    Forall (fused_map config b) hidden_states ->
    prompt_ok b prompt_depth ->
    let n := Nat.min (length hidden_states)
               (length (PromptDepthAnythingFeatureFusionStage.layers self)) in
    exists out,
      PromptDepthAnythingFeatureFusionStage.forward self hidden_states size prompt_depth tr
      = (inr out, tr ++ map FusionLayerModule (seq 0 n)) /\
      length out = n.
Proof.
  intros config b self hs size pd tr _ _ _ n.
  unfold PromptDepthAnythingFeatureFusionStage.forward, enumerate.
  set (items := combine (rev hs) (PromptDepthAnythingFeatureFusionStage.layers self)).
  assert (Hn : length items = n).
  { unfold items, n. rewrite length_combine, length_rev. reflexivity. }
  destruct (fusion_loop_runs (rev hs) pd items 0
              {| PromptDepthAnythingFeatureFusionStage.size := size;
                 PromptDepthAnythingFeatureFusionStage.fused_hidden_state := None;
                 PromptDepthAnythingFeatureFusionStage.fused_hidden_states := [] |} tr)
    as [st' [outs [Hloop [Hfused Hlen]]]].
  { rewrite Hn, length_rev. unfold n. lia. }
  exists outs. rewrite (@bind_inr _ _ _ _ _ _ _ Hloop).
  unfold ret. rewrite Hfused, Hn. cbn [app]. split; [reflexivity|lia].
Qed.

(** X4. The fusion stage starts from the last element of its input: the
    first map that it returns is the first layer applied to that element
    with no residual, resized to the resolution of the element before it
    (doubled when there is none). *)
Theorem fusion_stage_starts_from_last :
  forall (self : PromptDepthAnythingFeatureFusionStage.t)
         (layer : PromptDepthAnythingFeatureFusionLayer.t)
         (layers : list PromptDepthAnythingFeatureFusionLayer.t)
         (finer : list tensor) (coarsest : tensor)
         (size : option (list Z)) (prompt_depth : option tensor) (tr : trace),
    PromptDepthAnythingFeatureFusionStage.layers self = layer :: layers ->
    exists rest,
      fst (PromptDepthAnythingFeatureFusionStage.forward self (finer ++ [coarsest])
             size prompt_depth tr)
      = inr (PromptDepthAnythingFeatureFusionLayer.forward layer coarsest None
               (match rev finer with
                | [] => None
                | next :: _ => Some (skipn 2 (shape next))
                end) prompt_depth
             :: rest).
Proof.
  intros self layer layers finer coarsest size pd tr Hlayers.
  unfold PromptDepthAnythingFeatureFusionStage.forward, enumerate.
  rewrite Hlayers, rev_app_distr. cbn [rev app combine length seq for_each].
  set (hs := coarsest :: rev finer).
  set (size0 := match rev finer with
                | [] => None
                | next :: _ => Some (skipn 2 (shape next))
                end).
  set (first := PromptDepthAnythingFeatureFusionLayer.forward layer coarsest None size0 pd).
  assert (Hbody :
    PromptDepthAnythingFeatureFusionStage.body hs pd
      {| PromptDepthAnythingFeatureFusionStage.size := size;
         PromptDepthAnythingFeatureFusionStage.fused_hidden_state := None;
         PromptDepthAnythingFeatureFusionStage.fused_hidden_states := [] |}
      (0%nat, (coarsest, layer)) tr
    = (inr {| PromptDepthAnythingFeatureFusionStage.size := size0;
              PromptDepthAnythingFeatureFusionStage.fused_hidden_state := Some first;
              PromptDepthAnythingFeatureFusionStage.fused_hidden_states := [first] |},
       tr ++ [FusionLayerModule 0])).
  { unfold PromptDepthAnythingFeatureFusionStage.body, hs, first, size0.
    destruct (rev finer) as [|next others]; [reflexivity|].
    assert (E : (Z.of_nat 0 =? Z.of_nat (length (coarsest :: next :: others)) - 1) = false)
      by (apply Z.eqb_neq; cbn [length]; lia).
    rewrite E. cbn [negb].
    change (Z.of_nat 0 + 1) with (Z.of_nat 1).
    rewrite (@getitem_nth _ (coarsest :: next :: others) 1 next eq_refl).
    reflexivity. }
  unfold bind at 1. unfold bind at 1. rewrite Hbody.
  destruct (fusion_loop_runs hs pd (combine (rev finer) layers) 1
              {| PromptDepthAnythingFeatureFusionStage.size := size0;
                 PromptDepthAnythingFeatureFusionStage.fused_hidden_state := Some first;
                 PromptDepthAnythingFeatureFusionStage.fused_hidden_states := [first] |}
              (tr ++ [FusionLayerModule 0]))
    as [st' [outs [Hloop [Hfused Hlen]]]].
  { unfold hs. cbn [length]. rewrite length_combine. lia. }
  rewrite Hloop. unfold ret. cbn [fst]. rewrite Hfused.
  exists outs. reflexivity.
Qed.

End StageRuns.

Lemma fusion_stage_starts_from_last_witness :
  exists rest,
    fst (PromptDepthAnythingFeatureFusionStage.forward Reference.fusion_stage
           ([Reference.map_4x4] ++ [Reference.map_2x2]) None None [])
    = inr (PromptDepthAnythingFeatureFusionLayer.forward Reference.fusion_layer
             Reference.map_2x2 None
             (match rev [Reference.map_4x4] with
              | [] => None
              | next :: _ => Some (skipn 2 (shape next))
              end) None
           :: rest).
Proof.
  exact (@fusion_stage_starts_from_last Reference.ops Reference.fusion_stage
           Reference.fusion_layer
           [Reference.fusion_layer; Reference.fusion_layer; Reference.fusion_layer]
           [Reference.map_4x4] Reference.map_2x2 None None [] eq_refl).
Defined.

Lemma fusion_stage_calls_layers_in_order_witness :
  exists out,
    PromptDepthAnythingFeatureFusionStage.forward Reference.one_layer_stage
      [Reference.map_4x4; Reference.map_2x2] None (Some Reference.prompt_0_1) []
    = (inr out, [] ++ map FusionLayerModule (seq 0 (Nat.min 2 1))) /\
    length out = Nat.min 2 1.
Proof.
  apply (@fusion_stage_calls_layers_in_order Reference.ops Reference.config 1
           Reference.one_layer_stage [Reference.map_4x4; Reference.map_2x2] None
           (Some Reference.prompt_0_1) []).
  - apply Forall_cons; [exact Reference_fusion_layer_ok|apply Forall_nil].
  - apply Forall_cons; [exists 4, 4; reflexivity|].
    apply Forall_cons; [exists 2, 2; reflexivity|apply Forall_nil].
  - exists 1, 2. reflexivity.
Defined.

(** ** The resolutions inside the fusion stage *)

Section StageResolutions.
Context {ops : TorchOps} {laws : TorchLaws ops}.
Variable config : PromptDepthAnythingConfig.t.
Variable b : Z.
Variable prompt_depth : option tensor.
Hypothesis prompt_depth_ok : prompt_ok b prompt_depth.
Variable hidden_states : list tensor.
Hypothesis hidden_states_ok : Forall (fused_map config b) hidden_states.

Local Abbreviation F := (PromptDepthAnythingConfig.fusion_hidden_size config).

(** One turn: the map that it appends has the shape of the next level, when
    there is one. *)
Lemma fusion_turn_shape :
  forall (k : nat) (t : tensor) (layer : PromptDepthAnythingFeatureFusionLayer.t)
         (st : PromptDepthAnythingFeatureFusionStage.locals) (tr : trace),
    nth_error hidden_states k = Some t ->
    fusion_layer_ok config layer ->
    (k = 0%nat -> PromptDepthAnythingFeatureFusionStage.fused_hidden_state st = None) ->
    ((0 < k)%nat ->
     exists f, PromptDepthAnythingFeatureFusionStage.fused_hidden_state st = Some f /\
               shape f = shape t) ->
    exists fused size,
      PromptDepthAnythingFeatureFusionStage.body hidden_states prompt_depth st
        (k, (t, layer)) tr
      = (inr {| PromptDepthAnythingFeatureFusionStage.size := size;
                PromptDepthAnythingFeatureFusionStage.fused_hidden_state := Some fused;
                PromptDepthAnythingFeatureFusionStage.fused_hidden_states :=
                  PromptDepthAnythingFeatureFusionStage.fused_hidden_states st ++ [fused] |},
         tr ++ [FusionLayerModule k]) /\
      forall next, nth_error hidden_states (S k) = Some next -> shape fused = shape next.
Proof.
  intros k t layer st tr Ht Hlayer Hzero Hpos.
  assert (Hk : (k < length hidden_states)%nat) by (apply nth_error_Some; congruence).
  destruct (proj1 (Forall_forall _ _) hidden_states_ok t (nth_error_In _ _ Ht))
    as [h [w Htshape]].
  assert (Hstate : exists hidden residual,
    (forall size,
       match PromptDepthAnythingFeatureFusionStage.fused_hidden_state st with
       | None =>
           PromptDepthAnythingFeatureFusionLayer.forward layer t None size prompt_depth
       | Some fused_hidden_state =>
           PromptDepthAnythingFeatureFusionLayer.forward layer fused_hidden_state
             (Some t) size prompt_depth
       end
       = PromptDepthAnythingFeatureFusionLayer.forward layer hidden residual
           size prompt_depth) /\
    shape hidden = [b; F; h; w] /\
    match residual with None => True | Some r => fused_map config b r end).
  { destruct k as [|k'].
    - rewrite (Hzero eq_refl). exists t, None. repeat split; auto.
    - destruct (Hpos ltac:(lia)) as [f [Hf Hfshape]]. rewrite Hf.
      exists f, (Some t). repeat split.
      + rewrite Hfshape. assumption.
      + exists h, w. assumption. }
  destruct Hstate as [hidden [residual [Hsame [Hhidden Hres]]]].
  unfold PromptDepthAnythingFeatureFusionStage.body.
  destruct (nth_error hidden_states (S k)) as [next|] eqn:Hnext.
  - assert (HSk : (S k < length hidden_states)%nat) by (apply nth_error_Some; congruence).
    assert (Hnot : (Z.of_nat k =? Z.of_nat (length hidden_states) - 1) = false)
      by (apply Z.eqb_neq; lia).
    rewrite Hnot. cbn [negb].
    destruct (proj1 (Forall_forall _ _) hidden_states_ok next (nth_error_In _ _ Hnext))
      as [h' [w' Hnshape]].
    replace (Z.of_nat k + 1) with (Z.of_nat (S k)) by lia.
    rewrite (getitem_nth _ _ Hnext), Hnshape. cbn [skipn].
    eexists. exists (Some [h'; w']). split.
    + unfold bind, ret, call. reflexivity.
    + intros next' Hnext'. injection Hnext' as <-. rewrite Hsame, Hnshape.
      exact (@fusion_layer_shape ops laws config b layer hidden residual (Some [h'; w'])
               prompt_depth h w Hlayer Hhidden Hres prompt_depth_ok eq_refl).
  - apply nth_error_None in Hnext.
    assert (Hlast : (Z.of_nat k =? Z.of_nat (length hidden_states) - 1) = true)
      by (apply Z.eqb_eq; lia).
    rewrite Hlast. cbn [negb].
    eexists. exists None. split.
    + unfold bind, ret, call. reflexivity.
    + intros next' Hnext'. discriminate.
Qed.

Lemma fusion_loop_resolutions :
  forall (items : list (tensor * PromptDepthAnythingFeatureFusionLayer.t)) (k : nat)
         (st : PromptDepthAnythingFeatureFusionStage.locals) (tr : trace),
    map fst items = skipn k hidden_states ->
    Forall (fun p => fusion_layer_ok config (snd p)) items ->
    length (PromptDepthAnythingFeatureFusionStage.fused_hidden_states st) = k ->
    (k = 0%nat -> PromptDepthAnythingFeatureFusionStage.fused_hidden_state st = None) ->
    ((0 < k)%nat ->
     exists f, PromptDepthAnythingFeatureFusionStage.fused_hidden_state st = Some f /\
               forall t, nth_error hidden_states k = Some t -> shape f = shape t) ->
    (forall i f t,
       nth_error (PromptDepthAnythingFeatureFusionStage.fused_hidden_states st) i = Some f ->
       nth_error hidden_states (S i) = Some t -> shape f = shape t) ->
    exists st' tr',
      for_each (PromptDepthAnythingFeatureFusionStage.body hidden_states prompt_depth)
        (combine (seq k (length items)) items) st tr = (inr st', tr') /\
      forall i f t,
        nth_error (PromptDepthAnythingFeatureFusionStage.fused_hidden_states st') i = Some f ->
        nth_error hidden_states (S i) = Some t -> shape f = shape t.
Proof.
  induction items as [|[t layer] rest IH]; intros k st tr Hitems Hlayers Hlen Hzero Hpos Hinv.
  - exists st, tr. split; [reflexivity|exact Hinv].
  - cbn [map fst] in Hitems. symmetry in Hitems.
    destruct (skipn_cons_nth _ _ Hitems) as [Ht Hrest].
    inversion Hlayers as [|p ps Hlayer Hlayers']; subst p ps. cbn [snd] in Hlayer.
    destruct (@fusion_turn_shape k t layer st tr Ht Hlayer Hzero) as [fused [size [Hbody Hnext]]].
    { intros Hk. destruct (Hpos Hk) as [f [Hf Hshape]]. exists f. split; [exact Hf|].
      apply Hshape. exact Ht. }
    cbn [length seq combine for_each].
    rewrite (@bind_inr _ _ _ _ _ _ _ Hbody).
    apply IH.
    + symmetry. exact Hrest.
    + exact Hlayers'.
    + cbn. rewrite length_app. cbn [length]. lia.
    + intros Habs. discriminate.
    + intros _. exists fused. split; [reflexivity|exact Hnext].
    + cbn [PromptDepthAnythingFeatureFusionStage.fused_hidden_states].
      intros i f t' Hf Ht'.
      destruct (Nat.lt_ge_cases i k) as [Hi|Hi].
      * rewrite nth_error_app1 in Hf by lia. exact (Hinv i f t' Hf Ht').
      * rewrite nth_error_app2 in Hf by lia. rewrite Hlen in Hf.
        destruct (i - k)%nat as [|d] eqn:Hd.
        -- cbn in Hf. injection Hf as <-. apply Hnext.
           replace k with i by lia. exact Ht'.
        -- cbn in Hf. destruct d; discriminate.
Qed.

End StageResolutions.

Section StageResolutionsTheorem.
Context {ops : TorchOps} {laws : TorchLaws ops}.

(** X5. Inside the fusion stage every map but the last is returned at the
    resolution of the level that is processed next: map [i] of the result
    has the shape of element [i + 1] of the reversed input (lines 119 and
    97-104). *)
Theorem fusion_stage_resolutions :
  forall (config : PromptDepthAnythingConfig.t) (b : Z)
         (self : PromptDepthAnythingFeatureFusionStage.t)
         (hidden_states : list tensor) (size : option (list Z))
         (prompt_depth : option tensor) (tr : trace),
    Forall (fusion_layer_ok config) (PromptDepthAnythingFeatureFusionStage.layers self) ->
    Forall (fused_map config b) hidden_states ->
    prompt_ok b prompt_depth ->
    (length hidden_states <= length (PromptDepthAnythingFeatureFusionStage.layers self))%nat ->
    exists out tr',
      PromptDepthAnythingFeatureFusionStage.forward self hidden_states size prompt_depth tr
      = (inr out, tr') /\
      forall (i : nat) (f t : tensor),
        nth_error out i = Some f ->
        nth_error (rev hidden_states) (S i) = Some t ->
        shape f = shape t.
Proof.
  intros config b self hs size pd tr Hlayers Hmaps Hpd Hlen.
  unfold PromptDepthAnythingFeatureFusionStage.forward, enumerate.
  set (layers := PromptDepthAnythingFeatureFusionStage.layers self) in *.
  assert (Hrev : Forall (fused_map config b) (rev hs)).
  { apply Forall_forall. intros t Hin. apply in_rev in Hin.
    exact (proj1 (Forall_forall _ _) Hmaps t Hin). }
  assert (Hfst : map fst (combine (rev hs) layers) = skipn 0 (rev hs)).
  { cbn [skipn]. apply map_fst_combine. rewrite length_rev. exact Hlen. }
  assert (Hoks : Forall (fun p => fusion_layer_ok config (snd p)) (combine (rev hs) layers)).
  { apply Forall_forall. intros [t layer] Hin. cbn [snd].
    apply in_combine_r in Hin. exact (proj1 (Forall_forall _ _) Hlayers layer Hin). }
  destruct (@fusion_loop_resolutions ops laws config b pd Hpd (rev hs) Hrev
              (combine (rev hs) layers) 0%nat
              {| PromptDepthAnythingFeatureFusionStage.size := size;
                 PromptDepthAnythingFeatureFusionStage.fused_hidden_state := None;
                 PromptDepthAnythingFeatureFusionStage.fused_hidden_states := [] |}
              tr Hfst Hoks eq_refl)
    as [st' [tr' [Hloop Hres]]].
  - reflexivity.
  - intros Habs. lia.
  - intros i f t Hf. destruct i; discriminate.
  - exists (PromptDepthAnythingFeatureFusionStage.fused_hidden_states st'), tr'.
    split; [rewrite (@bind_inr _ _ _ _ _ _ _ Hloop); reflexivity|exact Hres].
Qed.

End StageResolutionsTheorem.

Lemma fusion_stage_resolutions_witness :
  exists out tr',
    PromptDepthAnythingFeatureFusionStage.forward Reference.fusion_stage
      [Reference.map_4x4; Reference.map_2x2] None None [] = (inr out, tr') /\
    forall (i : nat) (f t : tensor),
      nth_error out i = Some f ->
      nth_error (rev [Reference.map_4x4; Reference.map_2x2]) (S i) = Some t ->
      shape f = shape t.
Proof.
  apply (@fusion_stage_resolutions Reference.ops Reference_laws Reference.config 1
           Reference.fusion_stage [Reference.map_4x4; Reference.map_2x2] None None []).
  - repeat (apply Forall_cons; [exact Reference_fusion_layer_ok|]). apply Forall_nil.
  - apply Forall_cons; [exists 4, 4; reflexivity|].
    apply Forall_cons; [exists 2, 2; reflexivity|]. apply Forall_nil.
  - exact I.
  - simpl. lia.
Defined.

(** ** The head *)

Lemma getitem_out_of_range {A : Type} (items : list A) (i : Z) :
  i < - Z.of_nat (length items) \/ Z.of_nat (length items) <= i ->
  getitem items i = inl IndexError.
Proof.
  intros Hi. unfold getitem. cbv zeta.
  destruct (Z.ltb_spec i 0) as [Hneg|Hpos].
  - assert (E : (Z.of_nat (length items) + i <? 0) = true) by (apply Z.ltb_lt; lia).
    rewrite E. reflexivity.
  - assert (E1 : (i <? 0) = false) by (apply Z.ltb_ge; lia).
    assert (E2 : (Z.of_nat (length items) <=? i) = true) by (apply Z.leb_le; lia).
    rewrite E1, E2. reflexivity.
Qed.

Section HeadProperties.
Context {ops : TorchOps}.

(** X6. The head raises [IndexError] when [head_in_index] does not index the
    list that it is given, counting from the end when negative: on an empty
    list always. No layer has run. *)
Theorem head_index_out_of_range :
  forall (self : PromptDepthAnythingDepthEstimationHead.t) (hidden_states : list tensor)
         (patch_height patch_width : Z) (tr : trace),
    PromptDepthAnythingDepthEstimationHead.head_in_index self
    < - Z.of_nat (length hidden_states)
    \/ Z.of_nat (length hidden_states)
       <= PromptDepthAnythingDepthEstimationHead.head_in_index self ->
    PromptDepthAnythingDepthEstimationHead.forward self hidden_states
      patch_height patch_width tr = (inl IndexError, tr).
Proof.
  intros self hs ph pw tr Hi.
  unfold PromptDepthAnythingDepthEstimationHead.forward, bind, lift.
  rewrite (getitem_out_of_range hs Hi). reflexivity.
Qed.

(** X8. The head returns the values of its last activation multiplied by
    [max_depth]: with an activation between 0 and 1 and [max_depth >= 0],
    every value that it returns lies between 0 and [max_depth]. *)
Theorem head_output_bounded :
  forall (self : PromptDepthAnythingDepthEstimationHead.t) (hidden_states : list tensor)
         (patch_height patch_width : Z) (tr tr' : trace) (t : tensor),
    (forall x : Q,
       (0 <= PromptDepthAnythingDepthEstimationHead.activation2 self x <= 1)%Q) ->
    (0 <= PromptDepthAnythingDepthEstimationHead.max_depth self)%Q ->
    PromptDepthAnythingDepthEstimationHead.forward self hidden_states
      patch_height patch_width tr = (inr t, tr') ->
    Forall (Forall (fun v : Q =>
                      (0 <= v <= PromptDepthAnythingDepthEstimationHead.max_depth self)%Q))
      (data t).
Proof.
  intros self hs ph pw tr tr' t Hact Hmax Hrun.
  exact (@head_forward_values ops self hs ph pw tr tr' t Hact Hmax Hrun).
Qed.

End HeadProperties.

Section HeadShape.
Context {ops : TorchOps} {laws : TorchLaws ops}.


End HeadShape.

Lemma head_index_out_of_range_witness :
  PromptDepthAnythingDepthEstimationHead.forward (Reference.head 1 0) [] 2 2 []
  = (inl IndexError, []).
Proof.
  apply (@head_index_out_of_range Reference.ops (Reference.head 1 0) [] 2 2 []).
  left. cbn. lia.
Defined.

Lemma head_output_bounded_witness :
  Forall (Forall (fun v : Q => (0 <= v <= 1)%Q)) (data Examples.head_output).
Proof.
  apply (@head_output_bounded Reference.ops (Reference.head 1 0) [Reference.map_2x2]
           1 1 [] (snd Examples.head_run) Examples.head_output).
  - exact hard_sigmoid_bounds.
  - discriminate.
  - vm_compute. reflexivity.
Defined.


(** * Further properties of the top-level [forward] *)

(** ** Denormalization and the batch dimension *)

Lemma broadcast_shapes_3d_ones : forall B H W : Z,
  broadcast_shapes [B; H; W] [1; 1; 1] = Some [B; H; W].
Proof.
  intros B H W. unfold broadcast_shapes. cbn.
  destruct (Z.eqb_spec W 1), (Z.eqb_spec H 1), (Z.eqb_spec B 1); subst; reflexivity.
Qed.

(** X12. A prompt of one batch element is broadcast over the batch of the
    predicted depth: every row of the prediction is denormalized with the
    one range, and the shape is kept. *)
Theorem denormalize_broadcasts_single_range :
  forall (predicted_depth : tensor) (mn mx : Q) (B H W : Z),
    shape predicted_depth = [B; H; W] ->
    PromptDepthAnythingForDepthEstimation.denormalize predicted_depth [mn] [mx]
    = inr (Tensor [B; H; W]
             (map (map (denormalize_value (S:=QScalar) mn mx)) (data predicted_depth))).
Proof.
  intros t mn mx B H W Hshape.
  unfold PromptDepthAnythingForDepthEstimation.denormalize.
  rewrite Hshape. cbn [length combine]. change (Z.of_nat 1) with 1.
  rewrite broadcast_shapes_3d_ones.
  unfold PromptDepthAnythingForDepthEstimation.broadcast_rows.
  destruct (data t) as [|row [|row' rows]]; reflexivity.
Qed.

Lemma denormalize_broadcasts_single_range_witness :
  PromptDepthAnythingForDepthEstimation.denormalize ExamplePrompts.predicted_3 [2%Q] [4%Q]
  = inr (Tensor [3; 1; 2]
           (map (map (denormalize_value (S:=QScalar) 2%Q 4%Q))
              (data ExamplePrompts.predicted_3))).
Proof.
  exact (@denormalize_broadcasts_single_range ExamplePrompts.predicted_3 2%Q 4%Q 3 1 2
           eq_refl).
Defined.

(** ** Failures before the neck *)

Lemma reduce_dim1_empty_row {S : Scalar} (f : num -> num -> num) :
  forall rows : list (list num), In [] rows -> reduce_dim1 f rows = None.
Proof.
  induction rows as [|row rows IH]; intros Hin; [contradiction|].
  destruct Hin as [->|Hin]; simpl.
  - reflexivity.
  - rewrite (IH Hin). destruct (reduce f row); reflexivity.
Qed.

Section FailuresAfterBackbone.
Context {ops : TorchOps}.

(** X14. Without labels the backbone is called first, whatever the pixels
    are: pixels that are not 4-dimensional raise [ValueError], and a patch
    size of 0 raises [ZeroDivisionError], only after the backbone has run,
    and before any other sub-module is called. *)
Theorem forward_fails_after_backbone :
  forall (self : PromptDepthAnythingForDepthEstimation.t) (pixel_values : tensor)
         (output_attentions output_hidden_states : option bool)
         (prompt_depth : option tensor) (return_dict : option bool) (tr : trace),
    (length (shape pixel_values) <> 4%nat ->
     exists msg,
       PromptDepthAnythingForDepthEstimation.forward self pixel_values None
         output_attentions output_hidden_states prompt_depth return_dict tr
       = (inl (ValueError msg), tr ++ [Backbone]))
    /\
    (length (shape pixel_values) = 4%nat ->
     PromptDepthAnythingConfig.patch_size (PromptDepthAnythingForDepthEstimation.config self)
     = 0 ->
     PromptDepthAnythingForDepthEstimation.forward self pixel_values None
       output_attentions output_hidden_states prompt_depth return_dict tr
     = (inl ZeroDivisionError, tr ++ [Backbone])).
Proof.
  intros self pixel oa ohs prompt rd tr.
  unfold PromptDepthAnythingForDepthEstimation.forward.
  unfold bind at 1. unfold call at 1. split.
  - intros Hrank. eexists.
    destruct (shape pixel) as [|d0 [|d1 [|height [|width [|d4 rest]]]]];
      try reflexivity.
    cbn in Hrank. lia.
  - intros Hrank Hps.
    destruct (shape pixel) as [|d0 [|d1 [|height [|width [|d4 rest]]]]];
      try discriminate.
    rewrite Hps. reflexivity.
Qed.

End FailuresAfterBackbone.

Lemma forward_fails_after_backbone_witness :
  (exists msg,
     PromptDepthAnythingForDepthEstimation.forward (Reference.model 1 0)
       Examples.pixels_3d None None None None None []
     = (inl (ValueError msg), [] ++ [Backbone]))
  /\
  PromptDepthAnythingForDepthEstimation.forward Examples.model_patch_0
    Reference.pixels_28 None None None None None []
  = (inl ZeroDivisionError, [] ++ [Backbone]).
Proof.
  split.
  - apply (proj1 (@forward_fails_after_backbone Reference.ops (Reference.model 1 0)
                    Examples.pixels_3d None None None None [])).
    cbn. lia.
  - apply (proj2 (@forward_fails_after_backbone Reference.ops Examples.model_patch_0
                    Reference.pixels_28 None None None None [])).
    + reflexivity.
    + reflexivity.
Defined.

Section EmptyPrompt.
Context {ops : TorchOps}.

(** X15. A prompt with at least one batch element and with a batch
    element of no values cannot be reduced to its minimum: [forward] raises
    [IndexError] after the backbone has run and before the neck is
    called. *)
Theorem forward_rejects_empty_prompt :
  forall (self : PromptDepthAnythingForDepthEstimation.t) (pixel_values : tensor)
         (output_attentions output_hidden_states : option bool)
         (prompt_depth : tensor) (return_dict : option bool) (tr : trace)
         (B : Z) (dims : list Z),
    length (shape pixel_values) = 4%nat ->
    PromptDepthAnythingConfig.patch_size (PromptDepthAnythingForDepthEstimation.config self)
    <> 0 ->
    shape prompt_depth = B :: dims ->
    0 < B ->
    In [] (data prompt_depth) ->
    PromptDepthAnythingForDepthEstimation.forward self pixel_values None
      output_attentions output_hidden_states (Some prompt_depth) return_dict tr
    = (inl IndexError, tr ++ [Backbone]).
Proof.
  intros self pixel oa ohs pd rd tr B dims Hrank Hps Hshape HB Hempty.
  unfold PromptDepthAnythingForDepthEstimation.forward.
  unfold bind at 1. unfold call at 1.
  destruct (shape pixel) as [|d0 [|d1 [|height [|width [|d4 rest]]]]];
    try discriminate.
  apply Z.eqb_neq in Hps. rewrite Hps.
  destruct (PromptDepthAnythingForDepthEstimation.patch_grid _ height width) as [ph pw].
  unfold PromptDepthAnythingForDepthEstimation.normalize_prompt_depth.
  rewrite Hshape.
  destruct (Z.eqb_spec B 0) as [E|_]; [lia|].
  unfold depth_range.
  rewrite (@reduce_dim1_empty_row QScalar (@s_min QScalar) (data pd) Hempty).
  reflexivity.
Qed.

End EmptyPrompt.

Lemma forward_rejects_empty_prompt_witness :
  PromptDepthAnythingForDepthEstimation.forward (Reference.model 1 0)
    Reference.pixels_28 None None None (Some Examples.prompt_no_values) None []
  = (inl IndexError, [] ++ [Backbone]).
Proof.
  apply (@forward_rejects_empty_prompt Reference.ops (Reference.model 1 0) Reference.pixels_28
           None None Examples.prompt_no_values None [] 1 [1; 0; 2]).
  - reflexivity.
  - cbn. lia.
  - reflexivity.
  - lia.
  - left. reflexivity.
Defined.

Section OutputFormat.
Context {ops : TorchOps}.

(** A successful call has assembled its result from the backbone's result
    and some predicted depth, with the flags resolved. *)
Lemma forward_inv :
  forall (self : PromptDepthAnythingForDepthEstimation.t) (pixel_values : tensor)
         (output_attentions output_hidden_states : option bool)
         (prompt_depth : option tensor) (return_dict : option bool) (tr tr' : trace)
         (out : output),
    PromptDepthAnythingForDepthEstimation.forward self pixel_values None
      output_attentions output_hidden_states prompt_depth return_dict tr
    = (inr out, tr') ->
    let config := PromptDepthAnythingForDepthEstimation.config self in
    let return_dict' :=
      PromptDepthAnythingForDepthEstimation.or_default return_dict
        (PromptDepthAnythingConfig.use_return_dict config) in
    let output_hidden_states' :=
      PromptDepthAnythingForDepthEstimation.or_default output_hidden_states
        (PromptDepthAnythingConfig.output_hidden_states config) in
    let output_attentions' :=
      PromptDepthAnythingForDepthEstimation.or_default output_attentions
        (PromptDepthAnythingConfig.output_attentions config) in
    exists predicted,
      out = PromptDepthAnythingForDepthEstimation.assemble
              (PromptDepthAnythingForDepthEstimation.backbone self pixel_values
                 output_hidden_states' output_attentions')
              predicted return_dict' output_hidden_states'.
Proof.
  intros self pixel oa ohs prompt rd tr tr' out Hrun.
  unfold PromptDepthAnythingForDepthEstimation.forward in Hrun.
  unfold bind at 1 in Hrun. unfold call at 1 in Hrun.
  destruct (shape pixel) as [|d0 [|d1 [|height [|width [|d4 rest]]]]]; try discriminate.
  destruct (PromptDepthAnythingConfig.patch_size _ =? 0); [discriminate|].
  destruct (PromptDepthAnythingForDepthEstimation.patch_grid _ height width) as [ph pw].
  destruct prompt as [pd|].
  - destruct (PromptDepthAnythingForDepthEstimation.normalize_prompt_depth pd)
      as [e|[normalized [mins maxs]]]; [discriminate|].
    unfold bind at 1 in Hrun. unfold ret at 1 in Hrun.
    unfold bind at 1 in Hrun. unfold call at 1 in Hrun.
    unfold bind at 1 in Hrun.
    destruct (PromptDepthAnythingNeck.forward _ _ _ _ _ _) as [[e|hs] tr1];
      [discriminate|].
    unfold bind at 1 in Hrun. unfold call at 1 in Hrun.
    unfold bind at 1 in Hrun.
    destruct (PromptDepthAnythingDepthEstimationHead.forward _ hs ph pw _)
      as [[e|predicted] tr2]; [discriminate|].
    unfold bind, lift, ret in Hrun.
    destruct (PromptDepthAnythingForDepthEstimation.denormalize predicted mins maxs)
      as [e|restored]; [discriminate|].
    injection Hrun as <- _. cbv zeta. eexists. reflexivity.
  - unfold bind at 1 in Hrun. unfold ret at 1 in Hrun.
    unfold bind at 1 in Hrun. unfold call at 1 in Hrun.
    unfold bind at 1 in Hrun.
    destruct (PromptDepthAnythingNeck.forward _ _ _ _ _ _) as [[e|hs] tr1];
      [discriminate|].
    unfold bind at 1 in Hrun. unfold call at 1 in Hrun.
    unfold bind at 1 in Hrun.
    destruct (PromptDepthAnythingDepthEstimationHead.forward _ hs ph pw _)
      as [[e|predicted] tr2]; [discriminate|].
    unfold bind, ret in Hrun.
    injection Hrun as <- _. cbv zeta. eexists. reflexivity.
Qed.

(** X16. The result of a successful call: [None] for a flag means the
    default of the configuration. With [return_dict] on, the result is a
    [DepthEstimatorOutput] whose loss is [None], whose hidden states are the
    backbone's only when [output_hidden_states] is on, and whose attentions
    are the backbone's whatever [output_attentions] is; with [return_dict]
    off it is the predicted depth followed by the backbone's tuple from
    position 1 ([output_hidden_states] on) or 2 (off). *)
Theorem forward_output_format :
  forall (self : PromptDepthAnythingForDepthEstimation.t) (pixel_values : tensor)
         (output_attentions output_hidden_states : option bool)
         (prompt_depth : option tensor) (return_dict : option bool) (tr tr' : trace)
         (out : output),
    PromptDepthAnythingForDepthEstimation.forward self pixel_values None
      output_attentions output_hidden_states prompt_depth return_dict tr
    = (inr out, tr') ->
    let config := PromptDepthAnythingForDepthEstimation.config self in
    let return_dict' :=
      match return_dict with
      | Some flag => flag
      | None => PromptDepthAnythingConfig.use_return_dict config
      end in
    let output_hidden_states' :=
      match output_hidden_states with
      | Some flag => flag
      | None => PromptDepthAnythingConfig.output_hidden_states config
      end in
    let output_attentions' :=
      match output_attentions with
      | Some flag => flag
      | None => PromptDepthAnythingConfig.output_attentions config
      end in
    let outputs :=
      PromptDepthAnythingForDepthEstimation.backbone self pixel_values
        output_hidden_states' output_attentions' in
    (return_dict' = true ->
     out = ModelOutput
             {| DepthEstimatorOutput.loss := None;
                DepthEstimatorOutput.predicted_depth := predicted_depth_of out;
                DepthEstimatorOutput.hidden_states :=
                  if output_hidden_states'
                  then BackboneOutput.hidden_states outputs else None;
                DepthEstimatorOutput.attentions := BackboneOutput.attentions outputs |})
    /\
    (return_dict' = false ->
     out = PlainTuple (predicted_depth_of out)
             (skipn (if output_hidden_states' then 1 else 2)
                (BackboneOutput.as_tuple outputs))).
Proof.
  intros self pixel oa ohs prompt rd tr tr' out Hrun.
  destruct (forward_inv _ _ _ _ _ _ _ Hrun) as [predicted Hout].
  unfold PromptDepthAnythingForDepthEstimation.or_default in Hout.
  cbv zeta. rewrite Hout at 1 3.
  rewrite Hout, predicted_depth_of_assemble.
  unfold PromptDepthAnythingForDepthEstimation.assemble.
  split; intros Hrd; rewrite Hrd; cbn [negb].
  - reflexivity.
  - destruct (match ohs with Some _ => _ | None => _ end); reflexivity.
Qed.

End OutputFormat.

Lemma forward_output_format_witness :
  let out := Reference.output_28 1 0 in
  let outputs := Reference.backbone Reference.pixels_28 false false in
  (true = true ->
   out = ModelOutput
           {| DepthEstimatorOutput.loss := None;
              DepthEstimatorOutput.predicted_depth := predicted_depth_of out;
              DepthEstimatorOutput.hidden_states := None;
              DepthEstimatorOutput.attentions := BackboneOutput.attentions outputs |})
  /\
  (true = false ->
   out = PlainTuple (predicted_depth_of out)
           (skipn 2 (BackboneOutput.as_tuple outputs))).
Proof.
  apply (@forward_output_format Reference.ops (Reference.model 1 0) Reference.pixels_28
           None None (Some Reference.prompt_0_1) None [] (snd (Reference.run_28 1 0))
           (Reference.output_28 1 0)).
  vm_compute. reflexivity.
Defined.

(** ** The order of the sub-module calls *)

Lemma emits_ret {A : Type} (allowed : submodule -> bool) (a : A) :
  emits allowed (ret a).
Proof.
  intros tr r tr' H. unfold ret in H. injection H as _ <-.
  exists []. split; [symmetry; apply app_nil_r|constructor].
Qed.

Lemma emits_raise {A : Type} (allowed : submodule -> bool) (e : exn) :
  emits allowed (@raise A e).
Proof.
  intros tr r tr' H. unfold raise in H. injection H as _ <-.
  exists []. split; [symmetry; apply app_nil_r|constructor].
Qed.

Lemma emits_lift {A : Type} (allowed : submodule -> bool) (x : exn + A) :
  emits allowed (lift x).
Proof.
  intros tr r tr' H. unfold lift in H. injection H as _ <-.
  exists []. split; [symmetry; apply app_nil_r|constructor].
Qed.

Lemma emits_call (allowed : submodule -> bool) (s : submodule) :
  allowed s = true -> emits allowed (call s).
Proof.
  intros Hs tr r tr' H. unfold call in H. injection H as _ <-.
  exists [s]. split; [reflexivity|]. constructor; [exact Hs|constructor].
Qed.

Lemma emits_bind {A B : Type} (allowed : submodule -> bool) (m : M A) (k : A -> M B) :
  emits allowed m -> (forall a, emits allowed (k a)) -> emits allowed (bind m k).
Proof.
  intros Hm Hk tr r tr' H. unfold bind in H.
  destruct (m tr) as [[e|a] tr1] eqn:Em.
  - injection H as _ <-. exact (Hm _ _ _ Em).
  - destruct (Hm _ _ _ Em) as [c1 [-> H1]].
    destruct (Hk a _ _ _ H) as [c2 [-> H2]].
    exists (c1 ++ c2). split; [symmetry; apply app_assoc|].
    apply Forall_app. split; assumption.
Qed.

Lemma emits_for_each {A St : Type} (allowed : submodule -> bool)
  (body : St -> A -> M St) :
  (forall st x, emits allowed (body st x)) ->
  forall items st, emits allowed (for_each body items st).
Proof.
  intros Hbody. induction items as [|x rest IH]; intros st; simpl.
  - apply emits_ret.
  - apply emits_bind; [apply Hbody|exact IH].
Qed.

Section CallOrder.
Context {ops : TorchOps}.

Lemma fusion_stage_emits :
  forall (self : PromptDepthAnythingFeatureFusionStage.t) (hidden_states : list tensor)
         (size : option (list Z)) (prompt_depth : option tensor),
    emits inside_neck
      (PromptDepthAnythingFeatureFusionStage.forward self hidden_states size prompt_depth).
Proof.
  intros self hs size pd. unfold PromptDepthAnythingFeatureFusionStage.forward.
  apply emits_bind; [|intros; apply emits_ret].
  apply emits_for_each. intros st [idx [hidden_state layer]].
  unfold PromptDepthAnythingFeatureFusionStage.body.
  apply emits_bind.
  - destruct (negb _); [|apply emits_ret].
    destruct (getitem _ _); [apply emits_raise|apply emits_ret].
  - intros sz. apply emits_bind; [apply emits_call; reflexivity|intros; apply emits_ret].
Qed.

(** The neck calls its own sub-modules only. *)
Lemma neck_emits :
  forall (self : PromptDepthAnythingNeck.t) (hidden_states : pyobj)
         (patch_height patch_width : option Z) (prompt_depth : option tensor),
    emits inside_neck
      (PromptDepthAnythingNeck.forward self hidden_states patch_height patch_width
         prompt_depth).
Proof.
  intros self hs ph pw pd. unfold PromptDepthAnythingNeck.forward.
  destruct (negb (is_tuple_or_list hs)); [apply emits_raise|].
  destruct (negb _); [apply emits_raise|].
  apply emits_bind; [apply emits_call; reflexivity|intros _].
  apply emits_bind.
  { unfold PromptDepthAnythingReassembleStage.forward.
    destruct (negb _); [apply emits_raise|apply emits_ret]. }
  intros reassembled. apply emits_bind.
  { apply emits_for_each. intros st [i feature].
    unfold PromptDepthAnythingNeck.readout.
    apply emits_bind; [apply emits_lift|intros conv].
    apply emits_bind; [apply emits_call; reflexivity|intros; apply emits_ret]. }
  intros features. apply emits_bind; [apply emits_call; reflexivity|intros _].
  apply emits_bind; [apply fusion_stage_emits|intros; apply emits_ret].
Qed.

Lemma head_keeps_trace :
  forall (self : PromptDepthAnythingDepthEstimationHead.t) (hidden_states : list tensor)
         (patch_height patch_width : Z) (tr : trace),
    snd (PromptDepthAnythingDepthEstimationHead.forward self hidden_states
           patch_height patch_width tr) = tr.
Proof.
  intros self hs ph pw tr. unfold PromptDepthAnythingDepthEstimationHead.forward.
  unfold bind, lift. destruct (getitem hs _) as [e|x]; [reflexivity|].
  destruct (PromptDepthAnythingDepthEstimationHead.target_size self ph pw).
  reflexivity.
Qed.

(** The calls after the backbone's, from the neck on. *)
Lemma neck_and_head_calls :
  forall (self : PromptDepthAnythingForDepthEstimation.t) (features : pyobj)
         (patch_height patch_width : Z) (prompt_depth : option tensor)
         (finish : tensor -> M output) (tr0 tr' : trace) (r : exn + output),
    (forall t tr, snd (finish t tr) = tr) ->
    (call NeckModule ;;;
     hidden_states <- PromptDepthAnythingNeck.forward
                        (PromptDepthAnythingForDepthEstimation.neck self) features
                        (Some patch_height) (Some patch_width) prompt_depth ;;
     call HeadModule ;;;
     predicted_depth <- PromptDepthAnythingDepthEstimationHead.forward
                          (PromptDepthAnythingForDepthEstimation.head self)
                          hidden_states patch_height patch_width ;;
     finish predicted_depth)%py tr0 = (r, tr') ->
    exists neck_calls,
      Forall (fun s => inside_neck s = true) neck_calls /\
      (tr' = tr0 ++ NeckModule :: neck_calls \/
       tr' = tr0 ++ NeckModule :: neck_calls ++ [HeadModule]) /\
      (forall out, r = inr out -> tr' = tr0 ++ NeckModule :: neck_calls ++ [HeadModule]).
Proof.
  intros self features ph pw pd finish tr0 tr' r Hfinish Hrun.
  unfold bind at 1 in Hrun. unfold call at 1 in Hrun. unfold bind at 1 in Hrun.
  destruct (PromptDepthAnythingNeck.forward _ features (Some ph) (Some pw) pd
              (tr0 ++ [NeckModule])) as [[e|hs] tr1] eqn:Hneck;
    destruct (neck_emits _ _ _ _ _ _ Hneck) as [neck_calls [-> Hinside]];
    exists neck_calls; (split; [exact Hinside|]);
    rewrite <- app_assoc in Hrun; cbn [app] in Hrun.
  { injection Hrun as <- <-. split; [left; reflexivity|]. intros out H. discriminate. }
  unfold bind at 1 in Hrun. unfold call at 1 in Hrun. unfold bind at 1 in Hrun.
  pose proof (head_keeps_trace (PromptDepthAnythingForDepthEstimation.head self) hs ph pw
                ((tr0 ++ NeckModule :: neck_calls) ++ [HeadModule])) as Hhead.
  destruct (PromptDepthAnythingDepthEstimationHead.forward _ hs ph pw _)
    as [[e|predicted] tr2]; cbn [snd] in Hhead; subst tr2;
    rewrite <- app_assoc in Hrun; cbn [app] in Hrun.
  { injection Hrun as <- <-. split; [right; reflexivity|]. intros out H. discriminate. }
  pose proof (Hfinish predicted (tr0 ++ NeckModule :: neck_calls ++ [HeadModule])) as Hf.
  rewrite Hrun in Hf. cbn [snd] in Hf. subst tr'.
  split; [right; reflexivity|]. intros out H. reflexivity.
Qed.

(** X17. The order of the sub-module calls, for every input without labels
    and every outcome. [forward] calls the backbone first and once. If it
    calls anything else, the neck comes next, once, followed by calls of
    the neck's own sub-modules only; the head, if it is called, is called
    once, after these, and nothing is called after it. A run that returns
    has called the backbone, the neck and the head. *)
Theorem forward_call_order :
  forall (self : PromptDepthAnythingForDepthEstimation.t) (pixel_values : tensor)
         (output_attentions output_hidden_states : option bool)
         (prompt_depth : option tensor) (return_dict : option bool) (tr : trace),
    let run :=
      PromptDepthAnythingForDepthEstimation.forward self pixel_values None
        output_attentions output_hidden_states prompt_depth return_dict tr in
    exists neck_calls,
      Forall (fun s => inside_neck s = true) neck_calls /\
      (snd run = tr ++ [Backbone] \/
       snd run = tr ++ Backbone :: NeckModule :: neck_calls \/
       snd run = tr ++ Backbone :: NeckModule :: neck_calls ++ [HeadModule]) /\
      (forall out, fst run = inr out ->
                   snd run = tr ++ Backbone :: NeckModule :: neck_calls ++ [HeadModule]).
Proof.
  intros self pixel oa ohs prompt rd tr. cbv zeta.
  destruct (PromptDepthAnythingForDepthEstimation.forward self pixel None oa ohs prompt
              rd tr) as [r tr'] eqn:Hrun.
  cbn [fst snd].
  unfold PromptDepthAnythingForDepthEstimation.forward in Hrun.
  unfold bind at 1 in Hrun. unfold call at 1 in Hrun.
  assert (Hearly : forall e : exn,
            @raise output e (tr ++ [Backbone]) = (r, tr') ->
            exists neck_calls : trace,
              Forall (fun s => inside_neck s = true) neck_calls /\
              (tr' = tr ++ [Backbone] \/
               tr' = tr ++ Backbone :: NeckModule :: neck_calls \/
               tr' = tr ++ Backbone :: NeckModule :: neck_calls ++ [HeadModule]) /\
              (forall out, r = inr out ->
                 tr' = tr ++ Backbone :: NeckModule :: neck_calls ++ [HeadModule])).
  { intros e H. unfold raise in H. injection H as <- <-.
    exists []. split; [constructor|].
    split; [left; reflexivity|]. intros out H. discriminate. }
  destruct (shape pixel) as [|d0 [|d1 [|height [|width [|d4 rest]]]]];
    try (eapply Hearly; exact Hrun).
  destruct (PromptDepthAnythingConfig.patch_size _ =? 0);
    [eapply Hearly; exact Hrun|].
  destruct (PromptDepthAnythingForDepthEstimation.patch_grid _ height width) as [ph pw].
  assert (Hlate : forall (features : pyobj) (pd : option tensor)
                         (finish : tensor -> M output),
            (forall t tr, snd (finish t tr) = tr) ->
            (call NeckModule ;;;
             hidden_states <- PromptDepthAnythingNeck.forward
                                (PromptDepthAnythingForDepthEstimation.neck self)
                                features (Some ph) (Some pw) pd ;;
             call HeadModule ;;;
             predicted_depth <- PromptDepthAnythingDepthEstimationHead.forward
                                  (PromptDepthAnythingForDepthEstimation.head self)
                                  hidden_states ph pw ;;
             finish predicted_depth)%py (tr ++ [Backbone]) = (r, tr') ->
            exists neck_calls,
              Forall (fun s => inside_neck s = true) neck_calls /\
              (tr' = tr ++ [Backbone] \/
               tr' = tr ++ Backbone :: NeckModule :: neck_calls \/
               tr' = tr ++ Backbone :: NeckModule :: neck_calls ++ [HeadModule]) /\
              (forall out, r = inr out ->
                 tr' = tr ++ Backbone :: NeckModule :: neck_calls ++ [HeadModule])).
  { intros features pd finish Hfinish H.
    destruct (@neck_and_head_calls self features ph pw pd finish (tr ++ [Backbone])
                tr' r Hfinish H) as [neck_calls [Hinside [Hany Hok]]].
    exists neck_calls. split; [exact Hinside|]. split.
    - destruct Hany as [H'|H']; [right; left|right; right];
        rewrite H', <- app_assoc; reflexivity.
    - intros out Hout. rewrite (Hok out Hout), <- app_assoc. reflexivity. }
  destruct prompt as [pd|].
  - destruct (PromptDepthAnythingForDepthEstimation.normalize_prompt_depth pd)
      as [e|[normalized [mins maxs]]].
    + unfold bind at 1 in Hrun. eapply Hearly. exact Hrun.
    + unfold bind at 1 in Hrun. unfold ret at 1 in Hrun.
      refine (Hlate _ (Some normalized)
               (fun predicted_depth =>
                  (restored <- lift (PromptDepthAnythingForDepthEstimation.denormalize
                                       predicted_depth mins maxs) ;;
                   ret (PromptDepthAnythingForDepthEstimation.assemble _ restored _ _))%py)
               _ Hrun).
      intros t tr1. unfold bind, lift, ret.
      destruct (PromptDepthAnythingForDepthEstimation.denormalize t mins maxs);
        reflexivity.
  - unfold bind at 1 in Hrun. unfold ret at 1 in Hrun.
    refine (Hlate _ None
             (fun predicted_depth =>
                (restored <- ret predicted_depth ;;
                 ret (PromptDepthAnythingForDepthEstimation.assemble _ restored _ _))%py)
             _ Hrun).
    intros t tr1. reflexivity.
Qed.

End CallOrder.

(** * [_init_weights] *)

Section InitWeights.
Import PromptDepthAnythingPreTrainedModel.

Variable rng : Type.
Variable normal_ : rng -> nat -> Q -> Q -> list Q * rng.

Local Abbreviation init_weights := (@_init_weights rng normal_).

Lemma fill_length : forall (v : Q) (t : list Q), length (fill_ v t) = length t.
Proof. intros v t. unfold fill_. apply length_map. Qed.

Lemma fill_values : forall (v : Q) (t : list Q), Forall (fun x => x = v) (fill_ v t).
Proof.
  intros v t. unfold fill_. apply Forall_forall. intros x Hx.
  apply in_map_iff in Hx. destruct Hx as [? [<- _]]. reflexivity.
Qed.

(** X20. What a call that returns has done, given that [normal_] keeps the
    number of values: the class of the module and the sizes of its
    parameters are kept; the bias of a linear layer, a convolution or a
    normalization is all zeros; the weight of a normalization is all ones;
    any other module is left as it was; and only a linear layer or a
    convolution draws from the random number generator. *)
Theorem init_weights_postcondition :
  forall (initializer_range : Q) (module module' : parameters) (g g' : rng),
    (forall (g0 : rng) (n : nat) (mean std : Q),
       length (fst (normal_ g0 n mean std)) = n) ->
    init_weights initializer_range module g = (Returned, module', g') ->
    kind_of module' = kind_of module /\
    option_map (@length Q) (weight module') = option_map (@length Q) (weight module) /\
    option_map (@length Q) (bias module') = option_map (@length Q) (bias module) /\
    (kind_of module <> OtherModule ->
     forall b, bias module' = Some b -> Forall (fun x => x = 0%Q) b) /\
    (kind_of module = LayerNorm ->
     forall w, weight module' = Some w -> Forall (fun x => x = 1%Q) w) /\
    (kind_of module = OtherModule -> module' = module) /\
    (kind_of module = LayerNorm \/ kind_of module = OtherModule -> g' = g).
Proof.
  intros ir module module' g g' Hnormal Hrun.
  unfold _init_weights in Hrun.
  destruct module as [k w b]. cbn [kind_of weight bias] in *.
  assert (Hconv :
    k <> LayerNorm -> k <> OtherModule ->
    match w with
    | None => (AttributeError, {| kind_of := k; weight := w; bias := b |}, g)
    | Some w0 =>
        let '(w', g'0) := normal_ g (length w0) 0%Q ir in
        match b with
        | Some b0 =>
            (Returned, {| kind_of := k; weight := Some w'; bias := Some (zero_ b0) |},
             g'0)
        | None => (Returned, {| kind_of := k; weight := Some w'; bias := b |}, g'0)
        end
    end = (Returned, module', g') ->
    kind_of module' = k /\
    option_map (@length Q) (weight module') = option_map (@length Q) w /\
    option_map (@length Q) (bias module') = option_map (@length Q) b /\
    (k <> OtherModule -> forall b0, bias module' = Some b0 -> Forall (fun x => x = 0%Q) b0) /\
    (k = LayerNorm -> forall w0, weight module' = Some w0 -> Forall (fun x => x = 1%Q) w0) /\
    (k = OtherModule -> module' = {| kind_of := k; weight := w; bias := b |}) /\
    (k = LayerNorm \/ k = OtherModule -> g' = g)).
  { intros Hln Hother H.
    destruct w as [w0|]; [|discriminate].
    pose proof (Hnormal g (length w0) 0%Q ir) as Hlen.
    destruct (normal_ g (length w0) 0%Q ir) as [w' g1]. cbn [fst] in Hlen.
    destruct b as [b0|]; injection H as <- <-; cbn [kind_of weight bias option_map].
    - repeat split; try congruence.
      + unfold zero_. rewrite fill_length. reflexivity.
      + intros _ b1 E. injection E as <-. apply fill_values.
      + intros [E|E]; congruence.
    - repeat split; try congruence.
      intros [E|E]; congruence. }
  destruct k; try (apply Hconv; [discriminate|discriminate|exact Hrun]).
  - destruct b as [b0|]; [|discriminate].
    destruct w as [w0|]; [|discriminate].
    injection Hrun as <- <-. cbn [kind_of weight bias option_map].
    repeat split; try congruence.
    + rewrite fill_length. reflexivity.
    + unfold zero_. rewrite fill_length. reflexivity.
    + intros _ b1 E. injection E as <-. apply fill_values.
    + intros _ w1 E. injection E as <-. apply fill_values.
  - injection Hrun as <- <-. cbn [kind_of weight bias].
    repeat split; try congruence.
Qed.

(** X21. When [_init_weights] raises: on a normalization layer without a
    bias or without a weight, and on a linear layer or convolution without a
    weight, and in no other case. A convolution without a bias is
    initialized; a normalization without a bias is not, and when only its
    weight is missing its bias has been zeroed before the exception. *)
Theorem init_weights_raises :
  forall (initializer_range : Q) (module : parameters) (g : rng),
    let result := init_weights initializer_range module g in
    (fst (fst result) = AttributeError <->
     (kind_of module = LayerNorm /\ (bias module = None \/ weight module = None)) \/
     ((kind_of module = Linear \/ kind_of module = Conv2dModule \/
       kind_of module = ConvTranspose2dModule) /\ weight module = None)) /\
    (forall b, kind_of module = LayerNorm -> bias module = Some b -> weight module = None ->
               result = (AttributeError,
                         {| kind_of := LayerNorm; weight := None; bias := Some (zero_ b) |},
                         g)).
Proof.
  intros ir module g. cbv zeta. unfold _init_weights.
  destruct module as [k w b]. cbn [kind_of weight bias].
  split.
  - destruct k; destruct w as [w0|];
      try destruct (normal_ g (length w0) 0%Q ir) as [w' g1];
      destruct b as [b0|]; cbn [fst]; split; intros H;
      try reflexivity; try discriminate;
      try (left; split; [reflexivity|]; (left; reflexivity) || (right; reflexivity));
      try (right; split; [|reflexivity]; tauto);
      try (destruct H as [[H1 [H2|H2]]|[[H1|[H1|H1]] H2]]; discriminate).
  - intros b0 -> -> ->. reflexivity.
Qed.

End InitWeights.

Lemma init_weights_postcondition_witness :
  let module :=
    {| PromptDepthAnythingPreTrainedModel.kind_of :=
         PromptDepthAnythingPreTrainedModel.Conv2dModule;
       PromptDepthAnythingPreTrainedModel.weight := Some [3%Q; 4%Q];
       PromptDepthAnythingPreTrainedModel.bias := Some [5%Q] |} in
  let module' :=
    {| PromptDepthAnythingPreTrainedModel.kind_of :=
         PromptDepthAnythingPreTrainedModel.Conv2dModule;
       PromptDepthAnythingPreTrainedModel.weight := Some [0%Q; 0%Q];
       PromptDepthAnythingPreTrainedModel.bias := Some [0%Q] |} in
  PromptDepthAnythingPreTrainedModel.kind_of module'
  = PromptDepthAnythingPreTrainedModel.kind_of module /\
  option_map (@length Q) (PromptDepthAnythingPreTrainedModel.weight module')
  = option_map (@length Q) (PromptDepthAnythingPreTrainedModel.weight module) /\
  option_map (@length Q) (PromptDepthAnythingPreTrainedModel.bias module')
  = option_map (@length Q) (PromptDepthAnythingPreTrainedModel.bias module) /\
  (PromptDepthAnythingPreTrainedModel.kind_of module
   <> PromptDepthAnythingPreTrainedModel.OtherModule ->
   forall b, PromptDepthAnythingPreTrainedModel.bias module' = Some b ->
             Forall (fun x => x = 0%Q) b) /\
  (PromptDepthAnythingPreTrainedModel.kind_of module
   = PromptDepthAnythingPreTrainedModel.LayerNorm ->
   forall w, PromptDepthAnythingPreTrainedModel.weight module' = Some w ->
             Forall (fun x => x = 1%Q) w) /\
  (PromptDepthAnythingPreTrainedModel.kind_of module
   = PromptDepthAnythingPreTrainedModel.OtherModule -> module' = module) /\
  (PromptDepthAnythingPreTrainedModel.kind_of module
   = PromptDepthAnythingPreTrainedModel.LayerNorm \/
   PromptDepthAnythingPreTrainedModel.kind_of module
   = PromptDepthAnythingPreTrainedModel.OtherModule -> 2%nat = 0%nat).
Proof.
  cbv zeta.
  apply (@init_weights_postcondition nat
           PromptDepthAnythingPreTrainedModel.constant_normal (1 # 50)
           {| PromptDepthAnythingPreTrainedModel.kind_of :=
                PromptDepthAnythingPreTrainedModel.Conv2dModule;
              PromptDepthAnythingPreTrainedModel.weight := Some [3%Q; 4%Q];
              PromptDepthAnythingPreTrainedModel.bias := Some [5%Q] |}
           _ 0%nat 2%nat).
  - intros g0 n mean std. cbn [PromptDepthAnythingPreTrainedModel.constant_normal fst].
    apply repeat_length.
  - reflexivity.
Defined.

(** * The resolution of the predicted depth *)

Section DepthResolution.
Context {ops : TorchOps} {laws : TorchLaws ops}.

(** X22. The predicted depth is at the resolution of the patch grid, not of
    the pixels: on pixels of shape [(1, c, height, width)], a well-formed
    model with a positive patch size returns a predicted depth of shape
    [(1, height - height mod patch_size, width - width mod patch_size)],
    which is [(1, height, width)] only when the patch size divides both. *)
Theorem forward_depth_resolution :
  forall (self : PromptDepthAnythingForDepthEstimation.t) (pixel_values : tensor)
         (output_attentions output_hidden_states : option bool)
         (prompt_depth : option tensor) (return_dict : option bool) (tr : trace)
         (c height width : Z),
    let patch_size :=
      PromptDepthAnythingConfig.patch_size (PromptDepthAnythingForDepthEstimation.config self) in
    model_ok self ->
    0 < patch_size ->
    shape pixel_values = [1; c; height; width] ->
    prompt_well_formed 1 prompt_depth ->
    exists out tr',
      PromptDepthAnythingForDepthEstimation.forward self pixel_values None
        output_attentions output_hidden_states prompt_depth return_dict tr
      = (inr out, tr') /\
      shape (predicted_depth_of out)
      = [1; height - height mod patch_size; width - width mod patch_size] /\
      (shape (predicted_depth_of out) = [1; height; width] <->
       (patch_size | height) /\ (patch_size | width)).
Proof.
  intros self pixel oa ohs prompt rd tr c height width ps Hok Hps Hpixel Hprompt.
  destruct (@forward_shape _ _ self pixel oa ohs prompt rd tr c height width Hok
              ltac:(fold ps; lia) Hpixel Hprompt) as [out [tr' [Hrun Hshape]]].
  exists out, tr'. split; [exact Hrun|].
  cbv zeta in Hshape. fold ps in Hshape.
  unfold PromptDepthAnythingDepthEstimationHead.target_size,
    PromptDepthAnythingForDepthEstimation.patch_grid in Hshape.
  cbn [fst snd] in Hshape.
  rewrite (head_patch_size_ok (model_head_ok Hok)), !torch_int_inject_Z in Hshape.
  fold ps in Hshape.
  assert (Hh : height / ps * ps = height - height mod ps)
    by (rewrite Z.mod_eq by lia; lia).
  assert (Hw : width / ps * ps = width - width mod ps)
    by (rewrite Z.mod_eq by lia; lia).
  rewrite Hh, Hw in Hshape. split; [exact Hshape|].
  rewrite Hshape. split.
  - intros E. injection E as Eh Ew.
    split; apply Z.mod_divide; lia.
  - intros [Dh Dw].
    apply Z.mod_divide in Dh; [|lia]. apply Z.mod_divide in Dw; [|lia].
    rewrite Dh, Dw, !Z.sub_0_r. reflexivity.
Qed.

End DepthResolution.

Lemma forward_depth_resolution_witness :
  exists out tr',
    PromptDepthAnythingForDepthEstimation.forward (Reference.model 1 0)
      Examples.pixels_30_45 None None None None None []
    = (inr out, tr') /\
    shape (predicted_depth_of out) = [1; 30 - 30 mod 14; 45 - 45 mod 14] /\
    (shape (predicted_depth_of out) = [1; 30; 45] <-> (14 | 30) /\ (14 | 45)).
Proof.
  apply (@forward_depth_resolution Reference.ops Reference_laws (Reference.model 1 0)
           Examples.pixels_30_45 None None None None [] 3 30 45).
  - apply Reference_model_ok.
  - reflexivity.
  - reflexivity.
  - exact I.
Defined.
